(** * dingo.gw.waveform_dataset: SVD basis, waveform dataset, reduced-basis builder

    A shallow embedding of [src/dingo/gw/waveform_dataset.py].

    - numpy arrays are lists (of lists) of scalars tagged with a dtype and a
      shape; the scalars themselves (floating-point numbers) are abstract;
    - Python objects with mutable attributes are records threaded through a
      state-and-exception monad; an attribute that has not been assigned yet
      is [None];
    - the numerical routines of scikit-learn and scipy, the domain object of
      [dingo.gw.domains] and [ast.literal_eval] are interfaces (type classes);
      what is assumed about them is stated as explicit contracts next to the
      theorems that need it. *)

From Stdlib Require Import ZArith Ascii String Sorted Lia.
From stdpp Require Import base option list gmap strings pretty.

Open Scope string_scope.

(** ** Exceptions and the state-and-exception monad *)

Inductive exn : Type :=
| ValueError (msg : string)
| NotImplementedError (msg : string)
| AssertionError (msg : string)
| KeyError (key : string)
| IndexError (msg : string)
| TypeError (msg : string)
| AttributeError (name : string)
| FileNotFoundError (filename : string)
| OSError (msg : string)
| RuntimeError (msg : string).

Definition result (A : Type) : Type := (exn + A)%type.

(** A computation over a mutable state [St]: it ends with an exception or a
    value, and in both cases leaves a state behind. *)
Definition M (St A : Type) : Type := St -> result A * St.

Definition ret {St A} (a : A) : M St A := fun st => (inr a, st).

Definition bind {St A B} (m : M St A) (k : A -> M St B) : M St B :=
  fun st => match m st with
            | (inl e, st') => (inl e, st')
            | (inr a, st') => k a st'
            end.

Definition raise {St A} (e : exn) : M St A := fun st => (inl e, st).

Definition get {St} : M St St := fun st => (inr st, st).

Definition modify {St} (f : St -> St) : M St unit := fun st => (inr tt, f st).

Definition lift {St A} (r : result A) : M St A := fun st => (r, st).

#[global] Instance M_ret {St} : MRet (M St) := fun _ a => ret a.
#[global] Instance M_bind {St} : MBind (M St) := fun _ _ k m => bind m k.

(** ** Python sequences *)

(** [t[i]] for an integer [i]: negative indices count from the end. *)
Definition py_index {A} (l : list A) (i : Z) : option A :=
  if (i <? 0)%Z
  then (if (i + Z.of_nat (length l) <? 0)%Z then None
        else l !! Z.to_nat (i + Z.of_nat (length l)))
  else l !! Z.to_nat i.

(** The stop position of the slice [[:n]] on a sequence of length [len]. *)
Definition slice_stop (len : nat) (n : Z) : nat :=
  if (n <? 0)%Z then Z.to_nat (Z.of_nat len + n) else Nat.min (Z.to_nat n) len.

(** The normalised bound of [lo] in a slice [[lo:hi]]. *)
Definition slice_bound (len : nat) (i : Z) : nat :=
  if (i <? 0)%Z then Z.to_nat (Z.of_nat len + i) else Nat.min (Z.to_nat i) len.

(** Insertion-ordered dictionaries with string keys. *)
Definition dict (A : Type) : Type := list (string * A).

Fixpoint dict_get {A} (d : dict A) (k : string) : option A :=
  match d with
  | [] => None
  | (k', v) :: d' => if String.eqb k' k then Some v else dict_get d' k
  end.

Fixpoint dict_set {A} (d : dict A) (k : string) (v : A) : dict A :=
  match d with
  | [] => [(k, v)]
  | (k', v') :: d' =>
      if String.eqb k' k then (k', v) :: d' else (k', v') :: dict_set d' k v
  end.

Definition keys {A} (d : dict A) : list string := fst <$> d.

Definition getitem {St A} (d : dict A) (k : string) : M St A :=
  match dict_get d k with
  | Some v => ret v
  | None => raise (KeyError k)
  end.

Fixpoint ends_with_rev (suffix_rev s_rev : list ascii) : bool :=
  match suffix_rev, s_rev with
  | [], _ => true
  | a :: p, b :: q => if Ascii.eqb a b then ends_with_rev p q else false
  | _ :: _, [] => false
  end.

(** [s.endswith(suffix)] *)
Definition endswith (s suffix : string) : bool :=
  ends_with_rev (rev (list_ascii_of_string suffix)) (rev (list_ascii_of_string s)).

(** ** numpy arrays *)

Inductive dtype : Type := float32 | float64 | complex64 | complex128.

#[global] Instance dtype_eq_dec : EqDecision dtype.
Proof. solve_decision. Defined.

Definition is_complex (dt : dtype) : bool :=
  match dt with complex64 | complex128 => true | _ => false end.

Definition is_double (dt : dtype) : bool :=
  match dt with float64 | complex128 => true | _ => false end.

(** [np.result_type] on the four floating dtypes. *)
Definition result_type (a b : dtype) : dtype :=
  match is_complex a || is_complex b, is_double a || is_double b with
  | true, true => complex128
  | true, false => complex64
  | false, true => float64
  | false, false => float32
  end.

(** A one-dimensional array. *)
Record vector (A : Type) : Type := Vector {
  v_dtype : dtype;
  elems : list A
}.
Arguments Vector {A}.
Arguments v_dtype {A}.
Arguments elems {A}.

(** A two-dimensional array of shape [(nrows, ncols)], row-major. *)
Record matrix (A : Type) : Type := Matrix {
  m_dtype : dtype;
  nrows : nat;
  ncols : nat;
  rows : list (list A)
}.
Arguments Matrix {A}.
Arguments m_dtype {A}.
Arguments nrows {A}.
Arguments ncols {A}.
Arguments rows {A}.

(** The stored rows agree with the shape. *)
Definition wf_matrix {A} (m : matrix A) : Prop :=
  length (rows m) = nrows m /\ Forall (fun r => length r = ncols m) (rows m).

(** Arrays of dimension zero, one and two. *)
Inductive ndarray (A : Type) : Type :=
| Arr0 (dt : dtype) (x : A)
| Arr1 (v : vector A)
| Arr2 (m : matrix A).
Arguments Arr0 {A}.
Arguments Arr1 {A}.
Arguments Arr2 {A}.

Definition dtype_of {A} (a : ndarray A) : dtype :=
  match a with
  | Arr0 dt _ => dt
  | Arr1 v => v_dtype v
  | Arr2 m => m_dtype m
  end.

(** [a.shape] *)
Definition shape {A} (a : ndarray A) : list nat :=
  match a with
  | Arr0 _ _ => []
  | Arr1 v => [length (elems v)]
  | Arr2 m => [nrows m; ncols m]
  end.

(** [a.shape[i]] *)
Definition shape_at {St A} (a : ndarray A) (i : Z) : M St nat :=
  match py_index (shape a) i with
  | Some d => ret d
  | None => raise (IndexError "tuple index out of range")
  end.

Definition column {A} (j : nat) (rs : list (list A)) : list A :=
  omap (fun r : list A => r !! j) rs.

(** The first [c] columns of [rs], as rows. *)
Definition columns_of {A} (c : nat) (rs : list (list A)) : list (list A) :=
  (fun j => column j rs) <$> seq 0 c.

(** [m.T] *)
Definition transpose {A} (m : matrix A) : matrix A :=
  Matrix (m_dtype m) (ncols m) (nrows m) (columns_of (ncols m) (rows m)).

Definition map_matrix {A} (f : A -> A) (m : matrix A) : matrix A :=
  Matrix (m_dtype m) (nrows m) (ncols m) (map f <$> rows m).

(** [m[:n, :]] *)
Definition take_rows {A} (n : Z) (m : matrix A) : matrix A :=
  let k := slice_stop (nrows m) n in
  Matrix (m_dtype m) k (ncols m) (take k (rows m)).

(** [m[:, :n]] *)
Definition take_cols {A} (n : Z) (m : matrix A) : matrix A :=
  let k := slice_stop (ncols m) n in
  Matrix (m_dtype m) (nrows m) k (take k <$> rows m).

(** ** Scalars

    The entries of arrays are floating-point numbers, real or complex. They
    are kept abstract: a type with the operations the program applies to
    them. [cast dt x] is the value of [x] converted to dtype [dt], [nan] is
    what numpy stores for [None] in a floating array. *)
Class Scalars : Type := {
  scalar : Type;
  conj : scalar -> scalar;
  cast : dtype -> scalar -> scalar;
  nan : scalar;
  czero : scalar;
  cadd : scalar -> scalar -> scalar;
  cmul : scalar -> scalar -> scalar;
  (** what [np.empty] finds in memory for entry [(i, j)] of the buffer it
      allocates for channel [k] *)
  stale : string -> nat -> nat -> scalar
}.

(** The libraries' calls that do numerical or file work, recorded in the
    order in which they are made. *)
Inductive libcall : Type :=
| call_randomized_svd
| call_scipy_linalg_svd
| call_np_save (filename : string)
| call_np_load (filename : string).

(** The result [(U, s, Vh)] of a decomposition. *)
Definition svd_result `{Scalars} : Type :=
  (matrix scalar * vector scalar * matrix scalar)%type.

(** The two decomposition routines, [sklearn.utils.extmath.randomized_svd]
    (called with [random_state=0]) and [scipy.linalg.svd] (called with
    [full_matrices=False]). *)
Class LinAlg `{Scalars} : Type := {
  randomized_svd : matrix scalar -> Z -> result svd_result;
  scipy_linalg_svd : matrix scalar -> result svd_result
}.

Section Arrays.
Context `{Scalars}.

(** [a.astype(dt)] *)
Definition astype_matrix (dt : dtype) (m : matrix scalar) : matrix scalar :=
  Matrix dt (nrows m) (ncols m) (map (cast dt) <$> rows m).

Definition astype (dt : dtype) (a : ndarray scalar) : ndarray scalar :=
  match a with
  | Arr0 _ x => Arr0 dt (cast dt x)
  | Arr1 v => Arr1 (Vector dt (cast dt <$> elems v))
  | Arr2 m => Arr2 (astype_matrix dt m)
  end.

(** [np.array(obj, dtype=dt)] where [obj] is [None] or an array. numpy
    converts [None] to a zero-dimensional array holding NaN. *)
Definition np_array (obj : option (ndarray scalar)) (dt : dtype) : ndarray scalar :=
  match obj with
  | None => Arr0 dt (cast dt nan)
  | Some a => astype dt a
  end.

(** [m.conj()] *)
Definition conj_matrix (m : matrix scalar) : matrix scalar := map_matrix conj m.

(** [m.T.conj()] *)
Definition T_conj_matrix (m : matrix scalar) : matrix scalar :=
  conj_matrix (transpose m).

(** [a.T.conj()]; [.T] of an array of dimension below two is the array. *)
Definition T_conj (a : ndarray scalar) : ndarray scalar :=
  match a with
  | Arr0 dt x => Arr0 dt (conj x)
  | Arr1 v => Arr1 (Vector (v_dtype v) (conj <$> elems v))
  | Arr2 m => Arr2 (T_conj_matrix m)
  end.

(** [a[idx]] for an integer [idx]. *)
Definition index_row {St} (a : ndarray scalar) (idx : Z) : M St (ndarray scalar) :=
  match a with
  | Arr0 _ _ => raise (IndexError "too many indices for array")
  | Arr1 v =>
      match py_index (elems v) idx with
      | Some x => ret (Arr0 (v_dtype v) x)
      | None => raise (IndexError "index out of bounds")
      end
  | Arr2 m =>
      match py_index (rows m) idx with
      | Some r => ret (Arr1 (Vector (m_dtype m) r))
      | None => raise (IndexError "index out of bounds")
      end
  end.

(** The message of [@] on an operand without dimensions. *)
Definition matmul_dimension_error : string :=
  "matmul: Input operand does not have enough dimensions".

Definition dot (u v : list scalar) : scalar :=
  foldr (fun p acc => cadd (cmul p.1 p.2) acc) czero (zip u v).

(** [a @ b] *)
Definition matmul {St} (a b : ndarray scalar) : M St (ndarray scalar) :=
  let dt := result_type (dtype_of a) (dtype_of b) in
  match a, b with
  | Arr0 _ _, _ | _, Arr0 _ _ =>
      raise (ValueError matmul_dimension_error)
  | Arr1 u, Arr1 v =>
      if decide (length (elems u) = length (elems v))
      then ret (Arr0 dt (dot (cast dt <$> elems u) (cast dt <$> elems v)))
      else raise (ValueError "matmul: Input operand 1 has a mismatch in its core dimension 0")
  | Arr1 u, Arr2 m =>
      if decide (length (elems u) = nrows m)
      then ret (Arr1 (Vector dt
             ((fun c => dot (cast dt <$> elems u) (cast dt <$> c))
                <$> rows (transpose m))))
      else raise (ValueError "matmul: Input operand 1 has a mismatch in its core dimension 0")
  | Arr2 m, Arr1 v =>
      if decide (ncols m = length (elems v))
      then ret (Arr1 (Vector dt
             ((fun r => dot (cast dt <$> r) (cast dt <$> elems v)) <$> rows m)))
      else raise (ValueError "matmul: Input operand 1 has a mismatch in its core dimension 0")
  | Arr2 m, Arr2 m' =>
      if decide (ncols m = nrows m')
      then ret (Arr2 (Matrix dt (nrows m) (ncols m')
             ((fun r => (fun c => dot (cast dt <$> r) (cast dt <$> c))
                          <$> rows (transpose m')) <$> rows m)))
      else raise (ValueError "matmul: Input operand 1 has a mismatch in its core dimension 0")
  end.

(** ** Files *)

(** The members of an HDF5 file: a table of named numeric columns, an
    array, or a group of arrays. A group lists its members in the order in
    which h5py enumerates them. *)
Inductive h5obj : Type :=
| H5Table (columns : list string) (records : list (list scalar))
| H5Dataset (a : ndarray scalar)
| H5Group (members : dict (ndarray scalar)).

Record h5file : Type := H5File {
  h5_members : dict h5obj;
  h5_attrs : dict string
}.

Inductive file : Type :=
| NpyFile (a : ndarray scalar)
| Hdf5File (h : h5file).

(** The world outside the objects: the file system and the record of the
    library calls made so far. *)
Record World : Type := mkWorld {
  fs : gmap string file;
  calls : list libcall
}.

Definition log_call {St} (c : libcall) : M (St * World) unit :=
  modify (fun st => (st.1, mkWorld (fs st.2) (calls st.2 ++ [c]))).

(** numpy appends [.npy] to a file name that does not end with it. *)
Definition npy_name (filename : string) : string :=
  if endswith filename ".npy" then filename else filename +:+ ".npy".

(** [np.save(filename, a)] *)
Definition np_save {St} (filename : string) (a : ndarray scalar) : M (St * World) unit :=
  log_call (call_np_save filename);;
  modify (fun st => (st.1, mkWorld (<[npy_name filename := NpyFile a]> (fs st.2)) (calls st.2))).

(** [np.load(filename)] *)
Definition np_load {St} (filename : string) : M (St * World) (ndarray scalar) :=
  log_call (call_np_load filename);;
  st ← get;
  match fs st.2 !! filename with
  | None => raise (FileNotFoundError filename)
  | Some (NpyFile a) => ret a
  | Some (Hdf5File _) => raise (ValueError "Cannot load file containing pickled data")
  end.

End Arrays.

(** ** class SVDBasis *)

Module SVDBasis.
Section SVDBasis.
Context `{LinAlg}.

(** The attributes of the object. [None] is Python's [None] for [V], [Vh]
    and [n]; the attribute [s] does not exist before [generate_basis] has
    assigned it, which is [None] here as well. *)
Record t : Type := mk {
  V : option (ndarray scalar);
  Vh : option (ndarray scalar);
  n : option Z;
  s : option (vector scalar)
}.

(** [__init__] *)
Definition init : t := mk None None None None.

Definition set_V (a : ndarray scalar) : M (t * World) unit :=
  modify (fun st => (mk (Some a) (Vh st.1) (n st.1) (s st.1), st.2)).

Definition set_Vh (a : ndarray scalar) : M (t * World) unit :=
  modify (fun st => (mk (V st.1) (Some a) (n st.1) (s st.1), st.2)).

Definition set_n (k : Z) : M (t * World) unit :=
  modify (fun st => (mk (V st.1) (Vh st.1) (Some k) (s st.1), st.2)).

Definition set_s (v : vector scalar) : M (t * World) unit :=
  modify (fun st => (mk (V st.1) (Vh st.1) (n st.1) (Some v), st.2)).

Definition get_V : M (t * World) (option (ndarray scalar)) :=
  st ← get; ret (V st.1).

Definition get_Vh : M (t * World) (option (ndarray scalar)) :=
  st ← get; ret (Vh st.1).

Definition unsupported_method (method : string) : string :=
  "Unsupported SVD method: " +:+ method +:+ ".".

Definition generate_basis (training_data : matrix scalar) (n : Z) (method : string)
  : M (t * World) unit :=
  if String.eqb method "random" then
    let n := if (n =? 0)%Z
             then Z.of_nat (Nat.min (nrows training_data) (ncols training_data))
             else n in
    log_call call_randomized_svd;;
    '(U, s, Vh) ← lift (randomized_svd training_data n);
    let Vh := astype_matrix complex64 Vh in
    set_Vh (Arr2 Vh);;
    set_V (Arr2 (T_conj_matrix Vh));;
    set_n n;;
    set_s s
  else if String.eqb method "scipy" then
    log_call call_scipy_linalg_svd;;
    '(U, s, Vh) ← lift (scipy_linalg_svd training_data);
    let V := T_conj_matrix Vh in
    (if (n =? 0)%Z || (Z.of_nat (nrows V) <? n)%Z
     then set_V (Arr2 V);; set_Vh (Arr2 Vh)
     else set_V (Arr2 (take_cols n V));; set_Vh (Arr2 (take_rows n Vh)));;
    self_Vh ← get_Vh;
    match self_Vh with
    | Some (Arr2 m) => set_n (Z.of_nat (nrows m))
    | _ => raise (TypeError "len() of unsized object")
    end;;
    set_s s
  else raise (ValueError (unsupported_method method)).

Definition basis_coefficients_to_fseries (coefficients : ndarray scalar)
  : M (t * World) (ndarray scalar) :=
  self_Vh ← get_Vh;
  match self_Vh with
  | Some a => matmul coefficients a
  | None => raise (ValueError matmul_dimension_error)
  end.

Definition fseries_to_basis_coefficients (fseries : ndarray scalar)
  : M (t * World) (ndarray scalar) :=
  self_V ← get_V;
  match self_V with
  | Some a => matmul fseries a
  | None => raise (ValueError matmul_dimension_error)
  end.

Definition from_file (filename : string) : M (t * World) unit :=
  a ← np_load filename;
  set_V a;;
  set_Vh (T_conj a);;
  c ← shape_at a 1;
  set_n (Z.of_nat c).

Definition to_file (filename : string) : M (t * World) unit :=
  self_V ← get_V;
  match self_V with
  | Some a => np_save filename a
  | None => ret tt
  end.

End SVDBasis.
End SVDBasis.

(** ** Collaborators of the dataset

    The domain object ([dingo.gw.domains]) and the parsing of the settings
    are outside this file of the program. [set_new_range] mutates the domain
    and may raise; [truncate_data] returns the truncated array. *)
Class Collaborators `{Scalars} : Type := {
  Domain : Type;
  Settings : Type;
  (** [ast.literal_eval] *)
  literal_eval : string -> result Settings;
  (** [build_domain(settings['domain_settings'])] *)
  build_domain : Settings -> result Domain;
  (** [len(domain)] *)
  domain_len : Domain -> nat;
  (** [domain.set_new_range(low, high)] *)
  set_new_range : scalar -> scalar -> M Domain unit;
  (** [domain.truncate_data(data, allow_for_flexible_upper_bound=b)] *)
  truncate_data : Domain -> ndarray scalar -> bool -> result (ndarray scalar)
}.

(** ** class WaveformDataset *)

Module WaveformDataset.
Section WaveformDataset.
Context `{Collaborators}.

(** The nested dictionary built by [__getitem__]. *)
Record data : Type := mkData {
  parameters : dict scalar;
  waveform : dict (ndarray scalar)
}.

(** What [__getitem__] returns: the nested dictionary, or the value a
    transform made of it. The transforms of the reduced-basis builder return
    a pair whose second component maps each detector to a vector. *)
Inductive item : Type :=
| Data (d : data)
| Tuple (p : dict scalar) (strain : dict (vector scalar)).

(** [pd.DataFrame] *)
Record DataFrame : Type := mkDataFrame {
  df_columns : list string;
  df_records : list (list scalar)
}.

(** The attributes of the object. Those that [load] assigns are [None]
    until it has done so. *)
Record t : Type := mk {
  transform : option (data -> result item);
  _Vh : option (ndarray scalar);
  single_precision : bool;
  _parameter_samples : option DataFrame;
  _hc : option (ndarray scalar);
  _hp : option (ndarray scalar);
  data_settings : option Settings;
  domain : option Domain;
  is_truncated : option bool
}.

Definition St : Type := (t * World)%type.

Definition self : M St t := st ← get; ret st.1.

Definition update (f : t -> t) : M St unit := modify (fun st => (f st.1, st.2)).

Definition set_transform (x : option (data -> result item)) : M St unit :=
  update (fun o => mk x (_Vh o) (single_precision o) (_parameter_samples o)
                      (_hc o) (_hp o) (data_settings o) (domain o) (is_truncated o)).

Definition set__Vh (x : option (ndarray scalar)) : M St unit :=
  update (fun o => mk (transform o) x (single_precision o) (_parameter_samples o)
                      (_hc o) (_hp o) (data_settings o) (domain o) (is_truncated o)).

Definition set__parameter_samples (x : DataFrame) : M St unit :=
  update (fun o => mk (transform o) (_Vh o) (single_precision o) (Some x)
                      (_hc o) (_hp o) (data_settings o) (domain o) (is_truncated o)).

Definition set__hc (x : ndarray scalar) : M St unit :=
  update (fun o => mk (transform o) (_Vh o) (single_precision o) (_parameter_samples o)
                      (Some x) (_hp o) (data_settings o) (domain o) (is_truncated o)).

Definition set__hp (x : ndarray scalar) : M St unit :=
  update (fun o => mk (transform o) (_Vh o) (single_precision o) (_parameter_samples o)
                      (_hc o) (Some x) (data_settings o) (domain o) (is_truncated o)).

Definition set_data_settings (x : Settings) : M St unit :=
  update (fun o => mk (transform o) (_Vh o) (single_precision o) (_parameter_samples o)
                      (_hc o) (_hp o) (Some x) (domain o) (is_truncated o)).

Definition set_domain (x : Domain) : M St unit :=
  update (fun o => mk (transform o) (_Vh o) (single_precision o) (_parameter_samples o)
                      (_hc o) (_hp o) (data_settings o) (Some x) (is_truncated o)).

Definition set_is_truncated (x : bool) : M St unit :=
  update (fun o => mk (transform o) (_Vh o) (single_precision o) (_parameter_samples o)
                      (_hc o) (_hp o) (data_settings o) (domain o) (Some x)).

(** Reading an attribute that may not exist yet. *)
Definition attr {A} (name : string) (get_attr : t -> option A) : M St A :=
  o ← self;
  match get_attr o with
  | Some a => ret a
  | None => raise (AttributeError name)
  end.

Definition assert_ (b : bool) (msg : string) : M St unit :=
  if b then ret tt else raise (AssertionError msg).

(** [h5py.File(filename, 'r')] *)
Definition open_h5 (filename : string) : M St h5file :=
  st ← get;
  match fs st.2 !! filename with
  | Some (Hdf5File h) => ret h
  | Some (NpyFile _) => raise (OSError "Unable to open file (file signature not found)")
  | None => raise (FileNotFoundError filename)
  end.

(** [dataset[:]] on an array stored in the file. *)
Definition read_array (a : ndarray scalar) : M St (ndarray scalar) :=
  match a with
  | Arr0 _ _ => raise (ValueError "Illegal slicing argument for scalar dataspace")
  | _ => ret a
  end.

(** [pd.DataFrame(fp['parameters'][:])] *)
Definition read_parameters (o : h5obj) : M St DataFrame :=
  match o with
  | H5Table columns records => ret (mkDataFrame columns records)
  | H5Dataset a =>
      a ← read_array a;
      match a with
      | Arr2 m => ret (mkDataFrame (pretty <$> seq 0 (ncols m)) (rows m))
      | Arr1 v => ret (mkDataFrame ["0"] ((fun x => [x]) <$> elems v))
      | Arr0 _ _ => raise (ValueError "DataFrame constructor not properly called!")
      end
  | H5Group _ => raise (TypeError "Accessing a group is done with bytes or str")
  end.

(** [fp['waveform_polarizations']] used as a group. *)
Definition as_group (o : h5obj) : M St (dict (ndarray scalar)) :=
  match o with
  | H5Group members => ret members
  | _ => raise (AttributeError "keys")
  end.

(** [fp[name][:]] as an array. *)
Definition read_dataset (o : h5obj) : M St (ndarray scalar) :=
  match o with
  | H5Dataset a => read_array a
  | H5Table columns records =>
      raise (TypeError "structured array where a numeric array is expected")
  | H5Group _ => raise (TypeError "Accessing a group is done with bytes or str")
  end.

Definition load (filename : string) : M St unit :=
  fp ← open_h5 filename;
  parameters_obj ← getitem (h5_members fp) "parameters";
  parameter_array ← read_parameters parameters_obj;
  set__parameter_samples parameter_array;;
  grp_obj ← getitem (h5_members fp) "waveform_polarizations";
  grp ← as_group grp_obj;
  assert_ (bool_decide (keys grp = ["h_cross"; "h_plus"])) "";;
  hc ← getitem grp "h_cross";
  hc ← read_array hc;
  set__hc hc;;
  hp ← getitem grp "h_plus";
  hp ← read_array hp;
  set__hp hp;;
  (if bool_decide ("rb_matrix_V" ∈ keys (h5_members fp))
   then
     V_obj ← getitem (h5_members fp) "rb_matrix_V";
     V ← read_dataset V_obj;
     set__Vh (Some (T_conj V))
   else ret tt);;
  settings ← getitem (h5_attrs fp) "settings";
  settings ← lift (literal_eval settings);
  set_data_settings settings;;
  dom ← lift (build_domain settings);
  set_domain dom;;
  set_is_truncated false;;
  o ← self;
  let dtype := if single_precision o then complex64 else complex128 in
  hc ← attr "_hc" _hc;
  set__hc (np_array (Some hc) dtype);;
  hp ← attr "_hp" _hp;
  set__hp (np_array (Some hp) dtype);;
  o ← self;
  set__Vh (Some (np_array (_Vh o) dtype)).

(** [__init__] followed by the attribute assignments it makes. *)
Definition init (dataset_file : string) (transform : option (data -> result item))
  (single_precision : bool) (w : World) : result unit * St :=
  load dataset_file (mk transform None single_precision None None None None None None, w).

(** [__len__] *)
Definition __len__ : M St nat :=
  ps ← attr "_parameter_samples" _parameter_samples;
  ret (length (df_records ps)).

(** [self._parameter_samples.iloc[idx].to_dict()] *)
Definition iloc_to_dict (ps : DataFrame) (idx : Z) : M St (dict scalar) :=
  match py_index (df_records ps) idx with
  | Some r => ret (zip (df_columns ps) r)
  | None => raise (IndexError "single positional indexer is out-of-bounds")
  end.

Definition __getitem__ (idx : Z) : M St item :=
  ps ← attr "_parameter_samples" _parameter_samples;
  parameters ← iloc_to_dict ps idx;
  hc ← attr "_hc" _hc;
  hc_idx ← index_row hc idx;
  hp ← attr "_hp" _hp;
  hp_idx ← index_row hp idx;
  let waveform_polarizations := [("h_cross", hc_idx); ("h_plus", hp_idx)] in
  let data := mkData parameters waveform_polarizations in
  o ← self;
  data ← match _Vh o with
         | Some Vh =>
             h_plus ← getitem (waveform data) "h_plus";
             h_plus ← matmul h_plus Vh;
             let data := mkData (WaveformDataset.parameters data)
                                (dict_set (waveform data) "h_plus" h_plus) in
             h_cross ← getitem (waveform data) "h_cross";
             h_cross ← matmul h_cross Vh;
             ret (mkData (WaveformDataset.parameters data)
                         (dict_set (waveform data) "h_cross" h_cross))
         | None => ret data
         end;
  match transform o with
  | Some f => lift (f data)
  | None => ret (Data data)
  end.

(** [a.info(memory_usage='deep')] on a numpy array: an array has no
    attribute [info]. *)
Definition ndarray_info (a : ndarray scalar) : M St unit :=
  raise (AttributeError "info").

(** [get_info]. [DataFrame.info] prints a summary of the table and returns;
    the two polarization attributes hold numpy arrays. *)
Definition get_info : M St unit :=
  ps ← attr "_parameter_samples" _parameter_samples;
  hc ← attr "_hc" _hc;
  ndarray_info hc;;
  hp ← attr "_hp" _hp;
  ndarray_info hp.

(** [repr] of a shape tuple. *)
Definition repr_shape (sh : list nat) : string :=
  match sh with
  | [] => "()"
  | [d] => "(" +:+ pretty d +:+ ",)"
  | d :: ds => "(" +:+ pretty d +:+ foldr (fun x acc => ", " +:+ pretty x +:+ acc) ")" ds
  end.

Definition incompatible_Vh (sh : list nat) (len_domain_original : nat) : string :=
  "Compression matrix Vh with shape " +:+ repr_shape sh +:+
  " is not compatible with the domain of length " +:+ pretty len_domain_original +:+ ".".

Definition not_implemented_msg : string :=
  "Truncation of the dataset is currently only implemented for compressed polarization data.".

(** [self.domain.set_new_range(low, high)]: the call mutates the domain
    object held by the dataset, also when it ends with an exception. *)
Definition domain_set_new_range (low high : scalar) : M St unit :=
  dom ← attr "domain" domain;
  match set_new_range low high dom with
  | (r, dom') => set_domain dom';; lift r
  end.

Definition truncate_dataset_domain (new_range : option (scalar * scalar)) : M St unit :=
  truncated ← attr "is_truncated" is_truncated;
  (if truncated : bool then raise (ValueError "Dataset is already truncated") else ret tt);;
  dom ← attr "domain" domain;
  let len_domain_original := domain_len dom in
  match new_range with
  | Some (low, high) => domain_set_new_range low high
  | None => ret tt
  end;;
  o ← self;
  match _Vh o with
  | Some Vh =>
      last ← shape_at Vh (-1);
      assert_ (bool_decide (last = len_domain_original))
              (incompatible_Vh (shape Vh) len_domain_original);;
      dom ← attr "domain" domain;
      Vh ← lift (truncate_data dom Vh (bool_decide (new_range <> None)));
      set__Vh (Some Vh)
  | None => raise (NotImplementedError not_implemented_msg)
  end;;
  set_is_truncated true.

End WaveformDataset.
End WaveformDataset.

(** ** generate_and_save_reduced_basis *)

Section ReducedBasis.
Context `{Sc : Scalars} `{!LinAlg} `{!Collaborators}.

#[local] Abbreviation St := WaveformDataset.St.

(** [item[1]] *)
Definition second (it : WaveformDataset.item) : M St (dict (vector scalar)) :=
  match it with
  | WaveformDataset.Tuple _ strain => ret strain
  | WaveformDataset.Data _ => raise (KeyError "1")
  end.

(** [np.empty((N, M), dtype=np.complex128)] for channel [k] *)
Definition np_empty (k : string) (N : Z) (M_ : nat) : M St (matrix scalar) :=
  if (N <? 0)%Z then raise (ValueError "negative dimensions are not allowed")
  else ret (Matrix complex128 (Z.to_nat N) M_
              ((fun i => (fun j => stale k i j) <$> seq 0 M_) <$> seq 0 (Z.to_nat N))).

(** The sample indices of batch number [idx] of a sequential loader over a
    dataset of [len] samples. *)
Definition batch_indices (len batch_size idx : nat) : list nat :=
  seq (idx * batch_size) (Nat.min batch_size (len - idx * batch_size)).

(** The number of batches the loader yields. *)
Definition num_batches (len batch_size : nat) : nat :=
  (len + batch_size - 1) / batch_size.

(** Stacking the vectors of one channel into a batch. *)
Definition stack (vs : list (vector scalar)) : M St (matrix scalar) :=
  match vs with
  | [] => raise (RuntimeError "stack expects a non-empty list")
  | v :: _ =>
      if forallb (fun u => Nat.eqb (length (elems u)) (length (elems v))) vs
      then ret (Matrix (v_dtype v) (length vs) (length (elems v)) (elems <$> vs))
      else raise (RuntimeError "stack expects each tensor to be equal size")
  end.

(** The loader's collation of a batch of pairs, restricted to the second
    components (the first ones are not read by the builder): one stacked
    array for each key of the first sample. *)
Definition collate_strain (batch : list WaveformDataset.item) : M St (dict (matrix scalar)) :=
  match batch with
  | [] => raise (IndexError "list index out of range")
  | elem :: _ =>
      strain0 ← second elem;
      mapM (fun k =>
              vs ← mapM (fun it => strain ← second it; getitem strain k) batch;
              m ← stack vs;
              ret (k, m))
           (keys strain0)
  end.

(** numpy's broadcasting of a source of shape [(r, c)] to [(slots, M_)]. *)
Definition broadcast_rows (slots M_ : nat) (src : matrix scalar) : option (list (list scalar)) :=
  rs ← (if decide (ncols src = M_) then Some (rows src)
        else if decide (ncols src = 1)
             then Some ((fun r => replicate M_ (default czero (head r))) <$> rows src)
             else None);
  if decide (nrows src = slots) then Some rs
  else if decide (nrows src = 1) then Some (replicate slots (default [] (head rs)))
       else None.

(** [buf[lower:lower+n] = src] *)
Definition assign_slice (buf : matrix scalar) (lower n : Z) (src : matrix scalar)
  : M St (matrix scalar) :=
  let lo := slice_bound (nrows buf) lower in
  let hi := slice_bound (nrows buf) (lower + n) in
  let slots := hi - lo in
  match broadcast_rows slots (ncols buf) src with
  | Some rs =>
      ret (Matrix (m_dtype buf) (nrows buf) (ncols buf)
             (take lo (rows buf) ++ (map (cast (m_dtype buf)) <$> rs)
                ++ drop (lo + slots) (rows buf)))
  | None => raise (ValueError "could not broadcast input array")
  end.

(** The loop over [enumerate(rb_loader)]; [fuel] is the number of batches
    the loader still has. *)
Fixpoint collect (fuel idx len : nat) (batch_size N : Z)
  (rb_train_data : dict (matrix scalar)) : M St (dict (matrix scalar)) :=
  match fuel with
  | O => ret rb_train_data
  | S fuel =>
      batch ← mapM (fun i => WaveformDataset.__getitem__ (Z.of_nat i))
                   (batch_indices len (Z.to_nat batch_size) idx);
      strain_data ← collate_strain batch;
      let lower := (Z.of_nat idx * batch_size)%Z in
      let n := Z.min batch_size (N - lower) in
      rb_train_data ←
        mapM (fun kb : string * matrix scalar =>
                src ← getitem strain_data kb.1;
                buf ← assign_slice kb.2 lower n (take_rows n src);
                ret (kb.1, buf))
             rb_train_data;
      if (lower + n =? N)%Z then ret rb_train_data
      else collect fuel (S idx) len batch_size N rb_train_data
  end.

(** Running a method of a local [SVDBasis] object. *)
Definition on_basis {A} (m : M (SVDBasis.t * World) A) (basis : SVDBasis.t)
  : M St (A * SVDBasis.t) :=
  fun st => match m (basis, st.2) with
            | (inl e, (_, w)) => (inl e, (st.1, w))
            | (inr a, (basis', w)) => (inr (a, basis'), (st.1, w))
            end.

(** [os.path.join(out_dir, name)] for a relative [name]. *)
Definition join (out_dir name : string) : string :=
  if String.eqb out_dir "" || endswith out_dir "/" then out_dir +:+ name
  else out_dir +:+ "/" +:+ name.

Definition save_basis (out_dir suffix : string) (entry : string * SVDBasis.t)
  : M St string :=
  let ifo := entry.1 in
  let V_path := join out_dir ("V_" +:+ ifo +:+ suffix +:+ ".npy") in
  on_basis (SVDBasis.to_file V_path) entry.2;;
  match SVDBasis.s entry.2 with
  | Some s => np_save (join out_dir ("s_" +:+ ifo +:+ suffix +:+ ".npy")) (Arr1 s)
  | None => raise (AttributeError "s")
  end;;
  ret V_path.

(** The part under [# generate rb]: one basis for each channel. *)
Definition generate_rb (rb_train_data : dict (matrix scalar)) (n_rb : Z)
  : M St (dict SVDBasis.t) :=
  mapM (fun kb : string * matrix scalar =>
          r ← on_basis (SVDBasis.generate_basis kb.2 n_rb "random") SVDBasis.init;
          ret (kb.1, r.2))
       rb_train_data.

(** The part under [# save rb]. *)
Definition save_rb (basis_dict : dict SVDBasis.t) (out_dir : option string)
  (suffix : string) : M St (list string) :=
  match out_dir with
  | Some out_dir => mapM (save_basis out_dir suffix) basis_dict
  | None => ret []
  end.

Definition generate_and_save_reduced_basis
  (transforms_rb : option (WaveformDataset.data -> result WaveformDataset.item))
  (N batch_size num_workers n_rb : Z) (out_dir : option string) (suffix : string)
  : M St (list string) :=
  wfd ← WaveformDataset.self;
  let wfd_transform_original := WaveformDataset.transform wfd in
  WaveformDataset.set_transform transforms_rb;;
  wfd_0 ← WaveformDataset.__getitem__ 0;
  strain ← second wfd_0;
  let ifos := keys strain in
  wfd_0 ← WaveformDataset.__getitem__ 0;
  strain ← second wfd_0;
  ifos_0 ← match ifos with
           | ifo :: _ => ret ifo
           | [] => raise (IndexError "list index out of range")
           end;
  v ← getitem strain ifos_0;
  let M_ := length (elems v) in
  (* get training data for reduced basis *)
  rb_train_data ← mapM (fun ifo => buf ← np_empty ifo N M_; ret (ifo, buf)) ifos;
  (if (batch_size <=? 0)%Z
   then raise (ValueError "batch_size should be a positive integer value")
   else ret tt);;
  (if (num_workers <? 0)%Z
   then raise (ValueError "num_workers option should be non-negative")
   else ret tt);;
  len ← WaveformDataset.__len__;
  rb_train_data ← collect (num_batches len (Z.to_nat batch_size)) 0 len batch_size N
                          rb_train_data;
  (* generate rb *)
  basis_dict ← generate_rb rb_train_data n_rb;
  (* save rb *)
  V_paths ← save_rb basis_dict out_dir suffix;
  (* set wfd.transform to original transform *)
  WaveformDataset.set_transform wfd_transform_original;;
  ret V_paths.

End ReducedBasis.

(** ** What is assumed of the decomposition routines

    The documented shape of the results of the two routines for a training
    matrix of shape [(S, D)]. [scipy.linalg.svd(a, full_matrices=False)]
    returns [min(S, D)] singular values and a [Vh] of shape
    [(min(S, D), D)]. [randomized_svd(a, n)] decomposes a projection of [a]
    on at most [min(S, D)] directions and cuts the result to its first [n]
    components. Both return the singular values in descending order. *)

Section Contracts.
Context `{LinAlg}.
Variable ge : relation scalar.

(** [v] is in descending order for the order [ge] of the real scalars. *)
Definition descending (v : vector scalar) : Prop := Sorted ge (elems v).

(** The number of components a matrix can have: [min(a.shape)]. *)
Definition available_rank (td : matrix scalar) : nat :=
  Nat.min (nrows td) (ncols td).

(** The arrays the routines return are rectangular. *)
Definition svd_outputs_wf : Prop :=
  (forall td n U s Vh, randomized_svd td n = inr (U, s, Vh) -> wf_matrix Vh) /\
  (forall td U s Vh, scipy_linalg_svd td = inr (U, s, Vh) -> wf_matrix Vh).

Definition randomized_svd_contract : Prop :=
  forall td n U s Vh,
    (0 <= n)%Z ->
    randomized_svd td n = inr (U, s, Vh) ->
    nrows Vh = Nat.min (Z.to_nat n) (available_rank td) /\
    ncols Vh = ncols td /\
    length (elems s) = nrows Vh /\
    descending s.

Definition scipy_svd_contract : Prop :=
  forall td U s Vh,
    scipy_linalg_svd td = inr (U, s, Vh) ->
    nrows Vh = available_rank td /\
    ncols Vh = ncols td /\
    length (elems s) = available_rank td /\
    descending s.

(** The world after one more library call. *)
Definition logged (w : World) (c : libcall) : World :=
  mkWorld (fs w) (calls w ++ [c]).

(** The rank [generate_basis] asks of the randomized routine. *)
Definition requested_rank (td : matrix scalar) (n : Z) : Z :=
  if (n =? 0)%Z then Z.of_nat (available_rank td) else n.

(** The pair [(V, Vh)] the exact method keeps of a decomposition. *)
Definition scipy_pair (n : Z) (Vh : matrix scalar) : matrix scalar * matrix scalar :=
  if (n =? 0)%Z || (Z.of_nat (nrows (T_conj_matrix Vh)) <? n)%Z
  then (T_conj_matrix Vh, Vh)
  else (take_cols n (T_conj_matrix Vh), take_rows n Vh).

(** [conj(a)^T], the conjugate transpose as the specification writes it. *)
Definition ctranspose (a : ndarray scalar) : ndarray scalar :=
  match a with
  | Arr0 dt x => Arr0 dt (conj x)
  | Arr1 v => Arr1 (Vector (v_dtype v) (conj <$> elems v))
  | Arr2 m => Arr2 (transpose (conj_matrix m))
  end.

(** The invariant of a basis object: [V] and [Vh] are both unset, or [Vh]
    is the conjugate transpose of [V]. *)
Definition basis_inv (b : SVDBasis.t) : Prop :=
  (SVDBasis.V b = None /\ SVDBasis.Vh b = None) \/
  (exists v, SVDBasis.V b = Some v /\ SVDBasis.Vh b = Some (ctranspose v)).

(** A populated basis whose [Vh] is the conjugate transpose of its [V],
    entry dtypes included. *)
Definition conjugate_pair (b : SVDBasis.t) : Prop :=
  exists v, SVDBasis.V b = Some v /\
            SVDBasis.Vh b = Some (ctranspose v) /\
            dtype_of (ctranspose v) = dtype_of v.

End Contracts.

(** ** Dataset files *)

Section DatasetFiles.
Context `{Collaborators}.

Definition readable (a : ndarray scalar) : Prop :=
  match a with Arr0 _ _ => False | _ => True end.

(** A dataset file that has everything [load] reads, whatever the members
    [grp] of its polarization group are called: a parameter table, arrays of
    one or two dimensions in the group, a compression matrix of that kind
    or none, and settings from which a domain can be built. *)
Definition well_formed_around (fp : h5file) (grp : dict (ndarray scalar)) : Prop :=
  (exists columns records,
      dict_get (h5_members fp) "parameters" = Some (H5Table columns records)) /\
  dict_get (h5_members fp) "waveform_polarizations" = Some (H5Group grp) /\
  Forall (fun entry => readable entry.2) grp /\
  ("rb_matrix_V" ∉ keys (h5_members fp) \/
   exists V, dict_get (h5_members fp) "rb_matrix_V" = Some (H5Dataset V) /\ readable V) /\
  (exists text settings dom,
      dict_get (h5_attrs fp) "settings" = Some text /\
      literal_eval text = inr settings /\
      build_domain settings = inr dom).

(** The precision [load] casts to. *)
Definition precision (single_precision : bool) : dtype :=
  if single_precision then complex64 else complex128.

End DatasetFiles.

(** ** The source of the reduced-basis builder *)

Section Source.
Context `{Sc : Scalars} `{!LinAlg} `{!Collaborators}.

(** The dataset with its transform replaced. *)
Definition with_transform (o : WaveformDataset.t)
  (f : option (WaveformDataset.data -> result WaveformDataset.item)) : WaveformDataset.t :=
  WaveformDataset.mk f (WaveformDataset._Vh o) (WaveformDataset.single_precision o)
    (WaveformDataset._parameter_samples o) (WaveformDataset._hc o) (WaveformDataset._hp o)
    (WaveformDataset.data_settings o) (WaveformDataset.domain o)
    (WaveformDataset.is_truncated o).

(** The second component of sample [i], when [wfd[i]] is a pair. *)
Definition sample_strain (st : WaveformDataset.St) (i : nat) : option (dict (vector scalar)) :=
  match (WaveformDataset.__getitem__ (Z.of_nat i) st).1 with
  | inr (WaveformDataset.Tuple _ strain) => Some strain
  | _ => None
  end.

(** The first [k] samples of the source, when all of them are pairs. *)
Definition source_upto (st : WaveformDataset.St) (k : nat) : option (list (dict (vector scalar))) :=
  mapM (sample_strain st) (seq 0 k).

(** Every sample has a vector of length [M_] for each of the channels
    [ifos], and nothing else. *)
Definition uniform_source (ifos : list string) (M_ : nat)
  (source : list (dict (vector scalar))) : Prop :=
  Forall (fun d => keys d = ifos /\ Forall (fun kv => length (elems kv.2) = M_) d) source.

(** What [wfd[i]] evaluates to (an empty record if it raises). *)
Definition item_of (st : WaveformDataset.St) (i : nat) : WaveformDataset.item :=
  match (WaveformDataset.__getitem__ (Z.of_nat i) st).1 with
  | inr it => it
  | inl _ => WaveformDataset.Data (WaveformDataset.mkData [] [])
  end.

Definition strain_of (it : WaveformDataset.item) : dict (vector scalar) :=
  match it with
  | WaveformDataset.Tuple _ strain => strain
  | WaveformDataset.Data _ => []
  end.

Definition vector_of (k : string) (it : WaveformDataset.item) : vector scalar :=
  default (Vector float32 []) (dict_get (strain_of it) k).

(** The rows of channel [k] in the source. *)
Definition channel_rows (k : string) (source : list (dict (vector scalar)))
  : list (list scalar) :=
  (fun d => default [] (elems <$> dict_get d k)) <$> source.

(** The rows [np.empty] leaves in the buffer of channel [k]. *)
Definition stale_rows (k : string) (N M_ : nat) : list (list scalar) :=
  (fun i => (fun j => stale k i j) <$> seq 0 M_) <$> seq 0 N.

(** The buffers once the first [filled] rows have been copied. *)
Definition buffers_after (ifos : list string) (N M_ filled : nat)
  (source : list (dict (vector scalar))) : dict (matrix scalar) :=
  (fun k => (k, Matrix complex128 N M_
                  ((map (cast complex128) <$> take filled (channel_rows k source))
                     ++ drop filled (stale_rows k N M_)))) <$> ifos.

(** The buffers holding the first [N] rows of the source, as complex128. *)
Definition first_rows (ifos : list string) (N M_ : nat)
  (source : list (dict (vector scalar))) : dict (matrix scalar) :=
  (fun k => (k, Matrix complex128 N M_
                  (map (cast complex128) <$> take N (channel_rows k source)))) <$> ifos.

(** The collated batch number [idx] of channel [k]. *)
Definition stacked (st : WaveformDataset.St) (len batch_size idx : nat) (M_ : nat)
  (source : list (dict (vector scalar))) (k : string) : matrix scalar :=
  let lower := idx * batch_size in
  let count := Nat.min batch_size (len - lower) in
  Matrix (v_dtype (vector_of k (item_of st lower))) count M_
         (take count (drop lower (channel_rows k source))).

(** The loop is at batch [idx] and has not collected [N] rows yet. *)
Definition at_batch (batch_size N idx : nat) : Prop :=
  idx = 0 \/ idx * batch_size < N.

(** The number of samples the loader has produced when the loop ends: whole
    batches up to the one that holds row [N - 1] (the first batch when [N] is
    zero), or the whole dataset if it ends before. *)
Definition consumed (len batch_size N : nat) : nat :=
  Nat.min len (Nat.max 1 ((N + batch_size - 1) / batch_size) * batch_size).

(** What is left to do once the buffers hold [rb_train_data]: generate and
    save the bases, then put the original transform back. *)
Definition finish (rb_train_data : dict (matrix scalar)) (n_rb : Z)
  (out_dir : option string) (suffix : string)
  (wfd_transform_original : option (WaveformDataset.data -> result WaveformDataset.item))
  : M WaveformDataset.St (list string) :=
  basis_dict ← generate_rb rb_train_data n_rb;
  V_paths ← save_rb basis_dict out_dir suffix;
  WaveformDataset.set_transform wfd_transform_original;;
  ret V_paths.

End Source.

(** ** Computations that only read *)

(** [m] leaves every state as it finds it, whether it returns or raises. *)
Definition readonly {St A} (m : M St A) : Prop := forall st, (m st).2 = st.

(** The file system has an array file at [path]. *)
Definition holds_array `{Scalars} (w : World) (path : string) : Prop :=
  exists a, fs w !! path = Some (NpyFile a).

(** The buffers once the first [filled] rows have been copied and row
    [filled] of the source has been assigned to the [n] slots after
    them. *)
Definition buffers_repeating `{Scalars} (ifos : list string) (N M_ filled n : nat)
  (source : list (dict (vector scalar))) : dict (matrix scalar) :=
  (fun k => (k, Matrix complex128 N M_
                  ((map (cast complex128) <$> take filled (channel_rows k source))
                     ++ replicate n (map (cast complex128)
                                         (default [] (channel_rows k source !! filled)))
                     ++ drop (filled + n) (stale_rows k N M_)))) <$> ifos.

(** ** A concrete instance

    An instance of the interfaces on which the program can be run: it shows
    that the contracts assumed below can be met, and it is what the examples
    evaluate. *)

Module Toy.

(** Scalars are Gaussian integers, with [None] for NaN. Casting to a real
    dtype drops the imaginary part; nothing is rounded. *)
Definition gauss : Type := option (Z * Z).

Definition gconj (x : gauss) : gauss := (fun p : Z * Z => (p.1, (- p.2)%Z)) <$> x.

Definition gcast (dt : dtype) (x : gauss) : gauss :=
  if is_complex dt then x else (fun p : Z * Z => (p.1, 0%Z)) <$> x.

Definition gadd (x y : gauss) : gauss :=
  p ← x; q ← y; Some ((p.1 + q.1)%Z, (p.2 + q.2)%Z).

Definition gmul (x y : gauss) : gauss :=
  p ← x; q ← y; Some ((p.1 * q.1 - p.2 * q.2)%Z, (p.1 * q.2 + p.2 * q.1)%Z).

#[local] Instance scalars : Scalars := {|
  scalar := gauss;
  conj := gconj;
  cast := gcast;
  nan := None;
  czero := Some (0%Z, 0%Z);
  cadd := gadd;
  cmul := gmul;
  stale := fun _ _ _ => Some (7%Z, 7%Z)
|}.

Definition re (z : Z) : gauss := Some (z, 0%Z).

(** The order of the real parts. *)
Definition gge (x y : gauss) : Prop :=
  match x, y with
  | Some p, Some q => (q.1 <= p.1)%Z
  | _, _ => False
  end.

(** The first [k] rows of the identity matrix of size [d]. *)
Definition eye_rows (dt : dtype) (k d : nat) : matrix gauss :=
  Matrix dt k d ((fun i => (fun j => re (if Nat.eqb i j then 1 else 0)) <$> seq 0 d)
                   <$> seq 0 k).

Definition real_dtype (dt : dtype) : dtype :=
  if is_double dt then float64 else float32.

(** A thin decomposition with [k] components: [U] and [Vh] are leading
    parts of identity matrices and every singular value is zero. It is an
    exact singular value decomposition of the zero matrices, on which the
    examples run. *)
Definition thin_svd (td : matrix gauss) (k : nat) : svd_result :=
  (transpose (eye_rows (m_dtype td) k (nrows td)),
   Vector (real_dtype (m_dtype td)) (replicate k (re 0)),
   eye_rows (m_dtype td) k (ncols td)).

#[local] Instance linalg : LinAlg := {|
  randomized_svd := fun td n =>
    if (n <? 0)%Z then inl (ValueError "n_components must be non-negative")
    else inr (thin_svd td (Nat.min (Z.to_nat n) (Nat.min (nrows td) (ncols td))));
  scipy_linalg_svd := fun td =>
    inr (thin_svd td (Nat.min (nrows td) (ncols td)))
|}.

(** Modelled from the spec: the domain object is a collaborator whose code
    is not in this file of the program ("a domain descriptor exposing
    [set_new_range(low, high)] and [truncate_data(matrix,
    allow_for_flexible_upper_bound)] and a length"). This one is a uniform
    frequency grid with unit spacing: the bins [0 .. f_max], of which the
    range [f_min .. f_max] is kept by a truncation. [set_new_range] adopts
    the two endpoints. *)
Record UniformDomain : Type := mkDomain {
  f_min : Z;
  f_max : Z
}.

Definition toy_set_new_range (low high : gauss) : M UniformDomain unit :=
  fun dom =>
    match low, high with
    | Some (lo, _), Some (hi, _) =>
        if ((0 <=? lo) && (lo <? hi) && (hi <=? f_max dom))%Z
        then (inr tt, mkDomain lo hi)
        else (inl (ValueError "new range is not contained in the domain"), dom)
    | _, _ => (inl (ValueError "new range is not a number"), dom)
    end.

Definition toy_truncate_data (dom : UniformDomain) (a : ndarray gauss) (flexible : bool)
  : result (ndarray gauss) :=
  let lo := Z.to_nat (f_min dom) in
  let len := Z.to_nat (f_max dom - f_min dom + 1) in
  match a with
  | Arr0 _ _ => inl (IndexError "too many indices for array")
  | Arr1 v => inr (Arr1 (Vector (v_dtype v) (take len (drop lo (elems v)))))
  | Arr2 m => inr (Arr2 (Matrix (m_dtype m) (nrows m) len
                           ((fun r => take len (drop lo r)) <$> rows m)))
  end.

Definition settings_literal : string :=
  "{'domain_settings': {'f_min': 0, 'f_max': 2}}".

#[local] Instance collaborators : Collaborators := {|
  Domain := UniformDomain;
  Settings := UniformDomain;
  literal_eval := fun s =>
    if String.eqb s settings_literal then inr (mkDomain 0 2)
    else inl (ValueError "malformed node or string");
  build_domain := fun d => inr d;
  domain_len := fun d => Z.to_nat (f_max d + 1);
  set_new_range := toy_set_new_range;
  truncate_data := toy_truncate_data
|}.

Definition zeros (dt : dtype) (r c : nat) : matrix gauss :=
  Matrix dt r c (replicate r (replicate c (re 0))).

Definition empty_world : World := mkWorld ∅ [].

(** A dataset file of two samples on three frequency bins, without
    [rb_matrix_V]. *)
Definition uncompressed_h5 : h5file := H5File
  [("parameters", H5Table ["mass_1"; "mass_2"] [[re 30; re 20]; [re 35; re 25]]);
   ("waveform_polarizations",
    H5Group [("h_cross", Arr2 (Matrix complex128 2 3
                                 [[re 1; re 2; re 3]; [re 4; re 5; re 6]]));
             ("h_plus", Arr2 (Matrix complex128 2 3
                                [[re 6; re 5; re 4]; [re 3; re 2; re 1]]))])]
  [("settings", settings_literal)].

(** The same file with the two polarizations enumerated in creation order,
    [h_plus] first. *)
Definition creation_order_h5 : h5file := H5File
  [("parameters", H5Table ["mass_1"; "mass_2"] [[re 30; re 20]; [re 35; re 25]]);
   ("waveform_polarizations",
    H5Group [("h_plus", Arr2 (Matrix complex128 2 3
                                [[re 6; re 5; re 4]; [re 3; re 2; re 1]]));
             ("h_cross", Arr2 (Matrix complex128 2 3
                                 [[re 1; re 2; re 3]; [re 4; re 5; re 6]]))])]
  [("settings", settings_literal)].

(** A file of two samples stored as two basis coefficients each, with the
    basis of two vectors on three frequency bins. *)
Definition compressed_h5 : h5file := H5File
  [("parameters", H5Table ["mass_1"; "mass_2"] [[re 30; re 20]; [re 35; re 25]]);
   ("waveform_polarizations",
    H5Group [("h_cross", Arr2 (Matrix complex128 2 2 [[re 1; re 2]; [re 4; re 5]]));
             ("h_plus", Arr2 (Matrix complex128 2 2 [[re 6; re 5]; [re 3; re 2]]))]);
   ("rb_matrix_V", H5Dataset (Arr2 (Matrix complex128 3 2
                                      [[re 1; re 0]; [re 0; re 1]; [re 0; re 0]])))]
  [("settings", settings_literal)].

Definition world_with (filename : string) (h : h5file) : World :=
  mkWorld {[ filename := Hdf5File h ]} [].

(** A file of 25 samples stored as two basis coefficients each. *)
Definition long_h5 : h5file := H5File
  [("parameters", H5Table ["mass_1"] ((fun i => [re (Z.of_nat i)]) <$> seq 0 25));
   ("waveform_polarizations",
    H5Group [("h_cross", Arr2 (Matrix complex128 25 2
                ((fun i => [re (Z.of_nat i); re 1]) <$> seq 0 25)));
             ("h_plus", Arr2 (Matrix complex128 25 2
                ((fun i => [re 2; re (Z.of_nat i)]) <$> seq 0 25)))]);
   ("rb_matrix_V", H5Dataset (Arr2 (Matrix complex128 3 2
                                      [[re 1; re 0]; [re 0; re 1]; [re 0; re 0]])))]
  [("settings", settings_literal)].

(** A transform for the builder: the two polarizations as the strains of
    two detectors. It refuses the samples whose [mass_1] is above 20, so a
    run that reads one of them ends with an exception. *)
Definition to_detectors (d : WaveformDataset.data) : result WaveformDataset.item :=
  match dict_get (WaveformDataset.parameters d) "mass_1",
        dict_get (WaveformDataset.waveform d) "h_plus",
        dict_get (WaveformDataset.waveform d) "h_cross" with
  | Some (Some (mass, _)), Some (Arr1 hp), Some (Arr1 hc) =>
      if (20 <? mass)%Z then inl (ValueError "mass_1 is outside the prior")
      else inr (WaveformDataset.Tuple (WaveformDataset.parameters d)
                                      [("H1", hp); ("L1", hc)])
  | _, _, _ => inl (TypeError "not a waveform sample")
  end.

(** The outcome of [WaveformDataset(dataset_file)] for a file in an
    otherwise empty file system. *)
Definition loading (h : h5file) : result unit * WaveformDataset.St :=
  WaveformDataset.init "dataset.h5" None true (world_with "dataset.h5" h).

Definition uncompressed_loaded : WaveformDataset.t :=
  Eval vm_compute in (loading uncompressed_h5).2.1.

Definition compressed_loaded : WaveformDataset.t :=
  Eval vm_compute in (loading compressed_h5).2.1.

(** The compressed dataset after [truncate_dataset_domain()]. *)
Definition compressed_truncated : WaveformDataset.t :=
  Eval vm_compute in
    (WaveformDataset.truncate_dataset_domain None (compressed_loaded, empty_world)).2.1.

(** The dataset loaded from [long_h5]. *)
Definition long_dataset : WaveformDataset.t :=
  Eval vm_compute in (loading long_h5).2.1.

(** The dataset as the builder sees it, with [to_detectors] as its
    transform. *)
Definition long_dataset_rb : WaveformDataset.St :=
  (with_transform long_dataset (Some to_detectors), empty_world).

(** Its first 21 samples: the three batches of 7 that hold the first 20
    rows. *)
Definition long_source : list (dict (vector gauss)) :=
  Eval vm_compute in default [] (source_upto long_dataset_rb 21).

(** A training matrix of zeros, and the bases generated from it. *)
Definition training_zeros : matrix gauss := Eval vm_compute in zeros complex128 2 3.

Definition after_generate (n : Z) (method : string) : SVDBasis.t * World :=
  (SVDBasis.generate_basis training_zeros n method (SVDBasis.init, empty_world)).2.

Definition zero_basis : SVDBasis.t := Eval vm_compute in (after_generate 2 "random").1.

Definition zero_basis_world : World := Eval vm_compute in (after_generate 2 "random").2.

Definition overasked_basis : SVDBasis.t := Eval vm_compute in (after_generate 5 "random").1.

Definition overasked_world : World := Eval vm_compute in (after_generate 5 "random").2.

Definition cut_basis : SVDBasis.t := Eval vm_compute in (after_generate 1 "scipy").1.

Definition cut_world : World := Eval vm_compute in (after_generate 1 "scipy").2.

Definition exact_basis : SVDBasis.t := Eval vm_compute in (after_generate 2 "scipy").1.

Definition exact_world : World := Eval vm_compute in (after_generate 2 "scipy").2.

(** The world after [to_file("V_H1.npy")] on [zero_basis]. *)
Definition saved_world : World :=
  Eval vm_compute in (SVDBasis.to_file "V_H1.npy" (zero_basis, zero_basis_world)).2.2.

(** The matrix [V] of [zero_basis]. *)
Definition zero_V : matrix gauss :=
  Eval vm_compute in
    match SVDBasis.V zero_basis with
    | Some (Arr2 m) => m
    | _ => zeros complex64 0 0
    end.

(** A dataset object that is not truncated and whose [_Vh] is [None]. *)
Definition uncompressed_dataset : WaveformDataset.t :=
  WaveformDataset.mk None None true
    (Some (WaveformDataset.mkDataFrame ["mass_1"] [[re 30]]))
    (Some (Arr2 (Matrix complex64 1 3 [[re 1; re 2; re 3]])))
    (Some (Arr2 (Matrix complex64 1 3 [[re 3; re 2; re 1]])))
    (Some (mkDomain 0 2)) (Some (mkDomain 0 2)) (Some false).

(** The same object once [domain.set_new_range(1, 2)] has run. *)
Definition uncompressed_dataset_new_range : WaveformDataset.t :=
  WaveformDataset.mk None None true
    (Some (WaveformDataset.mkDataFrame ["mass_1"] [[re 30]]))
    (Some (Arr2 (Matrix complex64 1 3 [[re 1; re 2; re 3]])))
    (Some (Arr2 (Matrix complex64 1 3 [[re 3; re 2; re 1]])))
    (Some (mkDomain 0 2)) (Some (mkDomain 1 2)) (Some false).

(** The members of the polarization groups of the files above. *)
Definition sorted_group : dict (ndarray gauss) :=
  [("h_cross", Arr2 (Matrix complex128 2 3 [[re 1; re 2; re 3]; [re 4; re 5; re 6]]));
   ("h_plus", Arr2 (Matrix complex128 2 3 [[re 6; re 5; re 4]; [re 3; re 2; re 1]]))].

Definition creation_order_group : dict (ndarray gauss) :=
  [("h_plus", Arr2 (Matrix complex128 2 3 [[re 6; re 5; re 4]; [re 3; re 2; re 1]]));
   ("h_cross", Arr2 (Matrix complex128 2 3 [[re 1; re 2; re 3]; [re 4; re 5; re 6]]))].

(** An object before [load], as [__init__] makes it. *)
Definition unloaded : WaveformDataset.t :=
  WaveformDataset.mk None None true None None None None None None.

(** A transform for the builder that accepts every sample. *)
Definition all_detectors (d : WaveformDataset.data) : result WaveformDataset.item :=
  match dict_get (WaveformDataset.waveform d) "h_plus",
        dict_get (WaveformDataset.waveform d) "h_cross" with
  | Some (Arr1 hp), Some (Arr1 hc) =>
      inr (WaveformDataset.Tuple (WaveformDataset.parameters d) [("H1", hp); ("L1", hc)])
  | _, _ => inl (TypeError "not a waveform sample")
  end.

(** The long dataset as the builder sees it with this transform, and its
    25 samples. *)
Definition long_dataset_all : WaveformDataset.St :=
  (with_transform long_dataset (Some all_detectors), empty_world).

Definition whole_long_source : list (dict (vector gauss)) :=
  Eval vm_compute in default [] (source_upto long_dataset_all 25).

(** The compressed dataset of two samples as the builder sees it, what a
    run of the builder on it returns and the world it leaves. *)
Definition compressed_dataset_rb : WaveformDataset.St :=
  (with_transform compressed_loaded (Some all_detectors), empty_world).

Definition built : result (list string) * WaveformDataset.St :=
  Eval vm_compute in
    generate_and_save_reduced_basis (Some all_detectors) 2 2 0 2 (Some "out") ""
                                    (compressed_loaded, empty_world).

Definition built_paths : list string := ["out/V_H1.npy"; "out/V_L1.npy"].

Definition built_dataset : WaveformDataset.t := Eval vm_compute in built.2.1.

Definition built_world : World := Eval vm_compute in built.2.2.

(** The first sample of the compressed dataset under [all_detectors]. *)
Definition first_parameters : dict gauss := [("mass_1", re 30); ("mass_2", re 20)].

Definition first_strain : dict (vector gauss) :=
  Eval vm_compute in
    match (WaveformDataset.__getitem__ 0 compressed_dataset_rb).1 with
    | inr (WaveformDataset.Tuple _ strain) => strain
    | _ => []
    end.

(** The attributes of the compressed dataset. *)
Definition compressed_table : WaveformDataset.DataFrame :=
  WaveformDataset.mkDataFrame ["mass_1"; "mass_2"] [[re 30; re 20]; [re 35; re 25]].

Definition compressed_hc : matrix gauss :=
  Matrix complex64 2 2 [[re 1; re 2]; [re 4; re 5]].

Definition compressed_hp : matrix gauss :=
  Matrix complex64 2 2 [[re 6; re 5]; [re 3; re 2]].

Definition compressed_Vh : matrix gauss :=
  Matrix complex64 2 3 [[re 1; re 0; re 0]; [re 0; re 1; re 0]].

(** The truncated compressed dataset after a second [load], from the file
    without [rb_matrix_V]. *)
Definition reloaded : WaveformDataset.t :=
  Eval vm_compute in
    (WaveformDataset.load "dataset.h5"
       (compressed_truncated, world_with "dataset.h5" uncompressed_h5)).2.1.

(** The basis the exact method leaves for [n = -1]. *)
Definition shortened_basis : SVDBasis.t := Eval vm_compute in (after_generate (-1) "scipy").1.

Definition shortened_world : World := Eval vm_compute in (after_generate (-1) "scipy").2.

End Toy.

(** * Properties *)

(** ** Running monadic code *)

Ltac run :=
  repeat (progress (unfold mbind, M_bind, mret, M_ret, bind, ret, raise, get, modify,
                      lift, log_call in *; cbn [fst snd fs calls] in *)).

Section MonadFacts.
Context {St : Type}.

Lemma bind_ok {A B} (m : M St A) (k : A -> M St B) st a st' :
  m st = (inr a, st') -> (m ≫= k) st = k a st'.
Proof. intros Hm. unfold mbind, M_bind, bind. now rewrite Hm. Qed.

(** A loop whose body succeeds on every element without changing the
    state. *)
Lemma mapM_ok {A B} (f : A -> M St B) (g : A -> B) (l : list A) st :
  (forall x, x ∈ l -> f x st = (inr (g x), st)) ->
  mapM f l st = (inr (g <$> l), st).
Proof.
  induction l as [|x l IH]; intros Hf; [reflexivity|].
  cbn. rewrite (bind_ok _ _ _ _ _ (Hf x ltac:(left))).
  rewrite (bind_ok _ _ _ _ _ (IH (fun y Hy => Hf y ltac:(now right)))).
  reflexivity.
Qed.

(** A loop keeps what each run of its body keeps. *)
Lemma mapM_preserves {A B} (P : St -> Prop) (f : A -> M St B) (l : list A) st :
  (forall x st, P st -> P (f x st).2) -> P st -> P (mapM f l st).2.
Proof.
  intros Hf. revert st. induction l as [|x l IH]; intros st HP; [exact HP|].
  cbn. unfold mbind, M_bind, bind.
  pose proof (Hf x st HP) as Hx. destruct (f x st) as [[e|y] st1]; [exact Hx|].
  cbn [snd] in Hx. pose proof (IH st1 Hx) as Hl.
  destruct (mapM f l st1) as [[e|ys] st2]; exact Hl.
Qed.

End MonadFacts.

(** ** Arrays: transposition and slices *)

Section ArrayFacts.
Context {A : Type}.
Implicit Types (rs : list (list A)) (m : matrix A).

Lemma column_length i rs :
  Forall (fun r => i < length r) rs -> length (column i rs) = length rs.
Proof.
  unfold column. induction 1 as [|r rs Hr _ IH]; [reflexivity|].
  cbn. destruct (lookup_lt_is_Some_2 r i Hr) as [x ->]. cbn. now rewrite IH.
Qed.

Lemma column_lookup i j rs :
  Forall (fun r => i < length r) rs ->
  column i rs !! j = rs !! j ≫= (fun r => r !! i).
Proof.
  unfold column. intros Hall. revert j.
  induction Hall as [|r rs Hr _ IH]; intros j; [reflexivity|].
  cbn. destruct (lookup_lt_is_Some_2 r i Hr) as [x Hx]. rewrite Hx. cbn.
  destruct j as [|j]; cbn; [now rewrite Hx | apply IH].
Qed.

Lemma column_fmap (f : A -> A) j rs :
  column j (map f <$> rs) = f <$> column j rs.
Proof.
  unfold column. induction rs as [|r rs IH]; [reflexivity|].
  cbn. change (map f r) with (f <$> r). rewrite list_lookup_fmap.
  destruct (r !! j); cbn; now rewrite IH.
Qed.

Lemma columns_of_lookup c rs i j :
  Forall (fun r => length r = c) rs ->
  i < length rs ->
  columns_of c rs !! j ≫= (fun col => col !! i) = rs !! i ≫= (fun r => r !! j).
Proof.
  intros Hall Hi. unfold columns_of. rewrite list_lookup_fmap.
  destruct (lookup_lt_is_Some_2 rs i Hi) as [r Hr]. rewrite Hr. cbn.
  pose proof (Forall_lookup_1 _ _ _ _ Hall Hr) as Hlen. cbn in Hlen.
  destruct (decide (j < c)) as [Hj|Hj].
  - rewrite lookup_seq_lt by assumption. cbn.
    rewrite column_lookup, Hr; [reflexivity|].
    eapply Forall_impl; [exact Hall|]. cbn. intros; lia.
  - rewrite lookup_seq_ge by lia. cbn. symmetry. apply lookup_ge_None_2. lia.
Qed.

Lemma columns_of_take c rs k :
  Forall (fun r => length r = c) rs ->
  k <= length rs ->
  columns_of k (take k <$> columns_of c rs) = take k rs.
Proof.
  intros Hall Hk. apply list_eq. intros i.
  unfold columns_of at 1. rewrite list_lookup_fmap.
  destruct (decide (i < k)) as [Hi|Hi].
  - rewrite lookup_seq_lt, lookup_take_lt by assumption. cbn.
    destruct (lookup_lt_is_Some_2 rs i ltac:(lia)) as [r Hr]. rewrite Hr.
    f_equal. apply list_eq. intros j.
    rewrite column_lookup.
    + rewrite list_lookup_fmap.
      transitivity (columns_of c rs !! j ≫= (fun col => col !! i)).
      * destruct (columns_of c rs !! j) as [col|]; cbn; [|reflexivity].
        now apply lookup_take_lt.
      * rewrite columns_of_lookup by (assumption || lia). now rewrite Hr.
    + apply Forall_fmap, Forall_fmap. apply Forall_forall. intros j' Hj'. cbn.
      apply elem_of_seq in Hj'.
      rewrite length_take, column_length; [lia|].
      eapply Forall_impl; [exact Hall|]. cbn. intros r' Hr'. lia.
  - rewrite lookup_seq_ge, lookup_take_ge by lia. reflexivity.
Qed.

End ArrayFacts.

Lemma slice_stop_le len n : slice_stop len n <= len.
Proof. unfold slice_stop. destruct (n <? 0)%Z eqn:E; lia. Qed.

Lemma slice_stop_nonneg len n :
  (0 <= n)%Z -> slice_stop len n = Nat.min (Z.to_nat n) len.
Proof. intros Hn. unfold slice_stop. destruct (n <? 0)%Z eqn:E; lia. Qed.

Section MatrixFacts.
Context `{Scalars}.
Implicit Types (m : matrix scalar).

Lemma transpose_involutive m : wf_matrix m -> transpose (transpose m) = m.
Proof.
  intros [Hlen Hall]. destruct m as [dt r c rs].
  cbn [nrows ncols rows] in Hlen, Hall. subst r.
  unfold transpose. cbn [m_dtype nrows ncols rows]. f_equal.
  transitivity (columns_of (length rs) (take (length rs) <$> columns_of c rs)).
  - f_equal. apply list_eq. intros j. rewrite list_lookup_fmap.
    destruct (columns_of c rs !! j) as [col|] eqn:E; [|reflexivity].
    cbn [fmap option_fmap option_map]. f_equal. symmetry. apply take_ge.
    unfold columns_of in E. apply list_lookup_fmap_Some_1 in E as (j' & -> & Hj').
    rewrite column_length; [lia|].
    apply lookup_seq in Hj' as [-> Hj'].
    eapply Forall_impl; [exact Hall|]. cbn. intros; lia.
  - rewrite columns_of_take by (assumption || lia). apply take_ge. lia.
Qed.

Lemma transpose_take_cols n m :
  wf_matrix m -> transpose (take_cols n (transpose m)) = take_rows n m.
Proof.
  intros [Hlen Hall]. destruct m as [dt r c rs].
  cbn [nrows ncols rows] in Hlen, Hall. subst r.
  unfold transpose, take_cols, take_rows. cbn [m_dtype nrows ncols rows]. f_equal.
  apply columns_of_take; [assumption|]. apply slice_stop_le.
Qed.

Lemma transpose_conj_matrix m :
  transpose (conj_matrix m) = conj_matrix (transpose m).
Proof.
  destruct m as [dt r c rs]. unfold transpose, conj_matrix, map_matrix; cbn.
  f_equal. unfold columns_of. apply list_eq. intros j.
  rewrite !list_lookup_fmap. destruct (seq 0 c !! j); cbn; [|reflexivity].
  f_equal. apply column_fmap.
Qed.

Lemma take_cols_conj_matrix n m :
  take_cols n (conj_matrix m) = conj_matrix (take_cols n m).
Proof.
  destruct m as [dt r c rs]. unfold take_cols, conj_matrix, map_matrix; cbn.
  f_equal. induction rs as [|row rs IH]; [reflexivity|]. cbn. f_equal; [|exact IH].
  change (map conj) with (fmap (M:=list) conj). now rewrite fmap_take.
Qed.

Lemma conj_matrix_involutive m :
  (forall x, conj (conj x) = x) -> conj_matrix (conj_matrix m) = m.
Proof.
  intros Hconj. destruct m as [dt r c rs]. unfold conj_matrix, map_matrix; cbn.
  f_equal. induction rs as [|row rs IH]; [reflexivity|]. cbn. f_equal; [|exact IH].
  induction row as [|x row IHr]; [reflexivity|]. cbn. now rewrite Hconj, IHr.
Qed.

Lemma wf_astype_matrix dt m : wf_matrix m -> wf_matrix (astype_matrix dt m).
Proof.
  intros [Hlen Hall]. split; cbn; [now rewrite length_fmap|].
  apply Forall_fmap. eapply Forall_impl; [exact Hall|]. cbn. intros r Hr.
  now rewrite length_map.
Qed.

Lemma wf_take_rows n m : wf_matrix m -> wf_matrix (take_rows n m).
Proof.
  intros [Hlen Hall]. split; cbn; [|now apply Forall_take].
  rewrite length_take, Hlen. pose proof (slice_stop_le (nrows m) n). lia.
Qed.

(** The conjugate transpose of the specification is what [.T.conj()]
    computes. *)
Lemma ctranspose_T_conj (a : ndarray scalar) : ctranspose a = T_conj a.
Proof.
  destruct a as [dt x|v|m]; [reflexivity | reflexivity |].
  cbn. unfold T_conj_matrix. now rewrite transpose_conj_matrix.
Qed.

Lemma ctranspose_dtype (a : ndarray scalar) : dtype_of (ctranspose a) = dtype_of a.
Proof. destruct a as [dt x|v|m]; reflexivity. Qed.

(** For a rectangular [Vh], [Vh] is the conjugate transpose of
    [Vh.T.conj()]. *)
Lemma ctranspose_of_T_conj m :
  (forall x, conj (conj x) = x) -> wf_matrix m ->
  ctranspose (Arr2 (T_conj_matrix m)) = Arr2 m.
Proof.
  intros Hconj Hwf. cbn. unfold T_conj_matrix. f_equal.
  rewrite conj_matrix_involutive by assumption. now apply transpose_involutive.
Qed.

(** The same for the truncated pair [V[:, :n]], [Vh[:n, :]]. *)
Lemma ctranspose_of_truncated n m :
  (forall x, conj (conj x) = x) -> wf_matrix m ->
  ctranspose (Arr2 (take_cols n (T_conj_matrix m))) = Arr2 (take_rows n m).
Proof.
  intros Hconj Hwf. cbn. unfold T_conj_matrix. f_equal.
  rewrite take_cols_conj_matrix, conj_matrix_involutive by assumption.
  now apply transpose_take_cols.
Qed.

End MatrixFacts.

(** ** SVDBasis *)

Section SVDBasisFacts.
Context `{LinAlg}.
Implicit Types (b : SVDBasis.t) (w : World) (td : matrix scalar).

Lemma generate_basis_random td n b w :
  SVDBasis.generate_basis td n "random" (b, w) =
  match randomized_svd td (requested_rank td n) with
  | inl e => (inl e, (b, logged w call_randomized_svd))
  | inr (U, s, Vh) =>
      (inr tt,
       (SVDBasis.mk (Some (Arr2 (T_conj_matrix (astype_matrix complex64 Vh))))
                    (Some (Arr2 (astype_matrix complex64 Vh)))
                    (Some (requested_rank td n)) (Some s),
        logged w call_randomized_svd))
  end.
Proof.
  unfold SVDBasis.generate_basis, requested_rank, available_rank, logged. cbn [String.eqb].
  run. destruct (randomized_svd _ _) as [e|[[U s] Vh]]; reflexivity.
Qed.

Lemma generate_basis_scipy td n b w :
  SVDBasis.generate_basis td n "scipy" (b, w) =
  match scipy_linalg_svd td with
  | inl e => (inl e, (b, logged w call_scipy_linalg_svd))
  | inr (U, s, Vh) =>
      (inr tt,
       (SVDBasis.mk (Some (Arr2 (scipy_pair n Vh).1)) (Some (Arr2 (scipy_pair n Vh).2))
                    (Some (Z.of_nat (nrows (scipy_pair n Vh).2))) (Some s),
        logged w call_scipy_linalg_svd))
  end.
Proof.
  unfold SVDBasis.generate_basis, scipy_pair, logged. cbn [String.eqb].
  run. destruct (scipy_linalg_svd _) as [e|[[U s] Vh]]; [reflexivity|].
  destruct ((n =? 0)%Z || _); reflexivity.
Qed.

Lemma generate_basis_other td n method st :
  method <> "random" -> method <> "scipy" ->
  SVDBasis.generate_basis td n method st =
  (inl (ValueError (SVDBasis.unsupported_method method)), st).
Proof.
  intros H1 H2. unfold SVDBasis.generate_basis.
  apply String.eqb_neq in H1, H2. now rewrite H1, H2.
Qed.

Lemma method_cases (method : string) :
  method = "random" \/ method = "scipy" \/ (method <> "random" /\ method <> "scipy").
Proof.
  destruct (String.eqb_spec method "random"); [now left|].
  destruct (String.eqb_spec method "scipy"); [now right; left|]. now right; right.
Qed.

Lemma from_file_eq filename b w :
  SVDBasis.from_file filename (b, w) =
  let w' := logged w (call_np_load filename) in
  match fs w !! filename with
  | None => (inl (FileNotFoundError filename), (b, w'))
  | Some (Hdf5File _) =>
      (inl (ValueError "Cannot load file containing pickled data"), (b, w'))
  | Some (NpyFile a) =>
      let b' := SVDBasis.mk (Some a) (Some (T_conj a)) (SVDBasis.n b) (SVDBasis.s b) in
      match a with
      | Arr2 m => (inr tt, (SVDBasis.mk (Some a) (Some (T_conj a))
                                        (Some (Z.of_nat (ncols m))) (SVDBasis.s b), w'))
      | _ => (inl (IndexError "tuple index out of range"), (b', w'))
      end
  end.
Proof.
  unfold SVDBasis.from_file, np_load, logged. run.
  destruct (fs w !! filename) as [[a|h]|]; [|reflexivity|reflexivity].
  destruct a as [dt x|v|m]; reflexivity.
Qed.

Lemma to_file_eq filename b w :
  SVDBasis.to_file filename (b, w) =
  match SVDBasis.V b with
  | Some a =>
      (inr tt, (b, mkWorld (<[npy_name filename := NpyFile a]> (fs w))
                           (calls w ++ [call_np_save filename])))
  | None => (inr tt, (b, w))
  end.
Proof.
  unfold SVDBasis.to_file, SVDBasis.get_V, np_save. run.
  destruct (SVDBasis.V b); reflexivity.
Qed.

End SVDBasisFacts.

Section SVDBasisClaims.
Context `{LinAlg}.
Variable ge : relation scalar.
Implicit Types (b : SVDBasis.t) (w : World) (td : matrix scalar).

(** C4. [generate_basis] called with a method other than ['random'] and
    ['scipy'] raises a [ValueError] whose message contains the method, and
    leaves the object and the world as they were: [V], [Vh], [n] and [s]
    keep their values and no library call (so no decomposition) has been
    made. *)
Theorem generate_basis_unsupported_method td n method b w :
  method <> "random" -> method <> "scipy" ->
  SVDBasis.generate_basis td n method (b, w) =
  (inl (ValueError ("Unsupported SVD method: " +:+ method +:+ ".")), (b, w)).
Proof. intros H1 H2. now apply generate_basis_other. Qed.

(** C5, the randomized method with a requested rank above the available
    one: the stored [n] is the requested rank, while [Vh] has only
    [min(S, D)] rows. The sibling paths store the number of retained vectors
    ([len(self.Vh)] for ['scipy'], [V.shape[1]] in [from_file]). *)
Theorem generate_basis_random_keeps_requested_n td n b w b' w' :
  randomized_svd_contract ge ->
  (Z.of_nat (available_rank td) < n)%Z ->
  SVDBasis.generate_basis td n "random" (b, w) = (inr tt, (b', w')) ->
  SVDBasis.n b' = Some n /\
  exists m, SVDBasis.Vh b' = Some (Arr2 m) /\
            nrows m = available_rank td /\
            (Z.of_nat (nrows m) < n)%Z.
Proof.
  intros Hc Hn Hrun. rewrite generate_basis_random in Hrun.
  assert (requested_rank td n = n) as Hreq.
  { unfold requested_rank. destruct (n =? 0)%Z eqn:E; lia. }
  rewrite Hreq in Hrun.
  destruct (randomized_svd td n) as [e|[[U s] Vh]] eqn:Hsvd; [discriminate|].
  injection Hrun as <- <-. cbn. split; [reflexivity|].
  destruct (Hc td n U s Vh ltac:(lia) Hsvd) as (Hrows & _).
  eexists. split; [reflexivity|]. cbn. rewrite Hrows. split; lia.
Qed.

(** C6, as the program has it: after a successful [generate_basis] the
    stored [s] is the sequence of singular values the routine returned, in
    descending order. With ['random'] and a requested rank
    [0 <= n <= min(S, D)] its length is the stored [n]. With ['scipy'] it is
    never cut: its length is [min(S, D)], which is the stored [n] exactly when
    [n == 0], [n >= min(S, D)] or [min(S, D) = 0]. *)
Theorem generate_basis_singular_values td n method b w b' w' :
  randomized_svd_contract ge ->
  scipy_svd_contract ge ->
  SVDBasis.generate_basis td n method (b, w) = (inr tt, (b', w')) ->
  exists sv k,
    SVDBasis.s b' = Some sv /\ SVDBasis.n b' = Some k /\
    (method = "random" -> (0 <= n <= Z.of_nat (available_rank td))%Z ->
       descending ge sv /\ Z.of_nat (length (elems sv)) = k) /\
    (method = "scipy" ->
       descending ge sv /\
       length (elems sv) = available_rank td /\
       (Z.of_nat (length (elems sv)) = k <->
        (n = 0 \/ Z.of_nat (available_rank td) <= n \/ available_rank td = 0%nat)%Z)).
Proof.
  intros Hr Hs Hrun.
  destruct (method_cases method) as [->|[->|[H1 H2]]].
  - rewrite generate_basis_random in Hrun.
    destruct (randomized_svd _ _) as [e|[[U sv] Vh]] eqn:Hsvd; [discriminate|].
    injection Hrun as <- <-. exists sv, (requested_rank td n). cbn.
    split; [reflexivity|]. split; [reflexivity|]. split; [|discriminate].
    intros _ Hn.
    assert (0 <= requested_rank td n <= Z.of_nat (available_rank td))%Z as Hreq.
    { unfold requested_rank. destruct (n =? 0)%Z eqn:E; lia. }
    destruct (Hr _ _ _ _ _ (proj1 Hreq) Hsvd) as (Hrows & _ & Hlen & Hdesc).
    split; [exact Hdesc|]. rewrite Hlen, Hrows. lia.
  - rewrite generate_basis_scipy in Hrun.
    destruct (scipy_linalg_svd td) as [e|[[U sv] Vh]] eqn:Hsvd; [discriminate|].
    injection Hrun as <- <-. cbn.
    exists sv, (Z.of_nat (nrows (scipy_pair n Vh).2)).
    split; [reflexivity|]. split; [reflexivity|]. split; [discriminate|].
    intros _. destruct (Hs _ _ _ _ Hsvd) as (Hrows & Hcols & Hlen & Hdesc).
    split; [exact Hdesc|]. split; [exact Hlen|]. rewrite Hlen.
    unfold scipy_pair. cbn [T_conj_matrix conj_matrix map_matrix transpose nrows].
    rewrite Hcols.
    assert (available_rank td <= ncols td) by (unfold available_rank; lia).
    destruct (n =? 0)%Z eqn:E0; cbn [orb].
    { cbn. rewrite Hrows. lia. }
    destruct (Z.of_nat (ncols td) <? n)%Z eqn:E1.
    { cbn. rewrite Hrows. lia. }
    cbn. rewrite Hrows. unfold slice_stop. destruct (n <? 0)%Z eqn:E2; lia.
  - rewrite generate_basis_other in Hrun by assumption. discriminate.
Qed.

End SVDBasisClaims.

Section SVDBasisInvariant.
Context `{LinAlg}.
Implicit Types (b : SVDBasis.t) (w : World) (td : matrix scalar).

Lemma matmul_pure {St} (x y : ndarray scalar) (st : St) :
  (matmul x y st).2 = st.
Proof.
  unfold matmul.
  destruct x as [? ?|u|m], y as [? ?|v|m']; try reflexivity;
    match goal with |- context [decide ?P] => destruct (decide P) end; reflexivity.
Qed.

Lemma conjugate_pair_inv b : conjugate_pair b -> basis_inv b.
Proof. intros (v & HV & HVh & _). right. now exists v. Qed.

Lemma generate_basis_conjugate_pair td n method b w b' w' :
  (forall x, conj (conj x) = x) ->
  svd_outputs_wf ->
  SVDBasis.generate_basis td n method (b, w) = (inr tt, (b', w')) ->
  conjugate_pair b'.
Proof.
  intros Hconj [Hwr Hws] Hrun.
  destruct (method_cases method) as [->|[->|[H1 H2]]].
  - rewrite generate_basis_random in Hrun.
    destruct (randomized_svd _ _) as [e|[[U sv] Vh]] eqn:Hsvd; [discriminate|].
    injection Hrun as <- <-. eexists. cbn [SVDBasis.V SVDBasis.Vh].
    split; [reflexivity|].
    rewrite ctranspose_of_T_conj; [split; reflexivity|assumption|].
    apply wf_astype_matrix. eapply Hwr, Hsvd.
  - rewrite generate_basis_scipy in Hrun.
    destruct (scipy_linalg_svd td) as [e|[[U sv] Vh]] eqn:Hsvd; [discriminate|].
    injection Hrun as <- <-. eexists. cbn [SVDBasis.V SVDBasis.Vh].
    split; [reflexivity|]. pose proof (Hws _ _ _ _ Hsvd) as Hwf.
    unfold scipy_pair. destruct (_ || _); cbn [fst snd].
    + rewrite ctranspose_of_T_conj by assumption. split; reflexivity.
    + rewrite ctranspose_of_truncated by assumption. split; reflexivity.
  - rewrite generate_basis_other in Hrun by assumption. discriminate.
Qed.

Lemma from_file_conjugate_pair filename b w r b' w' :
  SVDBasis.from_file filename (b, w) = (r, (b', w')) ->
  b' = b \/ conjugate_pair b'.
Proof.
  rewrite from_file_eq. cbn zeta.
  destruct (fs w !! filename) as [[a|h]|]; [|intros [= _ <- _]; now left..].
  intros Hrun. right. exists a.
  rewrite ctranspose_dtype, ctranspose_T_conj.
  destruct a as [dt x|v|m]; injection Hrun as _ <- _; repeat split.
Qed.

(** C7. After each of the populating operations ([generate_basis] with
    either method, [from_file]) the stored [Vh] is [conj(V)^T], with the
    dtype of [V]; and no method of the class, whether it returns or raises,
    breaks the invariant that [V] and [Vh] are both unset or conjugate
    transposes of one another. *)
Theorem Vh_is_conjugate_transpose_of_V b w :
  (forall x, conj (conj x) = x) ->
  svd_outputs_wf ->
  (forall td n method b' w',
      SVDBasis.generate_basis td n method (b, w) = (inr tt, (b', w')) ->
      conjugate_pair b') /\
  (forall filename b' w',
      SVDBasis.from_file filename (b, w) = (inr tt, (b', w')) ->
      conjugate_pair b') /\
  (basis_inv b ->
   forall r b' w',
     ((exists td n method, SVDBasis.generate_basis td n method (b, w) = (r, (b', w'))) \/
      (exists filename, SVDBasis.from_file filename (b, w) = (r, (b', w'))) \/
      (exists filename, SVDBasis.to_file filename (b, w) = (r, (b', w')))) ->
     basis_inv b') /\
  (forall a,
      (SVDBasis.basis_coefficients_to_fseries a (b, w)).2 = (b, w) /\
      (SVDBasis.fseries_to_basis_coefficients a (b, w)).2 = (b, w)).
Proof.
  intros Hconj Hwf. split; [|split; [|split]]; cycle 3.
  { intros a. unfold SVDBasis.basis_coefficients_to_fseries,
      SVDBasis.fseries_to_basis_coefficients, SVDBasis.get_V, SVDBasis.get_Vh. run.
    destruct (SVDBasis.Vh b), (SVDBasis.V b); cbn [snd];
      rewrite ?matmul_pure; split; reflexivity. }
  - intros td n method b' w'. now apply generate_basis_conjugate_pair.
  - intros filename b' w' Hrun. rewrite from_file_eq in Hrun. cbn zeta in Hrun.
    destruct (fs w !! filename) as [[a|h]|] eqn:E; [|discriminate..].
    destruct a as [dt x|v|m]; [discriminate..|].
    injection Hrun as <- _. exists (Arr2 m).
    rewrite ctranspose_dtype, ctranspose_T_conj. repeat split.
  - intros Hinv r b' w' [(td & n & method & Hrun)|[(filename & Hrun)|(filename & Hrun)]].
    + destruct r as [e|[]].
      * destruct (method_cases method) as [->|[->|[H1 H2]]].
        -- rewrite generate_basis_random in Hrun.
           destruct (randomized_svd _ _) as [e'|[[U sv] Vh]]; [|discriminate].
           now injection Hrun as _ <- _.
        -- rewrite generate_basis_scipy in Hrun.
           destruct (scipy_linalg_svd td) as [e'|[[U sv] Vh]]; [|discriminate].
           now injection Hrun as _ <- _.
        -- rewrite generate_basis_other in Hrun by assumption.
           now injection Hrun as _ <- _.
      * eapply conjugate_pair_inv, generate_basis_conjugate_pair; eassumption.
    + apply from_file_conjugate_pair in Hrun as [->|Hpair]; [assumption|].
      now apply conjugate_pair_inv.
    + rewrite to_file_eq in Hrun.
      destruct (SVDBasis.V b); now injection Hrun as _ <- _.
Qed.

(** C8. [to_file] on a populated basis writes [V] and changes nothing in
    the object; [from_file] on the file written (on any basis object) then
    stores that [V], its conjugate transpose as [Vh], and its number of
    columns as [n]. The file written is [filename] itself when it ends in
    [.npy] (numpy appends the extension otherwise). [to_file] on a basis
    whose [V] is [None] returns normally and leaves the file system and the
    record of library calls untouched. *)
Theorem to_file_from_file_roundtrip filename b w :
  (forall m, SVDBasis.V b = Some (Arr2 m) ->
     exists w1,
       SVDBasis.to_file filename (b, w) = (inr tt, (b, w1)) /\
       (endswith filename ".npy" = true -> npy_name filename = filename) /\
       forall b0, exists w2,
         SVDBasis.from_file (npy_name filename) (b0, w1) =
         (inr tt, (SVDBasis.mk (Some (Arr2 m)) (Some (ctranspose (Arr2 m)))
                               (Some (Z.of_nat (ncols m))) (SVDBasis.s b0), w2))) /\
  (SVDBasis.V b = None ->
     SVDBasis.to_file filename (b, w) = (inr tt, (b, w))).
Proof.
  split.
  - intros m HV. rewrite to_file_eq, HV. eexists. split; [reflexivity|].
    split; [unfold npy_name; now intros ->|].
    intros b0. rewrite from_file_eq. cbn [fs calls logged].
    rewrite lookup_insert_eq. cbn zeta. rewrite ctranspose_T_conj.
    eexists. reflexivity.
  - intros HV. now rewrite to_file_eq, HV.
Qed.

(** C10. The randomized method stores [Vh] and [V] as complex64 whatever
    the dtype of the training data; the exact method stores them in the dtype
    of the [Vh] that the dense decomposition returned. When that routine
    answers a complex128 input in complex128, the two methods leave bases of
    different precision for the same input. *)
Theorem generate_basis_precision td n b w :
  (forall b' w',
      SVDBasis.generate_basis td n "random" (b, w) = (inr tt, (b', w')) ->
      dtype_of <$> SVDBasis.Vh b' = Some complex64 /\
      dtype_of <$> SVDBasis.V b' = Some complex64) /\
  (forall U s Vh0,
      scipy_linalg_svd td = inr (U, s, Vh0) ->
      exists b' w',
        SVDBasis.generate_basis td n "scipy" (b, w) = (inr tt, (b', w')) /\
        dtype_of <$> SVDBasis.Vh b' = Some (m_dtype Vh0) /\
        dtype_of <$> SVDBasis.V b' = Some (m_dtype Vh0)) /\
  (forall U s Vh0 b1 w1 b2 w2,
      m_dtype td = complex128 ->
      scipy_linalg_svd td = inr (U, s, Vh0) ->
      m_dtype Vh0 = complex128 ->
      SVDBasis.generate_basis td n "random" (b, w) = (inr tt, (b1, w1)) ->
      SVDBasis.generate_basis td n "scipy" (b, w) = (inr tt, (b2, w2)) ->
      dtype_of <$> SVDBasis.Vh b1 = Some complex64 /\
      dtype_of <$> SVDBasis.Vh b2 = Some complex128 /\
      dtype_of <$> SVDBasis.V b1 <> dtype_of <$> SVDBasis.V b2).
Proof.
  assert (forall b' w',
             SVDBasis.generate_basis td n "random" (b, w) = (inr tt, (b', w')) ->
             dtype_of <$> SVDBasis.Vh b' = Some complex64 /\
             dtype_of <$> SVDBasis.V b' = Some complex64) as Hrandom.
  { intros b' w' Hrun. rewrite generate_basis_random in Hrun.
    destruct (randomized_svd _ _) as [e|[[U sv] Vh]]; [discriminate|].
    injection Hrun as <- _. split; reflexivity. }
  assert (forall U s Vh0,
             scipy_linalg_svd td = inr (U, s, Vh0) ->
             exists b' w',
               SVDBasis.generate_basis td n "scipy" (b, w) = (inr tt, (b', w')) /\
               dtype_of <$> SVDBasis.Vh b' = Some (m_dtype Vh0) /\
               dtype_of <$> SVDBasis.V b' = Some (m_dtype Vh0)) as Hscipy.
  { intros U sv Vh0 Hsvd. rewrite generate_basis_scipy, Hsvd.
    eexists _, _. split; [reflexivity|]. cbn [SVDBasis.V SVDBasis.Vh].
    unfold scipy_pair. destruct (_ || _); split; reflexivity. }
  split; [exact Hrandom|]. split; [exact Hscipy|].
  intros U sv Vh0 b1 w1 b2 w2 _ Hsvd Hdt Hr Hs.
  destruct (Hrandom _ _ Hr) as [HVh1 HV1].
  destruct (Hscipy _ _ _ Hsvd) as (b2' & w2' & Hs' & HVh2 & HV2).
  rewrite Hs in Hs'. injection Hs' as <- <-.
  rewrite HVh1, HVh2, HV1, HV2, Hdt. repeat split; discriminate.
Qed.

End SVDBasisInvariant.

(** ** WaveformDataset *)

Ltac unfold_wfd :=
  unfold WaveformDataset.init, WaveformDataset.load, WaveformDataset.__getitem__,
    WaveformDataset.truncate_dataset_domain, WaveformDataset.domain_set_new_range,
    WaveformDataset.__len__, WaveformDataset.iloc_to_dict,
    WaveformDataset.open_h5, WaveformDataset.read_parameters,
    WaveformDataset.as_group, WaveformDataset.read_dataset, WaveformDataset.read_array,
    WaveformDataset.attr, WaveformDataset.self, WaveformDataset.assert_,
    WaveformDataset.set_transform, WaveformDataset.set__Vh,
    WaveformDataset.set__parameter_samples, WaveformDataset.set__hc,
    WaveformDataset.set__hp, WaveformDataset.set_data_settings,
    WaveformDataset.set_domain, WaveformDataset.set_is_truncated,
    WaveformDataset.update, getitem, shape_at, index_row in *.

(** Case analysis on every test a run recorded in [H] has gone through. *)
Ltac case_run H :=
  repeat (cbn in H;
          match type of H with
          | context [match ?x with _ => _ end] =>
              lazymatch x with
              | context [match _ with _ => _ end] => fail
              | _ => destruct x eqn:?; try discriminate H
              end
          end).

Section WaveformDatasetClaims.
Context `{Collaborators}.
Implicit Types (o : WaveformDataset.t) (w : World) (fp : h5file).

Lemma load_without_rb_matrix_V filename transform sp w fp st' :
  fs w !! filename = Some (Hdf5File fp) ->
  "rb_matrix_V" ∉ keys (h5_members fp) ->
  WaveformDataset.init filename transform sp w = (inr tt, st') ->
  WaveformDataset._Vh st'.1 = Some (Arr0 (precision sp) (cast (precision sp) nan)).
Proof.
  intros Hfile Hrb Hrun. unfold_wfd. run. rewrite Hfile in Hrun.
  rewrite bool_decide_false in Hrun by assumption.
  case_run Hrun; injection Hrun as <-; reflexivity.
Qed.

Lemma matmul_Arr0_r {St} (x : ndarray scalar) dt y (st : St) :
  matmul x (Arr0 dt y) st = (inl (ValueError matmul_dimension_error), st).
Proof. destruct x; reflexivity. Qed.

Lemma index_row_cases {St} (a : ndarray scalar) idx (st : St) :
  (exists r, index_row a idx st = (inr r, st)) \/
  (exists msg, index_row a idx st = (inl (IndexError msg), st)).
Proof.
  unfold index_row. destruct a as [? ?|v|m]; [eauto| |].
  - destruct (py_index (elems v) idx); eauto.
  - destruct (py_index (rows m) idx); eauto.
Qed.

Lemma matmul_cases {St} (x y : ndarray scalar) (st : St) :
  (exists r, matmul x y st = (inr r, st)) \/ (exists e, matmul x y st = (inl e, st)).
Proof.
  pose proof (matmul_pure x y st) as Hp.
  destruct (matmul x y st) as [[e|r] st1]; cbn in Hp; subst st1; eauto.
Qed.

(** [__getitem__] reads the object and leaves it as it is. *)
Lemma getitem_pure idx (st : WaveformDataset.St) :
  (WaveformDataset.__getitem__ idx st).2 = st.
Proof.
  destruct st as [o w].
  unfold WaveformDataset.__getitem__, WaveformDataset.attr, WaveformDataset.self,
    WaveformDataset.iloc_to_dict, getitem.
  run.
  destruct (WaveformDataset._parameter_samples o) as [ps|]; [|reflexivity].
  destruct (py_index (WaveformDataset.df_records ps) idx) as [rec|]; [|reflexivity].
  cbn [fst snd]. destruct (WaveformDataset._hc o) as [hc|]; [|reflexivity].
  destruct (@index_row_cases WaveformDataset.St hc idx (o, w)) as [[hc_idx ->]|[msg ->]];
    [|reflexivity].
  cbn [fst snd]. destruct (WaveformDataset._hp o) as [hp|]; [|reflexivity].
  destruct (@index_row_cases WaveformDataset.St hp idx (o, w)) as [[hp_idx ->]|[msg ->]];
    [|reflexivity].
  cbn [fst snd].
  assert (forall r : result WaveformDataset.data,
             (let (r1, st1) := (r, (o, w)) in
              match r1 with
              | inl e => (inl e, st1)
              | inr a =>
                  match WaveformDataset.transform st1.1 with
                  | Some f => fun st : WaveformDataset.St => (f a, st)
                  | None => fun st : WaveformDataset.St => (inr (WaveformDataset.Data a), st)
                  end st1
              end).2 = (o, w)) as Htail.
  { intros [e|d]; cbn; [reflexivity|]. destruct (WaveformDataset.transform o); reflexivity. }
  destruct (WaveformDataset._Vh o) as [Vh|]; [|apply (Htail (inr _))].
  cbn.
  destruct (@matmul_cases WaveformDataset.St hp_idx Vh (o, w)) as [[hp' ->]|[e ->]];
    [|apply (Htail (inl _))].
  cbn.
  destruct (@matmul_cases WaveformDataset.St hc_idx Vh (o, w)) as [[hc' ->]|[e ->]];
    [|apply (Htail (inl _))].
  apply (Htail (inr _)).
Qed.

Lemma getitem_with_Arr0 idx o w dt y :
  WaveformDataset._Vh o = Some (Arr0 dt y) ->
  exists e,
    WaveformDataset.__getitem__ idx (o, w) = (inl e, (o, w)) /\
    (e = ValueError matmul_dimension_error \/
     (exists msg, e = IndexError msg) \/
     (exists name, e = AttributeError name)).
Proof.
  intros HVh.
  unfold WaveformDataset.__getitem__, WaveformDataset.attr, WaveformDataset.self,
    WaveformDataset.iloc_to_dict, getitem.
  run.
  destruct (WaveformDataset._parameter_samples o) as [ps|]; [|eauto 6].
  destruct (py_index (WaveformDataset.df_records ps) idx) as [rec|]; [|eauto 6].
  cbn [fst snd]. destruct (WaveformDataset._hc o) as [hc|]; [|eauto 6].
  destruct (@index_row_cases WaveformDataset.St hc idx (o, w)) as [[hc_idx ->]|[msg ->]]; [|eauto 6].
  cbn [fst snd]. destruct (WaveformDataset._hp o) as [hp|]; [|eauto 6].
  destruct (@index_row_cases WaveformDataset.St hp idx (o, w)) as [[hp_idx ->]|[msg ->]]; [|eauto 6].
  cbn [fst snd]. rewrite HVh. cbn. rewrite matmul_Arr0_r. eauto.
Qed.

(** C3, what the program does with a file that has no [rb_matrix_V]:
    [load] ends by converting [self._Vh], still [None], with [np.array], so
    the dataset holds a zero-dimensional array of NaN where the absence of a
    compression matrix is tested with [is not None]. Every [__getitem__]
    then raises: the [ValueError] of [@] on the zero-dimensional array, or
    before it the error of an index out of range. No full-length vector is
    ever returned. *)
Theorem getitem_raises_without_rb_matrix_V filename transform sp w fp st' :
  fs w !! filename = Some (Hdf5File fp) ->
  "rb_matrix_V" ∉ keys (h5_members fp) ->
  WaveformDataset.init filename transform sp w = (inr tt, st') ->
  WaveformDataset._Vh st'.1 = Some (Arr0 (precision sp) (cast (precision sp) nan)) /\
  forall idx, exists e,
    WaveformDataset.__getitem__ idx st' = (inl e, st') /\
    (e = ValueError matmul_dimension_error \/
     (exists msg, e = IndexError msg) \/
     (exists name, e = AttributeError name)).
Proof.
  intros Hfile Hrb Hrun.
  pose proof (load_without_rb_matrix_V _ _ _ _ _ _ Hfile Hrb Hrun) as HVh.
  split; [exact HVh|]. intros idx. destruct st' as [o' w'].
  eapply getitem_with_Arr0. exact HVh.
Qed.

End WaveformDatasetClaims.

Section WaveformDatasetChecks.
Context `{Collaborators}.
Implicit Types (o : WaveformDataset.t) (w : World) (fp : h5file).

Lemma read_array_readable (a : ndarray scalar) (st : WaveformDataset.St) :
  readable a -> WaveformDataset.read_array a st = (inr a, st).
Proof. destruct a; [intros []|reflexivity..]. Qed.

Lemma load_accepts filename o w fp grp :
  fs w !! filename = Some (Hdf5File fp) ->
  well_formed_around fp grp ->
  keys grp = ["h_cross"; "h_plus"] ->
  exists o', WaveformDataset.load filename (o, w) = (inr tt, (o', w)).
Proof.
  intros Hfile ((columns & records & Hpar) & Hgrp & Hread & Hrb
                & (text & settings & dom & Hattr & Hlit & Hdom)) Hkeys.
  destruct grp as [|[k1 hc] [|[k2 hp] [|]]]; try discriminate.
  injection Hkeys as -> ->.
  apply Forall_cons in Hread as [Hhc Hread]. apply Forall_cons in Hread as [Hhp _].
  cbn [snd] in Hhc, Hhp.
  unfold WaveformDataset.load, WaveformDataset.open_h5, getitem,
    WaveformDataset.read_parameters, WaveformDataset.as_group,
    WaveformDataset.read_dataset, WaveformDataset.attr, WaveformDataset.self.
  run. rewrite Hfile, Hpar, Hgrp, Hattr.
  rewrite (bool_decide_true (keys _ = _)) by reflexivity.
  destruct Hrb as [Hrb|(V & HV & HrV)];
    [ rewrite bool_decide_false by assumption
    | rewrite HV; destruct V as [? ?|vV|mV]; [destruct HrV|..];
      destruct (bool_decide _) ];
    (destruct hc as [? ?|vc|mc]; [destruct Hhc|..]);
    (destruct hp as [? ?|vp|mp]; [destruct Hhp|..]);
    cbn; rewrite Hlit; cbn; rewrite Hdom; cbn; eauto.
Qed.

Lemma load_rejects filename o w fp grp :
  fs w !! filename = Some (Hdf5File fp) ->
  well_formed_around fp grp ->
  keys grp <> ["h_cross"; "h_plus"] ->
  exists o', WaveformDataset.load filename (o, w) = (inl (AssertionError ""), (o', w)).
Proof.
  intros Hfile ((columns & records & Hpar) & Hgrp & _) Hkeys.
  unfold WaveformDataset.load, WaveformDataset.open_h5, getitem,
    WaveformDataset.read_parameters, WaveformDataset.as_group.
  run. rewrite Hfile. cbn. rewrite Hpar. cbn. rewrite Hgrp. cbn.
  rewrite bool_decide_false by assumption. cbn. eauto.
Qed.

(** C2, as the program has it: on a file that is otherwise well formed,
    [load] succeeds exactly when h5py enumerates the keys of the
    polarization group as the list [h_cross, h_plus], in this order, and
    raises an [AssertionError] otherwise. So a missing key and an extra key
    are rejected; two keys [h_plus], [h_cross] enumerated in that order are
    rejected as well: the comparison is between lists. *)
Theorem load_checks_polarization_key_list filename o w fp grp :
  fs w !! filename = Some (Hdf5File fp) ->
  well_formed_around fp grp ->
  ((WaveformDataset.load filename (o, w)).1 = inr tt <->
   keys grp = ["h_cross"; "h_plus"]) /\
  (keys grp <> ["h_cross"; "h_plus"] ->
   (WaveformDataset.load filename (o, w)).1 = inl (AssertionError "")) /\
  ("h_cross" ∉ keys grp \/ "h_plus" ∉ keys grp \/
   (exists k, k ∈ keys grp /\ k <> "h_cross" /\ k <> "h_plus") \/
   keys grp = ["h_plus"; "h_cross"] ->
   (WaveformDataset.load filename (o, w)).1 = inl (AssertionError "")).
Proof.
  intros Hfile Hwf.
  assert (keys grp <> ["h_cross"; "h_plus"] ->
          (WaveformDataset.load filename (o, w)).1 = inl (AssertionError "")) as Hrej.
  { intros Hne. destruct (load_rejects _ o _ _ _ Hfile Hwf Hne) as [o' ->]. reflexivity. }
  split; [|split; [exact Hrej|]].
  - split.
    + intros Hok. destruct (decide (keys grp = ["h_cross"; "h_plus"])) as [|Hne];
        [assumption|]. rewrite (Hrej Hne) in Hok. discriminate.
    + intros Hk. destruct (load_accepts _ o _ _ _ Hfile Hwf Hk) as [o' ->]. reflexivity.
  - intros Hbad. apply Hrej. intros Hk. rewrite Hk in Hbad.
    destruct Hbad as [Hc|[Hp|[(k & Hin & Hc & Hp)|Heq]]].
    + apply Hc. repeat constructor.
    + apply Hp. repeat constructor.
    + apply list_elem_of_In in Hin. cbn in Hin. intuition congruence.
    + discriminate.
Qed.

(** C1, as the program has it. On a dataset that is already truncated the
    call raises before anything is assigned: the object is unchanged,
    whatever [new_range] is. On a dataset that is not truncated and whose
    [_Vh] is [None] the call raises [NotImplementedError] with [_Vh] and
    [is_truncated] unchanged; the domain is unchanged when no [new_range] is
    given, and has adopted the new range (by [domain.set_new_range], which
    runs before [_Vh] is looked at) when one is given. *)
Theorem truncate_dataset_domain_state_errors o w new_range :
  (WaveformDataset.is_truncated o = Some true ->
   WaveformDataset.truncate_dataset_domain new_range (o, w) =
   (inl (ValueError "Dataset is already truncated"), (o, w))) /\
  (WaveformDataset.is_truncated o = Some false ->
   WaveformDataset._Vh o = None ->
   forall dom, WaveformDataset.domain o = Some dom ->
     match new_range with
     | None =>
         WaveformDataset.truncate_dataset_domain None (o, w) =
         (inl (NotImplementedError WaveformDataset.not_implemented_msg), (o, w))
     | Some (low, high) =>
         forall dom', set_new_range low high dom = (inr tt, dom') ->
           exists o',
             WaveformDataset.truncate_dataset_domain (Some (low, high)) (o, w) =
             (inl (NotImplementedError WaveformDataset.not_implemented_msg), (o', w)) /\
             WaveformDataset.domain o' = Some dom' /\
             WaveformDataset._Vh o' = WaveformDataset._Vh o /\
             WaveformDataset.is_truncated o' = WaveformDataset.is_truncated o
     end).
Proof.
  split.
  - intros Htr. unfold_wfd. run. now rewrite Htr.
  - intros Htr HVh dom Hdom. destruct new_range as [[low high]|].
    + intros dom' Hset. unfold_wfd. run. rewrite Htr. cbn. rewrite Hdom. cbn.
      rewrite Hdom. cbn. rewrite Hset. cbn. rewrite HVh. cbn.
      eexists. split; [reflexivity|]. cbn. rewrite Htr. auto.
    + unfold_wfd. run. rewrite Htr. cbn. rewrite Hdom. cbn. rewrite HVh. reflexivity.
Qed.

End WaveformDatasetChecks.

(** ** The reduced-basis builder *)

Lemma dict_get_tagged {A} (f : string -> A) (ks : list string) k :
  k ∈ ks -> dict_get ((fun k => (k, f k)) <$> ks) k = Some (f k).
Proof.
  induction ks as [|a ks IH]; intros Hin; [inversion Hin|].
  cbn. destruct (String.eqb_spec a k) as [->|Hne]; [reflexivity|].
  apply IH. apply elem_of_cons in Hin as [->|Hin]; [congruence|assumption].
Qed.

Lemma dict_get_in {A} (d : dict A) k v : dict_get d k = Some v -> (k, v) ∈ d.
Proof.
  induction d as [|[k' v'] d IH]; [discriminate|]. cbn.
  destruct (String.eqb_spec k' k) as [->|Hne].
  - intros [= ->]. left.
  - intros Hd. right. now apply IH.
Qed.

Lemma dict_get_key {A} (d : dict A) k : k ∈ keys d -> is_Some (dict_get d k).
Proof.
  unfold keys. induction d as [|[k' v'] d IH]; intros Hin; [inversion Hin|].
  cbn in *. destruct (String.eqb_spec k' k) as [->|Hne]; [eauto|].
  apply IH. apply elem_of_cons in Hin as [->|Hin]; [congruence|assumption].
Qed.

Section BuilderFacts.
Context `{Sc : Scalars} `{!LinAlg} `{!Collaborators}.

Variables (st : WaveformDataset.St) (L b Nn M_ : nat) (ifos : list string)
          (source : list (dict (vector scalar))).
Hypotheses (Hb : 0 < b) (HN : Nn <= L) (HL : 1 <= L)
           (Hsrc : source_upto st (consumed L b Nn) = Some source)
           (Huni : uniform_source ifos M_ source).

Lemma source_length : length source = consumed L b Nn.
Proof.
  unfold source_upto in Hsrc. apply length_mapM in Hsrc.
  now rewrite length_seq in Hsrc.
Qed.

Lemma sample_at i d :
  source !! i = Some d ->
  exists p, WaveformDataset.__getitem__ (Z.of_nat i) st = (inr (WaveformDataset.Tuple p d), st).
Proof.
  intros Hd. unfold source_upto in Hsrc. apply mapM_Some_1 in Hsrc.
  destruct (Forall2_lookup_r _ _ _ _ _ Hsrc Hd) as (x & Hx & Hs).
  apply lookup_seq in Hx as [-> _]. cbn in Hs. unfold sample_strain in Hs.
  pose proof (getitem_pure (Z.of_nat i) st) as Hpure.
  destruct (WaveformDataset.__getitem__ (Z.of_nat i) st) as [[e|[d'|p s]] st1];
    cbn in Hs, Hpure; try discriminate.
  injection Hs as ->. subst st1. eauto.
Qed.

Lemma item_of_source i d :
  source !! i = Some d ->
  WaveformDataset.__getitem__ (Z.of_nat i) st = (inr (item_of st i), st) /\
  strain_of (item_of st i) = d.
Proof.
  intros Hd. destruct (sample_at i d Hd) as [p Hp]. unfold item_of. rewrite Hp.
  split; reflexivity.
Qed.

Lemma source_keys i d : source !! i = Some d -> keys d = ifos.
Proof. intros Hd. exact (proj1 (Forall_lookup_1 _ _ _ _ Huni Hd)). Qed.

Lemma source_vector i d k :
  source !! i = Some d -> k ∈ ifos ->
  exists v, dict_get d k = Some v /\ length (elems v) = M_.
Proof.
  intros Hd Hk. destruct (Forall_lookup_1 _ _ _ _ Huni Hd) as [Hkeys Hlen].
  rewrite <- Hkeys in Hk. destruct (dict_get_key d k Hk) as [v Hv].
  exists v. split; [assumption|].
  apply dict_get_in in Hv. exact (proj1 (Forall_forall _ _) Hlen _ Hv).
Qed.

Lemma batch_within idx i :
  at_batch b Nn idx -> i ∈ batch_indices L b idx -> i < consumed L b Nn.
Proof.
  intros Hat Hi. unfold batch_indices in Hi. apply elem_of_seq in Hi.
  unfold consumed.
  assert (idx + 1 <= Nat.max 1 ((Nn + b - 1) / b)) as Hc.
  { destruct Hat as [->|Hlt]; [lia|].
    assert (idx + 1 <= (Nn + b - 1) / b); [|lia].
    apply Nat.div_le_lower_bound; [lia|]. nia. }
  assert ((idx + 1) * b <= Nat.max 1 ((Nn + b - 1) / b) * b) by (apply Nat.mul_le_mono_r; lia).
  nia.
Qed.

Lemma batch_nonempty idx :
  at_batch b Nn idx -> 0 < Nat.min b (L - idx * b).
Proof. intros [->|Hlt]; lia. Qed.

Lemma batch_lookup idx i :
  at_batch b Nn idx -> i ∈ batch_indices L b idx -> is_Some (source !! i).
Proof.
  intros Hat Hi. apply lookup_lt_is_Some. rewrite source_length.
  eapply batch_within; eassumption.
Qed.

Lemma fetch_batch idx :
  at_batch b Nn idx ->
  mapM (fun i => WaveformDataset.__getitem__ (Z.of_nat i)) (batch_indices L b idx) st =
  (inr (item_of st <$> batch_indices L b idx), st).
Proof.
  intros Hat. apply mapM_ok. intros i Hi.
  destruct (batch_lookup idx i Hat Hi) as [d Hd].
  exact (proj1 (item_of_source i d Hd)).
Qed.

Lemma channel_rows_lookup k i d v :
  source !! i = Some d -> dict_get d k = Some v ->
  channel_rows k source !! i = Some (elems v).
Proof.
  intros Hd Hv. unfold channel_rows. rewrite list_lookup_fmap, Hd. cbn. now rewrite Hv.
Qed.

Lemma stack_batch idx k :
  at_batch b Nn idx -> k ∈ ifos ->
  (vs ← mapM (fun it => strain ← second it; getitem strain k)
            (item_of st <$> batch_indices L b idx);
   m ← stack vs;
   ret (k, m)) st =
  (inr (k, stacked st L b idx M_ source k), st).
Proof.
  intros Hat Hk.
  erewrite bind_ok; cycle 1.
  { apply (mapM_ok _ (vector_of k)). intros it Hit.
    apply list_elem_of_fmap in Hit as (i & -> & Hi).
    destruct (batch_lookup idx i Hat Hi) as [d Hd].
    destruct (item_of_source i d Hd) as [_ Hstrain].
    destruct (sample_at i d Hd) as [p Hp].
    unfold vector_of. rewrite Hstrain.
    unfold item_of. rewrite Hp. cbn.
    destruct (source_vector i d k Hd Hk) as (v & Hv & _).
    unfold second, getitem. run. now rewrite Hv. }
  unfold batch_indices, stacked.
  pose proof (batch_nonempty idx Hat) as Hcnt.
  set (lower := idx * b) in *. set (count := Nat.min b (L - lower)) in *.
  destruct count as [|count'] eqn:Ecount; [lia|].
  rewrite <- Ecount.
  assert (forall j, j < count ->
            exists d v, source !! (lower + j) = Some d /\ dict_get d k = Some v /\
                        length (elems v) = M_ /\
                        vector_of k (item_of st (lower + j)) = v) as Hrow.
  { intros j Hj.
    assert (lower + j ∈ batch_indices L b idx) as Hin.
    { unfold batch_indices. apply elem_of_seq. fold lower. fold count. lia. }
    destruct (batch_lookup idx _ Hat Hin) as [d Hd].
    destruct (source_vector _ d k Hd Hk) as (v & Hv & Hlen).
    exists d, v. repeat split; try assumption.
    unfold vector_of. rewrite (proj2 (item_of_source _ d Hd)). now rewrite Hv. }
  assert (elems <$> (vector_of k <$> (item_of st <$> seq lower count)) =
          take count (drop lower (channel_rows k source))) as Hrows.
  { apply list_eq. intros j. rewrite !list_lookup_fmap.
    destruct (decide (j < count)) as [Hj|Hj].
    - rewrite lookup_seq_lt by assumption. cbn.
      rewrite lookup_take_lt, lookup_drop by assumption.
      destruct (Hrow j Hj) as (d & v & Hd & Hv & _ & ->).
      now rewrite (channel_rows_lookup k _ d v Hd Hv).
    - rewrite lookup_seq_ge, lookup_take_ge by lia. reflexivity. }
  assert (Forall (fun u => length (elems u) = M_)
                 (vector_of k <$> (item_of st <$> seq lower count))) as Hlens.
  { apply Forall_fmap, Forall_fmap, Forall_forall. intros i Hi. cbn.
    apply elem_of_seq in Hi.
    destruct (Hrow (i - lower) ltac:(lia)) as (d & v & _ & _ & Hlen & Hv).
    replace (lower + (i - lower)) with i in Hv by lia. now rewrite Hv. }
  unfold stack.
  destruct (vector_of k <$> (item_of st <$> seq lower count)) as [|v0 vs] eqn:Evs.
  { apply (f_equal length) in Evs. rewrite !length_fmap, length_seq in Evs. cbn in Evs. lia. }
  assert (v0 = vector_of k (item_of st lower)) as Hv0.
  { rewrite Ecount in Evs. cbn in Evs. now injection Evs as <- _. }
  assert (length (v0 :: vs) = count) as Hlen.
  { rewrite <- Evs, !length_fmap, length_seq. reflexivity. }
  rewrite <- Hrows.
  assert (forallb (fun u => Nat.eqb (length (elems u)) (length (elems v0))) (v0 :: vs) = true)
    as ->.
  { apply forallb_forall. intros u Hu. apply Nat.eqb_eq.
    apply list_elem_of_In in Hu.
    pose proof (proj1 (Forall_forall _ _) Hlens) as Hall.
    rewrite (Hall u Hu). symmetry. apply Hall. left. }
  run. rewrite Hlen. rewrite <- Hv0.
  rewrite (proj1 (Forall_forall _ _) Hlens v0 ltac:(left)). reflexivity.
Qed.


Lemma collate_batch idx :
  at_batch b Nn idx ->
  collate_strain (item_of st <$> batch_indices L b idx) st =
  (inr ((fun k => (k, stacked st L b idx M_ source k)) <$> ifos), st).
Proof.
  intros Hat. pose proof (batch_nonempty idx Hat) as Hcnt.
  assert (idx * b ∈ batch_indices L b idx) as Hin.
  { unfold batch_indices. apply elem_of_seq. lia. }
  destruct (batch_lookup idx _ Hat Hin) as [d0 Hd0].
  destruct (sample_at _ d0 Hd0) as [p0 Hp0].
  assert (item_of st (idx * b) = WaveformDataset.Tuple p0 d0) as Hitem.
  { unfold item_of. now rewrite Hp0. }
  unfold collate_strain.
  destruct (item_of st <$> batch_indices L b idx) as [|elem batch] eqn:Ebatch.
  { apply (f_equal length) in Ebatch. unfold batch_indices in Ebatch.
    rewrite length_fmap, length_seq in Ebatch. cbn in Ebatch. lia. }
  assert (elem = WaveformDataset.Tuple p0 d0) as ->.
  { unfold batch_indices in Ebatch.
    destruct (Nat.min b (L - idx * b)); [lia|]. cbn in Ebatch.
    injection Ebatch as <- _. exact Hitem. }
  cbn [second]. erewrite bind_ok by reflexivity.
  rewrite (source_keys _ _ Hd0).
  apply mapM_ok. intros k Hk. rewrite <- Ebatch. now apply stack_batch.
Qed.

Lemma assign_rows (buf : matrix scalar) (lower n : nat) (src : matrix scalar) :
  lower + n <= nrows buf ->
  nrows src = n -> ncols src = ncols buf ->
  assign_slice buf (Z.of_nat lower) (Z.of_nat n) src st =
  (inr (Matrix (m_dtype buf) (nrows buf) (ncols buf)
          (take lower (rows buf) ++ (map (cast (m_dtype buf)) <$> rows src)
             ++ drop (lower + n) (rows buf))), st).
Proof.
  intros Hfit Hr Hc. unfold assign_slice, slice_bound, broadcast_rows.
  assert ((Z.of_nat lower <? 0)%Z = false) as -> by lia.
  assert ((Z.of_nat lower + Z.of_nat n <? 0)%Z = false) as -> by lia.
  replace (Nat.min (Z.to_nat (Z.of_nat lower)) (nrows buf)) with lower by lia.
  replace (Nat.min (Z.to_nat (Z.of_nat lower + Z.of_nat n)) (nrows buf) - lower)
    with n by lia.
  rewrite decide_True by assumption. cbn. rewrite decide_True by assumption.
  reflexivity.
Qed.

Lemma channel_rows_length k : length (channel_rows k source) = consumed L b Nn.
Proof. unfold channel_rows. now rewrite length_fmap, source_length. Qed.

Lemma stale_rows_length k : length (stale_rows k Nn M_) = Nn.
Proof. unfold stale_rows. now rewrite length_fmap, length_seq. Qed.

Lemma consumed_ge : Nn <= consumed L b Nn.
Proof.
  unfold consumed.
  assert (Nn <= (Nn + b - 1) / b * b); [|nia].
  pose proof (Nat.div_mod_eq (Nn + b - 1) b) as Hdiv.
  pose proof (Nat.mod_upper_bound (Nn + b - 1) b ltac:(lia)). nia.
Qed.

Lemma update_buffers idx n :
  at_batch b Nn idx ->
  idx * b + n <= Nn -> n <= Nat.min b (L - idx * b) ->
  mapM (fun kb : string * matrix scalar =>
          src ← getitem ((fun k => (k, stacked st L b idx M_ source k)) <$> ifos) kb.1;
          buf ← assign_slice kb.2 (Z.of_nat (idx * b)) (Z.of_nat n)
                             (take_rows (Z.of_nat n) src);
          ret (kb.1, buf))
       (buffers_after ifos Nn M_ (idx * b) source) st =
  (inr (buffers_after ifos Nn M_ (idx * b + n) source), st).
Proof.
  intros Hat Hfit Hn. set (lower := idx * b) in *.
  pose proof consumed_ge as Hcons.
  erewrite (mapM_ok _ (fun kb => (kb.1, Matrix complex128 Nn M_
       ((map (cast complex128) <$> take (lower + n) (channel_rows kb.1 source))
          ++ drop (lower + n) (stale_rows kb.1 Nn M_))))).
  - f_equal. f_equal. unfold buffers_after. rewrite <- list_fmap_compose.
    reflexivity.
  - intros [k buf] Hkb. unfold buffers_after in Hkb.
    apply list_elem_of_fmap in Hkb as (k' & [= -> ->] & Hk). cbn [fst snd].
    unfold getitem. rewrite (dict_get_tagged _ _ _ Hk).
    erewrite bind_ok by reflexivity.
    erewrite bind_ok; cycle 1.
    { apply assign_rows; cbn [nrows ncols take_rows stacked].
      - lia.
      - rewrite slice_stop_nonneg by lia. fold lower. lia.
      - reflexivity. }
    cbn [m_dtype nrows ncols rows take_rows stacked]. fold lower.
    run. f_equal. f_equal. f_equal.
    rewrite slice_stop_nonneg by lia.
    replace (Nat.min (Z.to_nat (Z.of_nat n)) (Nat.min b (L - lower))) with n by lia.
    rewrite take_take. replace (Nat.min n (Nat.min b (L - lower))) with n by lia.
    rewrite take_app_length'; cycle 1.
    { rewrite length_fmap, length_take, channel_rows_length. lia. }
    rewrite drop_app_ge; cycle 1.
    { rewrite length_fmap, length_take, channel_rows_length. lia. }
    rewrite length_fmap, length_take, channel_rows_length.
    replace (lower + n - Nat.min lower (consumed L b Nn)) with n by lia.
    rewrite drop_drop.
    rewrite app_assoc. f_equal.
    rewrite <- fmap_app. now rewrite take_take_drop.
Qed.


Lemma collect_fills fuel : forall idx,
  at_batch b Nn idx ->
  Nn <= (idx + fuel) * b -> 1 <= fuel ->
  collect fuel idx L (Z.of_nat b) (Z.of_nat Nn)
          (buffers_after ifos Nn M_ (idx * b) source) st =
  (inr (buffers_after ifos Nn M_ Nn source), st).
Proof.
  induction fuel as [|fuel IH]; intros idx Hat Hfuel Hpos; [lia|].
  assert (idx * b <= Nn) as Hlow by (destruct Hat as [->|]; lia).
  cbn [collect]. rewrite Nat2Z.id.
  erewrite bind_ok by (apply fetch_batch; assumption).
  erewrite bind_ok by (apply collate_batch; assumption).
  cbv zeta.
  replace (Z.of_nat idx * Z.of_nat b)%Z with (Z.of_nat (idx * b)) by lia.
  replace (Z.min (Z.of_nat b) (Z.of_nat Nn - Z.of_nat (idx * b)))
    with (Z.of_nat (Nat.min b (Nn - idx * b))) by lia.
  erewrite bind_ok by (apply update_buffers; [assumption|lia|lia]).
  destruct (Z.of_nat (idx * b) + Z.of_nat (Nat.min b (Nn - idx * b)) =? Z.of_nat Nn)%Z
    eqn:E.
  - apply Z.eqb_eq in E.
    replace (idx * b + Nat.min b (Nn - idx * b)) with Nn by lia. reflexivity.
  - apply Z.eqb_neq in E.
    replace (idx * b + Nat.min b (Nn - idx * b)) with (S idx * b) by (cbn [Nat.mul]; lia).
    apply IH; [right; cbn [Nat.mul]; lia|cbn [Nat.mul Nat.add] in *; lia|].
    destruct fuel; [|lia]. cbn [Nat.mul] in *. nia.
Qed.

End BuilderFacts.

Section BuilderTheorem.
Context `{Sc : Scalars} `{!LinAlg} `{!Collaborators}.

Lemma buffers_full ifos Nn M_ source :
  buffers_after ifos Nn M_ Nn source = first_rows ifos Nn M_ source.
Proof.
  unfold buffers_after, first_rows. apply list_fmap_ext. intros _ k _.
  rewrite drop_ge, app_nil_r; [reflexivity|].
  unfold stale_rows. now rewrite length_fmap, length_seq.
Qed.

Lemma on_basis_wfd {A} (m : M (SVDBasis.t * World) A) basis (st : WaveformDataset.St) :
  (on_basis m basis st).2.1 = st.1.
Proof.
  unfold on_basis. destruct (m (basis, st.2)) as [[e|a] [basis' w']]; reflexivity.
Qed.

Lemma generate_rb_wfd rb n_rb (st : WaveformDataset.St) :
  (generate_rb rb n_rb st).2.1 = st.1.
Proof.
  unfold generate_rb.
  apply (mapM_preserves (fun st' : WaveformDataset.St => st'.1 = st.1)); [|reflexivity].
  intros kb st1 H1. unfold mbind, M_bind, bind, mret, M_ret, ret.
  pose proof (on_basis_wfd (SVDBasis.generate_basis kb.2 n_rb "random") SVDBasis.init st1)
    as Hb.
  destruct (on_basis _ _ st1) as [[e|r] st2]; cbn [fst snd] in *; congruence.
Qed.

Lemma save_rb_wfd basis_dict out_dir suffix (st : WaveformDataset.St) :
  (save_rb basis_dict out_dir suffix st).2.1 = st.1.
Proof.
  unfold save_rb. destruct out_dir as [out_dir|]; [|reflexivity].
  apply (mapM_preserves (fun st' : WaveformDataset.St => st'.1 = st.1)); [|reflexivity].
  intros entry st1 H1. unfold save_basis, np_save. run.
  pose proof (on_basis_wfd (SVDBasis.to_file
     (join out_dir ("V_" +:+ entry.1 +:+ suffix +:+ ".npy"))) entry.2 st1) as Hb.
  destruct (on_basis _ _ st1) as [[e|r] st2]; cbn [fst snd] in *; [congruence|].
  destruct (SVDBasis.s entry.2); cbn [fst snd]; congruence.
Qed.

Lemma finish_restores rb n_rb out_dir suffix original (st : WaveformDataset.St) V_paths st' :
  finish rb n_rb out_dir suffix original st = (inr V_paths, st') ->
  st'.1 = with_transform st.1 original.
Proof.
  unfold finish, WaveformDataset.set_transform, WaveformDataset.update. run.
  pose proof (generate_rb_wfd rb n_rb st) as Hg.
  destruct (generate_rb rb n_rb st) as [[e|basis_dict] st1]; [discriminate|].
  pose proof (save_rb_wfd basis_dict out_dir suffix st1) as Hs.
  destruct (save_rb basis_dict out_dir suffix st1) as [[e|paths] st2]; [discriminate|].
  cbn [fst snd] in *. intros [= _ <-]. cbn [fst]. unfold with_transform.
  now rewrite Hs, Hg.
Qed.

(** C9. When the dataset has at least [N] samples and the samples read are
    pairs with the same channels and vectors of one length, the loop ends
    with each channel's buffer holding exactly the first [N] rows of the
    source (converted to the buffer's complex128), whatever it held before.
    Only the samples of the batches up to the one that holds row [N - 1] are
    read ([consumed]): the source is assumed to be well formed on these
    alone, so nothing after them is touched. The whole function then behaves
    as the generation and the saving of the bases on these buffers, and when
    it returns the dataset object is what it was before the call, its
    transform included. *)
Theorem reduced_basis_collects_first_N_rows o w transforms_rb (Nn b L M_ : nat) num_workers n_rb out_dir suffix ifos source :
  let st_rb : WaveformDataset.St := (with_transform o transforms_rb, w) in
  0 < b -> Nn <= L -> 1 <= L -> (0 <= num_workers)%Z ->
  WaveformDataset.__len__ st_rb = (inr L, st_rb) ->
  source_upto st_rb (consumed L b Nn) = Some source ->
  ifos <> [] ->
  uniform_source ifos M_ source ->
  collect (num_batches L b) 0 L (Z.of_nat b) (Z.of_nat Nn)
          (buffers_after ifos Nn M_ 0 source) st_rb =
    (inr (first_rows ifos Nn M_ source), st_rb) /\
  generate_and_save_reduced_basis transforms_rb (Z.of_nat Nn) (Z.of_nat b) num_workers
                                  n_rb out_dir suffix (o, w) =
    finish (first_rows ifos Nn M_ source) n_rb out_dir suffix
           (WaveformDataset.transform o) st_rb /\
  forall V_paths st',
    generate_and_save_reduced_basis transforms_rb (Z.of_nat Nn) (Z.of_nat b) num_workers
                                    n_rb out_dir suffix (o, w) = (inr V_paths, st') ->
    st'.1 = o.
Proof.
  intros st_rb Hb HN HL Hnw Hlen Hsrc Hifos Huni.
  assert (collect (num_batches L b) 0 L (Z.of_nat b) (Z.of_nat Nn)
            (buffers_after ifos Nn M_ 0 source) st_rb =
          (inr (first_rows ifos Nn M_ source), st_rb)) as Hcollect.
  { rewrite <- buffers_full.
    apply (collect_fills st_rb L b Nn M_ ifos source Hb HN HL Hsrc Huni _ 0).
    - now left.
    - unfold num_batches.
      pose proof (Nat.div_mod_eq (L + b - 1) b) as Hdiv.
      pose proof (Nat.mod_upper_bound (L + b - 1) b ltac:(lia)). nia.
    - unfold num_batches. apply Nat.div_le_lower_bound; lia. }
  assert (generate_and_save_reduced_basis transforms_rb (Z.of_nat Nn) (Z.of_nat b)
            num_workers n_rb out_dir suffix (o, w) =
          finish (first_rows ifos Nn M_ source) n_rb out_dir suffix
                 (WaveformDataset.transform o) st_rb) as Hrun.
  { pose proof (consumed_ge L b Nn Hb) as Hcons.
    assert (0 < consumed L b Nn) as Hpos by (unfold consumed; nia).
    pose proof (source_length st_rb L b Nn source Hsrc) as Hslen.
    destruct (lookup_lt_is_Some_2 source 0 ltac:(lia)) as [d0 Hd0].
    destruct (sample_at st_rb L b Nn source Hsrc 0 d0 Hd0) as [p0 Hp0].
    pose proof (source_keys M_ ifos source Huni 0 d0 Hd0) as Hkeys.
    destruct ifos as [|ifo0 rest] eqn:Eifos; [congruence|]. rewrite <- Eifos in *.
    destruct (source_vector M_ ifos source Huni 0 d0 ifo0 Hd0) as (v & Hv & Hvlen).
    { rewrite Eifos. left. }
    unfold generate_and_save_reduced_basis.
    erewrite bind_ok by reflexivity.
    erewrite bind_ok by reflexivity.
    change (WaveformDataset.__getitem__ 0) with (WaveformDataset.__getitem__ (Z.of_nat 0)).
    fold st_rb.
    erewrite bind_ok by exact Hp0. erewrite bind_ok by reflexivity.
    erewrite bind_ok by exact Hp0. erewrite bind_ok by reflexivity.
    rewrite Hkeys. rewrite Eifos at 1.
    erewrite bind_ok by reflexivity.
    unfold getitem at 1. rewrite Hv. erewrite bind_ok by reflexivity.
    rewrite Hvlen.
    erewrite bind_ok; cycle 1.
    { apply (mapM_ok _ (fun k => (k, Matrix complex128 Nn M_ (stale_rows k Nn M_)))).
      intros k _. unfold np_empty.
      assert ((Z.of_nat Nn <? 0)%Z = false) as -> by lia.
      rewrite Nat2Z.id. reflexivity. }
    assert ((Z.of_nat b <=? 0)%Z = false) as -> by lia.
    assert ((num_workers <? 0)%Z = false) as -> by lia.
    erewrite bind_ok by reflexivity. erewrite bind_ok by reflexivity.
    erewrite bind_ok by exact Hlen.
    rewrite Nat2Z.id.
    change ((fun k => (k, Matrix complex128 Nn M_ (stale_rows k Nn M_))) <$> ifos)
      with (buffers_after ifos Nn M_ 0 source).
    erewrite bind_ok by exact Hcollect.
    reflexivity. }
  split; [exact Hcollect|]. split; [exact Hrun|].
  intros V_paths st' Hret. rewrite Hrun in Hret.
  apply finish_restores in Hret. rewrite Hret. subst st_rb. cbn.
  destruct o; reflexivity.
Qed.

End BuilderTheorem.

(** ** Read-only computations *)

Section ReadonlyFacts.
Context {St : Type}.

Lemma readonly_run {A} (m : M St A) st : readonly m -> exists r, m st = (r, st).
Proof.
  intros Hm. specialize (Hm st). destruct (m st) as [r st1]. cbn in Hm. subst. eauto.
Qed.

Lemma readonly_ret {A} (a : A) : readonly (ret a : M St A).
Proof. intros st. reflexivity. Qed.

Lemma readonly_raise {A} e : readonly (raise e : M St A).
Proof. intros st. reflexivity. Qed.

Lemma readonly_bind {A B} (m : M St A) (k : A -> M St B) :
  readonly m -> (forall a, readonly (k a)) -> readonly (m ≫= k).
Proof.
  intros Hm Hk st. unfold mbind, M_bind, bind.
  destruct (readonly_run m st Hm) as [[e|a] ->]; [reflexivity|]. apply Hk.
Qed.

Lemma readonly_mapM {A B} (f : A -> M St B) (l : list A) :
  (forall x, readonly (f x)) -> readonly (mapM f l).
Proof.
  intros Hf. induction l as [|x l IH]; [apply readonly_ret|].
  cbn. apply readonly_bind; [apply Hf|]. intros y.
  apply readonly_bind; [exact IH|]. intros ys. apply readonly_ret.
Qed.

Lemma readonly_getitem {A} (d : dict A) k : readonly (getitem d k : M St A).
Proof. unfold getitem. destruct (dict_get d k); [apply readonly_ret|apply readonly_raise]. Qed.

(** The outcome of [m; k] when the outcome of [m] is known. *)
Lemma bind_run {A B} (m : M St A) (k : A -> M St B) st r st1 :
  m st = (r, st1) ->
  (m ≫= k) st = match r with inl e => (inl e, st1) | inr a => k a st1 end.
Proof. intros Hm. unfold mbind, M_bind, bind. rewrite Hm. destruct r; reflexivity. Qed.

Lemma raise_bind {A B} e (k : A -> M St B) st : (raise e ≫= k) st = (inl e, st).
Proof. reflexivity. Qed.

Lemma ret_bind {A B} (a : A) (k : A -> M St B) st : (ret a ≫= k) st = k a st.
Proof. reflexivity. Qed.

(** A loop that returns has run its body on every element. *)
Lemma mapM_inr {A B} (f : A -> M St B) (l : list A) st ys st' :
  mapM f l st = (inr ys, st') ->
  Forall2 (fun x y => exists st1 st2, f x st1 = (inr y, st2)) l ys.
Proof.
  revert st ys st'. induction l as [|x l IH]; intros st ys st'.
  - intros [= <- _]. constructor.
  - cbn. unfold mbind, M_bind, bind.
    destruct (f x st) as [[e|y] st1] eqn:Ex; [discriminate|].
    destruct (mapM f l st1) as [[e|ys'] st2] eqn:El; [discriminate|].
    intros [= <- _]. constructor; [eauto|]. eapply IH, El.
Qed.

End ReadonlyFacts.

Section BuilderAnatomy.
Context `{Sc : Scalars} `{!LinAlg} `{!Collaborators}.

Lemma readonly_wfd_getitem idx : readonly (WaveformDataset.__getitem__ idx).
Proof. intros st. apply getitem_pure. Qed.

Lemma readonly_len : readonly WaveformDataset.__len__.
Proof.
  intros [o w]. unfold WaveformDataset.__len__, WaveformDataset.attr, WaveformDataset.self.
  run. destruct (WaveformDataset._parameter_samples o); reflexivity.
Qed.

Lemma readonly_second it : readonly (second it).
Proof. destruct it; [apply readonly_raise|apply readonly_ret]. Qed.

Lemma readonly_stack vs : readonly (stack vs).
Proof.
  unfold stack. destruct vs as [|v vs]; [apply readonly_raise|].
  destruct (forallb _ _); [apply readonly_ret|apply readonly_raise].
Qed.

Lemma readonly_collate batch : readonly (collate_strain batch).
Proof.
  unfold collate_strain. destruct batch as [|elem batch]; [apply readonly_raise|].
  apply readonly_bind; [apply readonly_second|]. intros strain0.
  apply readonly_mapM. intros k.
  apply readonly_bind.
  - apply readonly_mapM. intros it. apply readonly_bind; [apply readonly_second|].
    intros strain. apply readonly_getitem.
  - intros vs. apply readonly_bind; [apply readonly_stack|]. intros m. apply readonly_ret.
Qed.

Lemma readonly_np_empty k N M_ : readonly (np_empty k N M_).
Proof. unfold np_empty. destruct (N <? 0)%Z; [apply readonly_raise|apply readonly_ret]. Qed.

Lemma readonly_assign_slice buf lower n src : readonly (assign_slice buf lower n src).
Proof.
  unfold assign_slice. destruct (broadcast_rows _ _ _);
    [apply readonly_ret|apply readonly_raise].
Qed.

Lemma readonly_collect fuel : forall idx len batch_size N rb,
  readonly (collect fuel idx len batch_size N rb).
Proof.
  induction fuel as [|fuel IH]; intros idx len batch_size N rb; [apply readonly_ret|].
  cbn [collect].
  apply readonly_bind; [apply readonly_mapM; intros i; apply readonly_wfd_getitem|].
  intros batch. apply readonly_bind; [apply readonly_collate|]. intros strain_data.
  cbv zeta. apply readonly_bind.
  - apply readonly_mapM. intros kb.
    apply readonly_bind; [apply readonly_getitem|]. intros src.
    apply readonly_bind; [apply readonly_assign_slice|]. intros buf. apply readonly_ret.
  - intros rb'. destruct (_ =? _)%Z; [apply readonly_ret|apply IH].
Qed.

(** The loops over the buffers keep their keys. *)
Lemma mapM_keys {St A B} (f : string * A -> M St (string * B))
  (l : list (string * A)) st ys st' :
  (forall kb st1 y st2, f kb st1 = (inr y, st2) -> y.1 = kb.1) ->
  mapM f l st = (inr ys, st') -> keys ys = keys l.
Proof.
  intros Hf Hrun. apply mapM_inr in Hrun. unfold keys.
  induction Hrun as [|kb y l ys (st1 & st2 & Hy) _ IH]; [reflexivity|].
  cbn. f_equal; [eapply Hf, Hy|exact IH].
Qed.

Lemma collect_keys fuel : forall idx len batch_size N rb st rb' st',
  collect fuel idx len batch_size N rb st = (inr rb', st') -> keys rb' = keys rb.
Proof.
  induction fuel as [|fuel IH]; intros idx len batch_size N rb st rb' st'.
  - intros [= <- _]. reflexivity.
  - cbn [collect]. unfold mbind at 1, M_bind at 1, bind at 1.
    match goal with |- context [mapM ?f ?l st] =>
      destruct (mapM f l st) as [[e|batch] st1]; [discriminate|] end.
    unfold mbind at 1, M_bind at 1, bind at 1.
    destruct (collate_strain batch st1) as [[e|strain_data] st2]; [discriminate|].
    cbv zeta. unfold mbind at 1, M_bind at 1, bind at 1.
    match goal with |- context [mapM ?f rb st2] =>
      destruct (mapM f rb st2) as [[e|rb1] st3] eqn:Eupd; [discriminate|] end.
    assert (keys rb1 = keys rb) as Hk.
    { eapply mapM_keys; [|exact Eupd]. intros kb s1 y s2. run.
      destruct (getitem strain_data kb.1 s1) as [[e|src] s3]; [discriminate|].
      destruct (assign_slice _ _ _ _ s3) as [[e|buf] s4]; [discriminate|].
      now intros [= <- _]. }
    destruct (_ =? _)%Z.
    + intros [= <- _]. exact Hk.
    + intros Hrec. rewrite <- Hk. eapply IH, Hrec.
Qed.

Lemma generate_rb_keys rb n_rb st basis_dict st' :
  generate_rb rb n_rb st = (inr basis_dict, st') -> keys basis_dict = keys rb.
Proof.
  unfold generate_rb. apply mapM_keys. intros kb s1 y s2. run.
  destruct (on_basis _ _ s1) as [[e|r] s3]; [discriminate|]. now intros [= <- _].
Qed.

(** The name of the file of the basis of a channel. *)
Lemma save_rb_paths basis_dict out_dir suffix st V_paths st' :
  save_rb basis_dict (Some out_dir) suffix st = (inr V_paths, st') ->
  V_paths = (fun ifo => join out_dir ("V_" +:+ ifo +:+ suffix +:+ ".npy")) <$> keys basis_dict.
Proof.
  unfold save_rb. intros Hrun. apply mapM_inr in Hrun. unfold keys.
  induction Hrun as [|entry path l ys (st1 & st2 & Hy) _ IH]; [reflexivity|].
  cbn. f_equal; [|exact IH]. unfold save_basis in Hy. run.
  destruct (on_basis _ _ st1) as [[e|r] s3]; [discriminate|].
  destruct (SVDBasis.s entry.2); [|discriminate].
  unfold np_save in Hy. run. now injection Hy as <- _.
Qed.

Lemma generate_basis_fs td n method b w :
  fs (SVDBasis.generate_basis td n method (b, w)).2.2 = fs w.
Proof.
  destruct (method_cases method) as [->|[->|[H1 H2]]].
  - rewrite generate_basis_random.
    destruct (randomized_svd _ _) as [e|[[U sv] Vh]]; reflexivity.
  - rewrite generate_basis_scipy.
    destruct (scipy_linalg_svd _) as [e|[[U sv] Vh]]; reflexivity.
  - now rewrite generate_basis_other.
Qed.

Lemma generate_rb_fs rb n_rb (st : WaveformDataset.St) :
  fs (generate_rb rb n_rb st).2.2 = fs st.2.
Proof.
  unfold generate_rb.
  apply (mapM_preserves (fun st' : WaveformDataset.St => fs st'.2 = fs st.2)); [|reflexivity].
  intros kb st1 H1. unfold on_basis. run.
  pose proof (generate_basis_fs kb.2 n_rb "random" SVDBasis.init st1.2) as Hfs.
  destruct (SVDBasis.generate_basis _ _ _ _) as [[e|a] [b' w']]; cbn [fst snd] in *;
    congruence.
Qed.

(** What a run of the builder consists of: it stops with an exception
    while the dataset carries the transform of the builder, or it reaches
    the generation of the bases with one buffer for each key of the first
    sample. *)
Lemma builder_anatomy transforms_rb N batch_size num_workers n_rb out_dir suffix o w r st' :
  generate_and_save_reduced_basis transforms_rb N batch_size num_workers n_rb out_dir
                                  suffix (o, w) = (r, st') ->
  (exists e, r = inl e /\ st' = (with_transform o transforms_rb, w)) \/
  (exists p strain rb,
      WaveformDataset.__getitem__ 0 (with_transform o transforms_rb, w) =
      (inr (WaveformDataset.Tuple p strain), (with_transform o transforms_rb, w)) /\
      keys rb = keys strain /\
      finish rb n_rb out_dir suffix (WaveformDataset.transform o)
             (with_transform o transforms_rb, w) = (r, st')).
Proof.
  set (st_rb := (with_transform o transforms_rb, w)).
  unfold generate_and_save_reduced_basis.
  rewrite (bind_run WaveformDataset.self _ (o, w) (inr o) (o, w) eq_refl).
  rewrite (bind_run (WaveformDataset.set_transform transforms_rb) _ (o, w) (inr tt) st_rb
                    eq_refl).
  destruct (readonly_run _ st_rb (readonly_wfd_getitem 0)) as [r0 E0].
  rewrite (bind_run _ _ _ _ _ E0).
  destruct r0 as [e|wfd_0]; [intros [= <- <-]; left; eauto|].
  destruct (readonly_run _ st_rb (readonly_second wfd_0)) as [r1 E1].
  rewrite (bind_run _ _ _ _ _ E1).
  destruct r1 as [e|strain]; [intros [= <- <-]; left; eauto|].
  rewrite (bind_run _ _ _ _ _ E0). rewrite (bind_run _ _ _ _ _ E1).
  assert (exists p, wfd_0 = WaveformDataset.Tuple p strain) as [p ->].
  { destruct wfd_0 as [d|p s]; [discriminate|]. injection E1 as ->. eauto. }
  destruct (keys strain) as [|ifo0 rest] eqn:Ekeys.
  { rewrite raise_bind. intros [= <- <-]. left. eauto. }
  rewrite ret_bind.
  destruct (readonly_run _ st_rb (readonly_getitem strain ifo0)) as [r2 E2].
  rewrite (bind_run _ _ _ _ _ E2).
  destruct r2 as [e|v]; [intros [= <- <-]; left; eauto|].
  match goal with |- context [mapM ?f (ifo0 :: rest)] =>
    destruct (readonly_run (mapM f (ifo0 :: rest)) st_rb) as [r3 E3];
      [apply readonly_mapM; intros k; apply readonly_bind;
       [apply readonly_np_empty|intros buf; apply readonly_ret]|]
  end.
  rewrite (bind_run _ _ _ _ _ E3).
  destruct r3 as [e|rb0]; [intros [= <- <-]; left; eauto|].
  assert (keys rb0 = ifo0 :: rest) as Hk0.
  { unfold keys. apply mapM_inr in E3.
    clear -E3. induction E3 as [|k y l ys (s1 & s2 & Hy) _ IH]; [reflexivity|].
    cbn. f_equal; [|exact IH]. run. destruct (np_empty _ _ _ s1) as [[e|buf] s3];
      [discriminate|]. now injection Hy as <- _. }
  destruct (batch_size <=? 0)%Z.
  { rewrite raise_bind. intros [= <- <-]. left. eauto. }
  rewrite ret_bind.
  destruct (num_workers <? 0)%Z.
  { rewrite raise_bind. intros [= <- <-]. left. eauto. }
  rewrite ret_bind.
  destruct (readonly_run _ st_rb readonly_len) as [r4 E4].
  rewrite (bind_run _ _ _ _ _ E4).
  destruct r4 as [e|len]; [intros [= <- <-]; left; eauto|].
  destruct (readonly_run _ st_rb
              (readonly_collect (num_batches len (Z.to_nat batch_size)) 0 len batch_size N rb0))
    as [r5 E5].
  rewrite (bind_run _ _ _ _ _ E5).
  destruct r5 as [e|rb]; [intros [= <- <-]; left; eauto|].
  intros Hfin. right. exists p, strain, rb. split; [exact E0|]. split.
  - rewrite (collect_keys _ _ _ _ _ _ _ _ _ E5). now rewrite Hk0.
  - exact Hfin.
Qed.

Lemma finish_raises rb n_rb out_dir suffix original (st : WaveformDataset.St) e st' :
  finish rb n_rb out_dir suffix original st = (inl e, st') -> st'.1 = st.1.
Proof.
  unfold finish, WaveformDataset.set_transform, WaveformDataset.update. run.
  pose proof (generate_rb_wfd rb n_rb st) as Hg.
  destruct (generate_rb rb n_rb st) as [[e1|basis_dict] st1]; cbn [fst snd] in *.
  { intros [= _ <-]. exact Hg. }
  pose proof (save_rb_wfd basis_dict out_dir suffix st1) as Hs.
  destruct (save_rb basis_dict out_dir suffix st1) as [[e2|paths] st2]; cbn [fst snd] in *.
  { intros [= _ <-]. congruence. }
  discriminate.
Qed.

End BuilderAnatomy.

(** ** File names *)

Lemma list_ascii_of_string_app (s t : string) :
  list_ascii_of_string (s +:+ t) = (list_ascii_of_string s ++ list_ascii_of_string t)%list.
Proof.
  induction s as [|a s IH]; [reflexivity|].
  change (String a s +:+ t) with (String a (s +:+ t)). cbn. now rewrite IH.
Qed.

Lemma string_app_assoc (a b c : string) : (a +:+ b) +:+ c = a +:+ (b +:+ c).
Proof.
  induction a as [|x a IH]; [reflexivity|].
  change (String x a +:+ b) with (String x (a +:+ b)).
  change (String x (a +:+ b) +:+ c) with (String x ((a +:+ b) +:+ c)).
  change (String x a +:+ (b +:+ c)) with (String x (a +:+ (b +:+ c))).
  now rewrite IH.
Qed.

Lemma string_length_app (s t : string) :
  String.length (s +:+ t) = String.length s + String.length t.
Proof.
  induction s as [|a s IH]; [reflexivity|].
  change (String a s +:+ t) with (String a (s +:+ t)). cbn. now rewrite IH.
Qed.

Lemma ends_with_rev_app (p q : list ascii) : ends_with_rev p (p ++ q) = true.
Proof.
  induction p as [|a p IH]; [reflexivity|]. cbn. now rewrite Ascii.eqb_refl.
Qed.

Lemma endswith_app (s t : string) : endswith (s +:+ t) t = true.
Proof.
  unfold endswith. rewrite list_ascii_of_string_app, rev_app_distr.
  apply ends_with_rev_app.
Qed.

Lemma npy_name_npy (s : string) : npy_name (s +:+ ".npy") = s +:+ ".npy".
Proof. unfold npy_name. now rewrite endswith_app. Qed.

Lemma npy_name_other (s : string) :
  endswith s ".npy" = false -> npy_name s = s +:+ ".npy" /\ npy_name s <> s.
Proof.
  intros Hs. unfold npy_name. rewrite Hs. split; [reflexivity|].
  intros Heq. apply (f_equal String.length) in Heq.
  rewrite string_length_app in Heq. cbn in Heq. lia.
Qed.

(** The paths the builder makes end in [.npy]. *)
Lemma join_npy (out_dir name : string) :
  npy_name (join out_dir (name +:+ ".npy")) = join out_dir (name +:+ ".npy").
Proof.
  unfold join. destruct (_ || _).
  - rewrite <- string_app_assoc. apply npy_name_npy.
  - rewrite <- !string_app_assoc. apply npy_name_npy.
Qed.

Lemma basis_path_npy (out_dir tag ifo suffix : string) :
  npy_name (join out_dir (tag +:+ ifo +:+ suffix +:+ ".npy")) =
  join out_dir (tag +:+ ifo +:+ suffix +:+ ".npy").
Proof.
  replace (tag +:+ ifo +:+ suffix +:+ ".npy") with (((tag +:+ ifo) +:+ suffix) +:+ ".npy")
    by now rewrite !string_app_assoc.
  apply join_npy.
Qed.

Section BuilderExits.
Context `{Sc : Scalars} `{!LinAlg} `{!Collaborators}.

Lemma finish_without_out_dir rb n_rb suffix original (st : WaveformDataset.St) r st' :
  finish rb n_rb None suffix original st = (r, st') ->
  fs st'.2 = fs st.2 /\ forall V_paths, r = inr V_paths -> V_paths = [].
Proof.
  unfold finish, save_rb, WaveformDataset.set_transform, WaveformDataset.update. run.
  pose proof (generate_rb_fs rb n_rb st) as Hg.
  destruct (generate_rb rb n_rb st) as [[e|basis_dict] st1]; cbn [fst snd] in *.
  - intros [= <- <-]. split; [exact Hg|discriminate].
  - intros [= <- <-]. split; [exact Hg|]. now intros V_paths [= <-].
Qed.

End BuilderExits.

(** ** The builder: what it leaves behind *)

Section BuilderOutcome.
Context `{Sc : Scalars} `{!LinAlg} `{!Collaborators}.

Lemma with_transform_original o f :
  with_transform (with_transform o f) (WaveformDataset.transform o) = o.
Proof. destruct o; reflexivity. Qed.

Lemma finish_returns rb n_rb out_dir suffix original (st : WaveformDataset.St) V_paths st' :
  finish rb n_rb out_dir suffix original st = (inr V_paths, st') ->
  exists basis_dict st1 st2,
    generate_rb rb n_rb st = (inr basis_dict, st1) /\
    save_rb basis_dict out_dir suffix st1 = (inr V_paths, st2) /\
    st'.2 = st2.2.
Proof.
  unfold finish, WaveformDataset.set_transform, WaveformDataset.update. run.
  destruct (generate_rb rb n_rb st) as [[e|basis_dict] st1]; [discriminate|].
  destruct (save_rb basis_dict out_dir suffix st1) as [[e|paths] st2] eqn:Hsave;
    [discriminate|].
  intros [= <- <-]. exists basis_dict, st1, st2. repeat split. exact Hsave.
Qed.

(** Every basis of a run of the generation that returns has its [V] and
    its [s]. *)
Lemma generate_rb_populated rb n_rb (st : WaveformDataset.St) basis_dict st' :
  generate_rb rb n_rb st = (inr basis_dict, st') ->
  Forall (fun entry => is_Some (SVDBasis.V entry.2) /\ is_Some (SVDBasis.s entry.2))
         basis_dict.
Proof.
  unfold generate_rb. intros Hrun. apply mapM_inr in Hrun.
  induction Hrun as [|kb y l ys (st1 & st2 & Hy) _ IH]; constructor; [|exact IH].
  revert Hy. unfold on_basis. run. rewrite generate_basis_random.
  destruct (randomized_svd _ _) as [e|[[U sv] Vh]]; [discriminate|].
  intros [= <- _]. cbn. eauto.
Qed.

Lemma save_basis_writes out_dir suffix entry (st : WaveformDataset.St) path st1 :
  is_Some (SVDBasis.V entry.2) ->
  save_basis out_dir suffix entry st = (inr path, st1) ->
  path = join out_dir ("V_" +:+ entry.1 +:+ suffix +:+ ".npy") /\
  holds_array st1.2 path /\
  holds_array st1.2 (join out_dir ("s_" +:+ entry.1 +:+ suffix +:+ ".npy")) /\
  forall p, holds_array st.2 p -> holds_array st1.2 p.
Proof.
  intros [a HV]. unfold save_basis, on_basis. run. rewrite to_file_eq, HV.
  destruct (SVDBasis.s entry.2) as [sv|]; [|discriminate].
  unfold np_save. run. intros [= <- <-]. cbn [fst snd fs].
  split; [reflexivity|]. unfold holds_array. cbn [fs].
  rewrite !basis_path_npy. split; [|split].
  - destruct (decide (join out_dir ("s_" +:+ entry.1 +:+ suffix +:+ ".npy") =
                      join out_dir ("V_" +:+ entry.1 +:+ suffix +:+ ".npy"))) as [->|Hne].
    + rewrite lookup_insert_eq. eauto.
    + rewrite lookup_insert_ne, lookup_insert_eq by assumption. eauto.
  - rewrite lookup_insert_eq. eauto.
  - intros p [x Hx].
    destruct (decide (join out_dir ("s_" +:+ entry.1 +:+ suffix +:+ ".npy") = p)) as [->|Hs];
      [rewrite lookup_insert_eq; eauto|rewrite lookup_insert_ne by assumption].
    destruct (decide (join out_dir ("V_" +:+ entry.1 +:+ suffix +:+ ".npy") = p)) as [->|Hv];
      [rewrite lookup_insert_eq; eauto|rewrite lookup_insert_ne by assumption]. eauto.
Qed.

Lemma save_rb_writes out_dir suffix basis_dict : forall (st : WaveformDataset.St) V_paths st',
  Forall (fun entry => is_Some (SVDBasis.V entry.2) /\ is_Some (SVDBasis.s entry.2))
         basis_dict ->
  mapM (save_basis out_dir suffix) basis_dict st = (inr V_paths, st') ->
  Forall (holds_array st'.2) V_paths /\
  Forall (fun ifo => holds_array st'.2 (join out_dir ("s_" +:+ ifo +:+ suffix +:+ ".npy")))
         (keys basis_dict) /\
  forall p, holds_array st.2 p -> holds_array st'.2 p.
Proof.
  induction basis_dict as [|entry l IH]; intros st V_paths st' Hall.
  - intros [= <- <-]. repeat split; [constructor|constructor|auto].
  - apply Forall_cons in Hall as [[HV _] Hall]. cbn [mapM]. run.
    destruct (save_basis out_dir suffix entry st) as [[e|path] st1] eqn:Hstep; [discriminate|].
    destruct (mapM (save_basis out_dir suffix) l st1) as [[e|paths] st2] eqn:Hrest;
      [discriminate|].
    intros [= <- <-].
    destruct (save_basis_writes _ _ _ _ _ _ HV Hstep) as (_ & Hpath & Hs & Hkeep).
    destruct (IH st1 paths st2 Hall Hrest) as (Hpaths & Hss & Hkeep2).
    split; [constructor; auto|]. split; [constructor; auto|]. auto.
Qed.

(** X1. The builder puts the original transform back only when it returns.
    Whenever it raises (a sample that cannot be read, an array that cannot
    be stacked or assigned, a decomposition that fails, a basis without
    singular values), the dataset is left with [transforms_rb] as its
    transform; nothing else of the object is ever changed. *)
Theorem builder_restores_transform_only_on_return
  transforms_rb N batch_size num_workers n_rb out_dir suffix o w :
  let outcome := generate_and_save_reduced_basis transforms_rb N batch_size num_workers
                   n_rb out_dir suffix (o, w) in
  outcome.2.1 = match outcome.1 with
                | inr _ => o
                | inl _ => with_transform o transforms_rb
                end.
Proof.
  intros outcome. subst outcome.
  destruct (generate_and_save_reduced_basis _ _ _ _ _ _ _ _) as [r st'] eqn:Hrun.
  apply builder_anatomy in Hrun as [(e & -> & ->)|(p & strain & rb & _ & _ & Hfin)];
    [reflexivity|].
  cbn [fst snd]. destruct r as [e|V_paths].
  - now apply finish_raises in Hfin.
  - apply finish_restores in Hfin. rewrite Hfin. apply with_transform_original.
Qed.

(** X2. Without an output directory the builder leaves the file system as
    it was, whatever happens, and the list of paths it returns is empty. *)
Theorem builder_without_out_dir_writes_nothing
  transforms_rb N batch_size num_workers n_rb suffix o w :
  let outcome := generate_and_save_reduced_basis transforms_rb N batch_size num_workers
                   n_rb None suffix (o, w) in
  fs outcome.2.2 = fs w /\
  match outcome.1 with
  | inr V_paths => V_paths = []
  | inl _ => True
  end.
Proof.
  intros outcome. subst outcome.
  destruct (generate_and_save_reduced_basis _ _ _ _ _ _ _ _) as [r st'] eqn:Hrun.
  apply builder_anatomy in Hrun as [(e & -> & ->)|(p & strain & rb & _ & _ & Hfin)];
    [split; [reflexivity|exact I]|].
  apply finish_without_out_dir in Hfin as [Hfs Hnil]. cbn [fst snd] in *.
  split; [exact Hfs|]. destruct r as [e|V_paths]; [exact I|]. now apply Hnil.
Qed.

(** X3. With an output directory, a run that returns has written, for each
    channel of the first sample's strain dictionary, the basis matrix to
    [out_dir/V_<ifo><suffix>.npy] and the singular values to
    [out_dir/s_<ifo><suffix>.npy]; the list returned is the list of the
    former, in the order of the channels, and each of them is an array file
    when the function returns. *)
Theorem builder_returns_written_paths
  transforms_rb N batch_size num_workers n_rb out_dir suffix o w V_paths st' :
  generate_and_save_reduced_basis transforms_rb N batch_size num_workers n_rb
                                  (Some out_dir) suffix (o, w) = (inr V_paths, st') ->
  exists p strain,
    WaveformDataset.__getitem__ 0 (with_transform o transforms_rb, w) =
    (inr (WaveformDataset.Tuple p strain), (with_transform o transforms_rb, w)) /\
    V_paths = (fun ifo => join out_dir ("V_" +:+ ifo +:+ suffix +:+ ".npy")) <$> keys strain /\
    Forall (holds_array st'.2) V_paths /\
    Forall (fun ifo => holds_array st'.2 (join out_dir ("s_" +:+ ifo +:+ suffix +:+ ".npy")))
           (keys strain).
Proof.
  intros Hrun.
  apply builder_anatomy in Hrun as [(e & [=] & _)|(p & strain & rb & Hget & Hkeys & Hfin)].
  exists p, strain. split; [exact Hget|].
  apply finish_returns in Hfin as (basis_dict & st1 & st2 & Hgen & Hsave & Hw).
  pose proof (generate_rb_keys _ _ _ _ _ Hgen) as Hk.
  pose proof (save_rb_paths _ _ _ _ _ _ Hsave) as Hpaths.
  pose proof (generate_rb_populated _ _ _ _ _ Hgen) as Hpop.
  destruct (save_rb_writes _ _ _ _ _ _ Hpop Hsave) as (Hv & Hs & _).
  rewrite Hw, <- Hkeys, <- Hk. auto.
Qed.

End BuilderOutcome.

(** ** The builder on a dataset of fewer than [N] samples *)

Section WholeSource.
Context `{Sc : Scalars} `{!LinAlg} `{!Collaborators}.

Variables (st : WaveformDataset.St) (L b M_ : nat) (ifos : list string)
          (source : list (dict (vector scalar))).
Hypotheses (Hb : 0 < b) (HL : 1 <= L)
           (Hsrc : source_upto st L = Some source)
           (Huni : uniform_source ifos M_ source).

Lemma consumed_all : consumed L b L = L.
Proof. pose proof (consumed_ge L b L Hb (le_n _) HL). unfold consumed in *. lia. Qed.

Lemma whole_source : source_upto st (consumed L b L) = Some source.
Proof. now rewrite consumed_all. Qed.

Lemma rows_of_source k : length (channel_rows k source) = L.
Proof. rewrite (channel_rows_length st L b L source whole_source). apply consumed_all. Qed.

Lemma fetch_any_batch idx :
  idx * b < L ->
  mapM (fun i => WaveformDataset.__getitem__ (Z.of_nat i)) (batch_indices L b idx) st =
  (inr (item_of st <$> batch_indices L b idx), st).
Proof.
  intros Hidx. apply (fetch_batch st L b L source Hb (le_n _) HL whole_source). now right.
Qed.

Lemma collate_any_batch idx :
  idx * b < L ->
  collate_strain (item_of st <$> batch_indices L b idx) st =
  (inr ((fun k => (k, stacked st L b idx M_ source k)) <$> ifos), st).
Proof.
  intros Hidx.
  apply (collate_batch st L b L M_ ifos source Hb (le_n _) HL whole_source Huni). now right.
Qed.

End WholeSource.

Section ShortSource.
Context `{Sc : Scalars} `{!LinAlg} `{!Collaborators}.

Variables (st : WaveformDataset.St) (L b N M_ : nat) (ifos : list string)
          (source : list (dict (vector scalar))).
Hypotheses (Hb : 0 < b) (HL : 1 <= L) (HN : L < N)
           (Hsrc : source_upto st L = Some source)
           (Huni : uniform_source ifos M_ source).

(** The assignment of the first [n] rows of batch [idx] when the batch has
    that many. *)
Lemma fill_slots idx n :
  idx * b < L -> idx * b + n <= N -> n <= Nat.min b (L - idx * b) ->
  mapM (fun kb : string * matrix scalar =>
          src ← getitem ((fun k => (k, stacked st L b idx M_ source k)) <$> ifos) kb.1;
          buf ← assign_slice kb.2 (Z.of_nat (idx * b)) (Z.of_nat n)
                             (take_rows (Z.of_nat n) src);
          ret (kb.1, buf))
       (buffers_after ifos N M_ (idx * b) source) st =
  (inr (buffers_after ifos N M_ (idx * b + n) source), st).
Proof.
  intros Hidx Hfit Hn. set (lower := idx * b) in *.
  erewrite (mapM_ok _ (fun kb => (kb.1, Matrix complex128 N M_
       ((map (cast complex128) <$> take (lower + n) (channel_rows kb.1 source))
          ++ drop (lower + n) (stale_rows kb.1 N M_))))).
  - f_equal. f_equal. unfold buffers_after. rewrite <- list_fmap_compose.
    reflexivity.
  - intros [k buf] Hkb. unfold buffers_after in Hkb.
    apply list_elem_of_fmap in Hkb as (k' & [= -> ->] & Hk). cbn [fst snd].
    unfold getitem. rewrite (dict_get_tagged _ _ _ Hk).
    erewrite bind_ok by reflexivity.
    erewrite bind_ok; cycle 1.
    { apply (assign_rows st L b L Hb (le_n _) HL); cbn [nrows ncols take_rows stacked].
      - lia.
      - rewrite slice_stop_nonneg by lia. fold lower. lia.
      - reflexivity. }
    cbn [m_dtype nrows ncols rows take_rows stacked]. fold lower.
    run. f_equal. f_equal. f_equal.
    rewrite slice_stop_nonneg by lia.
    replace (Nat.min (Z.to_nat (Z.of_nat n)) (Nat.min b (L - lower))) with n by lia.
    rewrite take_take. replace (Nat.min n (Nat.min b (L - lower))) with n by lia.
    rewrite take_app_length'; cycle 1.
    { rewrite length_fmap, length_take, (rows_of_source st L b source Hb HL Hsrc). lia. }
    rewrite drop_app_ge; cycle 1.
    { rewrite length_fmap, length_take, (rows_of_source st L b source Hb HL Hsrc). lia. }
    rewrite length_fmap, length_take, (rows_of_source st L b source Hb HL Hsrc).
    replace (lower + n - Nat.min lower L) with n by lia.
    rewrite drop_drop.
    rewrite app_assoc. f_equal.
    rewrite <- fmap_app. now rewrite take_take_drop.
Qed.

(** The loop goes through [j] whole batches without meeting row [N - 1]. *)
Lemma collect_full_batches j : forall idx fuel,
  (idx + j) * b <= L ->
  collect (j + fuel) idx L (Z.of_nat b) (Z.of_nat N)
          (buffers_after ifos N M_ (idx * b) source) st =
  collect fuel (idx + j) L (Z.of_nat b) (Z.of_nat N)
          (buffers_after ifos N M_ ((idx + j) * b) source) st.
Proof.
  induction j as [|j IH]; intros idx fuel Hj.
  - now rewrite Nat.add_0_r.
  - assert (idx * b + b <= L) as Hfull by nia.
    cbn [Nat.add collect]. rewrite Nat2Z.id.
    erewrite bind_ok by (apply (fetch_any_batch st L b source Hb HL Hsrc); lia).
    erewrite bind_ok by (apply (collate_any_batch st L b M_ ifos source Hb HL Hsrc Huni); lia).
    cbv zeta.
    replace (Z.of_nat idx * Z.of_nat b)%Z with (Z.of_nat (idx * b)) by lia.
    replace (Z.min (Z.of_nat b) (Z.of_nat N - Z.of_nat (idx * b))) with (Z.of_nat b) by lia.
    erewrite bind_ok by (apply fill_slots; lia).
    assert ((Z.of_nat (idx * b) + Z.of_nat b =? Z.of_nat N)%Z = false) as ->
      by (apply Z.eqb_neq; lia).
    replace (idx * b + b) with (S idx * b) by (cbn [Nat.mul]; lia).
    rewrite (IH (S idx) fuel) by (cbn [Nat.add Nat.mul] in *; lia).
    now replace (S idx + j) with (idx + S j) by lia.
Qed.

Lemma assign_short (buf : matrix scalar) (lower n : nat) (src : matrix scalar) :
  lower + n <= nrows buf ->
  nrows src <> n -> nrows src <> 1 ->
  assign_slice buf (Z.of_nat lower) (Z.of_nat n) src st =
  (inl (ValueError "could not broadcast input array"), st).
Proof.
  intros Hfit Hr H1. unfold assign_slice, slice_bound, broadcast_rows.
  assert ((Z.of_nat lower <? 0)%Z = false) as -> by lia.
  assert ((Z.of_nat lower + Z.of_nat n <? 0)%Z = false) as -> by lia.
  replace (Nat.min (Z.to_nat (Z.of_nat lower)) (nrows buf)) with lower by lia.
  replace (Nat.min (Z.to_nat (Z.of_nat lower + Z.of_nat n)) (nrows buf) - lower)
    with n by lia.
  destruct (decide (ncols src = ncols buf)); [|destruct (decide (ncols src = 1))];
    cbn; rewrite ?decide_False by assumption; reflexivity.
Qed.

(** The last batch has [r] samples, with [2 <= r < b], and the loop asks
    for more rows than that. *)
Lemma collect_short_batch q r fuel :
  L = q * b + r -> 2 <= r -> r < b -> ifos <> [] ->
  collect (S fuel) q L (Z.of_nat b) (Z.of_nat N)
          (buffers_after ifos N M_ (q * b) source) st =
  (inl (ValueError "could not broadcast input array"), st).
Proof.
  intros HLr Hr2 Hrb Hifos.
  cbn [collect]. rewrite Nat2Z.id.
  erewrite bind_ok by (apply (fetch_any_batch st L b source Hb HL Hsrc); lia).
  erewrite bind_ok by (apply (collate_any_batch st L b M_ ifos source Hb HL Hsrc Huni); lia).
  cbv zeta.
  replace (Z.of_nat q * Z.of_nat b)%Z with (Z.of_nat (q * b)) by lia.
  replace (Z.min (Z.of_nat b) (Z.of_nat N - Z.of_nat (q * b)))
    with (Z.of_nat (Nat.min b (N - q * b))) by lia.
  assert (exists k0 rest, ifos = k0 :: rest) as (k0 & rest & Eifos)
    by (destruct ifos; [congruence|eauto]).
  assert (k0 ∈ ifos) as Hk0 by (rewrite Eifos; left).
  set (bufs := buffers_after ifos N M_ (q * b) source).
  assert (exists buf0 others, bufs = (k0, buf0) :: others /\ nrows buf0 = N)
    as (buf0 & others & -> & Hrows).
  { unfold bufs, buffers_after. rewrite Eifos. cbn [fmap list_fmap].
    eexists _, _. split; reflexivity. }
  cbn [mapM fst snd].
  match goal with |- ((?X ≫= ?K1) ≫= ?K2) st = _ =>
    assert (X st = (inl (ValueError "could not broadcast input array"), st)) as Hstep
  end.
  { unfold getitem. rewrite (dict_get_tagged _ _ _ Hk0).
    erewrite bind_ok by reflexivity.
    erewrite bind_run; cycle 1.
    { apply assign_short; cbn [nrows ncols take_rows stacked].
      - lia.
      - rewrite slice_stop_nonneg by lia. lia.
      - rewrite slice_stop_nonneg by lia. lia. }
    reflexivity. }
  erewrite bind_run; cycle 1.
  { erewrite bind_run by exact Hstep. reflexivity. }
  reflexivity.
Qed.

End ShortSource.

Section ShortDataset.
Context `{Sc : Scalars} `{!LinAlg} `{!Collaborators}.

Lemma num_batches_exact q b : 0 < b -> num_batches (q * b) b = q.
Proof.
  intros Hb. unfold num_batches.
  replace (q * b + b - 1) with (b - 1 + q * b) by lia.
  rewrite Nat.div_add by lia. rewrite Nat.div_small by lia. reflexivity.
Qed.

Lemma num_batches_partial q r b : 0 < r -> r < b -> num_batches (q * b + r) b = S q.
Proof.
  intros Hr Hb. unfold num_batches.
  replace (q * b + r + b - 1) with (r - 1 + S q * b) by lia.
  rewrite Nat.div_add by lia. rewrite Nat.div_small by lia. reflexivity.
Qed.

(** Up to the loop: the function swaps the transform, reads the first
    sample twice for the channels and the length of the vectors, allocates
    the buffers and asks the dataset for its length. *)
Lemma builder_prologue o w transforms_rb (N b L M_ : nat) num_workers n_rb out_dir suffix
  ifos source :
  let st_rb : WaveformDataset.St := (with_transform o transforms_rb, w) in
  0 < b -> 1 <= L -> (0 <= num_workers)%Z ->
  WaveformDataset.__len__ st_rb = (inr L, st_rb) ->
  source_upto st_rb L = Some source ->
  ifos <> [] ->
  uniform_source ifos M_ source ->
  generate_and_save_reduced_basis transforms_rb (Z.of_nat N) (Z.of_nat b) num_workers
                                  n_rb out_dir suffix (o, w) =
  (rb ← collect (num_batches L b) 0 L (Z.of_nat b) (Z.of_nat N)
                (buffers_after ifos N M_ 0 source);
   finish rb n_rb out_dir suffix (WaveformDataset.transform o)) st_rb.
Proof.
  intros st_rb Hb HL Hnw Hlen Hsrc Hifos Huni.
  pose proof (whole_source st_rb L b source Hb HL Hsrc) as Hsrc'.
  pose proof (source_length st_rb L b L source Hsrc') as Hslen.
  rewrite (consumed_all L b Hb HL) in Hslen.
  destruct (lookup_lt_is_Some_2 source 0 ltac:(lia)) as [d0 Hd0].
  destruct (sample_at st_rb L b L source Hsrc' 0 d0 Hd0) as [p0 Hp0].
  pose proof (source_keys M_ ifos source Huni 0 d0 Hd0) as Hkeys.
  destruct ifos as [|ifo0 rest] eqn:Eifos; [congruence|]. rewrite <- Eifos in *.
  destruct (source_vector M_ ifos source Huni 0 d0 ifo0 Hd0) as (v & Hv & Hvlen).
  { rewrite Eifos. left. }
  unfold generate_and_save_reduced_basis.
  erewrite bind_ok by reflexivity.
  erewrite bind_ok by reflexivity.
  change (WaveformDataset.__getitem__ 0) with (WaveformDataset.__getitem__ (Z.of_nat 0)).
  fold st_rb.
  erewrite bind_ok by exact Hp0. erewrite bind_ok by reflexivity.
  erewrite bind_ok by exact Hp0. erewrite bind_ok by reflexivity.
  rewrite Hkeys. rewrite Eifos at 1.
  erewrite bind_ok by reflexivity.
  unfold getitem at 1. rewrite Hv. erewrite bind_ok by reflexivity.
  rewrite Hvlen.
  erewrite bind_ok; cycle 1.
  { apply (mapM_ok _ (fun k => (k, Matrix complex128 N M_ (stale_rows k N M_)))).
    intros k _. unfold np_empty.
    assert ((Z.of_nat N <? 0)%Z = false) as -> by (apply Z.ltb_ge; lia).
    rewrite Nat2Z.id. reflexivity. }
  assert ((Z.of_nat b <=? 0)%Z = false) as -> by (apply Z.leb_gt; lia).
  assert ((num_workers <? 0)%Z = false) as -> by (apply Z.ltb_ge; lia).
  erewrite bind_ok by reflexivity. erewrite bind_ok by reflexivity.
  erewrite bind_ok by exact Hlen.
  rewrite Nat2Z.id.
  reflexivity.
Qed.

(** The rows of a buffer that the loop has not reached. *)
Lemma buffers_after_rows ifos N M_ filled source k :
  k ∈ ifos -> filled <= N -> length (channel_rows k source) = filled ->
  exists m,
    dict_get (buffers_after ifos N M_ filled source) k = Some m /\
    m_dtype m = complex128 /\ nrows m = N /\ ncols m = M_ /\
    take filled (rows m) = map (cast complex128) <$> channel_rows k source /\
    drop filled (rows m) = drop filled (stale_rows k N M_) /\
    length (drop filled (rows m)) = N - filled.
Proof.
  intros Hk Hfit Hlen. unfold buffers_after. rewrite (dict_get_tagged _ _ _ Hk).
  eexists. split; [reflexivity|]. cbn [m_dtype nrows ncols rows].
  assert (length (map (cast complex128) <$> take filled (channel_rows k source)) = filled)
    as Hl by (rewrite length_fmap, length_take; lia).
  repeat split.
  - rewrite take_app_length' by (symmetry; exact Hl). now rewrite take_ge by lia.
  - now rewrite drop_app_length' by (symmetry; exact Hl).
  - rewrite drop_app_length' by (symmetry; exact Hl).
    rewrite length_drop, stale_rows_length. reflexivity.
Qed.

(** X4. A dataset of [L = q * batch_size] samples with [L < N]: the loader
    runs out after [q] whole batches, the test [lower + n == N] never holds,
    and the loop ends without an exception. The decompositions are then
    computed on buffers of [N] rows of which only the first [L] were
    assigned: the last [N - L] rows of each channel are what [np.empty] left
    there. Nothing compares [N] with the length of the dataset. *)
Theorem builder_short_dataset_keeps_stale_rows o w transforms_rb (N b L M_ q : nat)
  num_workers n_rb out_dir suffix ifos source :
  let st_rb : WaveformDataset.St := (with_transform o transforms_rb, w) in
  0 < b -> 1 <= q -> L = q * b -> L < N -> (0 <= num_workers)%Z ->
  WaveformDataset.__len__ st_rb = (inr L, st_rb) ->
  source_upto st_rb L = Some source ->
  ifos <> [] ->
  uniform_source ifos M_ source ->
  collect (num_batches L b) 0 L (Z.of_nat b) (Z.of_nat N)
          (buffers_after ifos N M_ 0 source) st_rb =
    (inr (buffers_after ifos N M_ L source), st_rb) /\
  generate_and_save_reduced_basis transforms_rb (Z.of_nat N) (Z.of_nat b) num_workers
                                  n_rb out_dir suffix (o, w) =
    finish (buffers_after ifos N M_ L source) n_rb out_dir suffix
           (WaveformDataset.transform o) st_rb /\
  forall k, k ∈ ifos ->
    exists m,
      dict_get (buffers_after ifos N M_ L source) k = Some m /\
      m_dtype m = complex128 /\ nrows m = N /\ ncols m = M_ /\
      take L (rows m) = map (cast complex128) <$> channel_rows k source /\
      drop L (rows m) = drop L (stale_rows k N M_) /\
      length (drop L (rows m)) = N - L.
Proof.
  intros st_rb Hb Hq HLq HN Hnw Hlen Hsrc Hifos Huni.
  assert (1 <= L) as HL by nia.
  assert (collect (num_batches L b) 0 L (Z.of_nat b) (Z.of_nat N)
            (buffers_after ifos N M_ 0 source) st_rb =
          (inr (buffers_after ifos N M_ L source), st_rb)) as Hcollect.
  { rewrite HLq at 1. rewrite num_batches_exact by assumption.
    pose proof (collect_full_batches st_rb L b N M_ ifos source Hb HL HN Hsrc Huni q 0 0)
      as Hloop.
    rewrite Nat.add_0_r in Hloop. cbn [Nat.add Nat.mul] in Hloop.
    rewrite Hloop by lia. rewrite <- HLq. reflexivity. }
  split; [exact Hcollect|]. split.
  - rewrite (builder_prologue o w transforms_rb N b L M_ num_workers n_rb out_dir suffix
               ifos source) by assumption.
    fold st_rb. erewrite bind_ok by exact Hcollect. reflexivity.
  - intros k Hk. apply buffers_after_rows; [assumption|lia|].
    apply (rows_of_source st_rb L b source Hb HL Hsrc).
Qed.

(** X5. A dataset of [L = q * batch_size + r] samples with
    [2 <= r < batch_size] and [L < N]: the last batch has [r] rows, the loop
    asks for [min(batch_size, N - lower) > r] of them, and the assignment of
    [r] rows to more slots raises [ValueError]. The exception leaves the
    function before the original transform is put back: the dataset keeps
    [transforms_rb]. *)
Theorem builder_partial_last_batch_raises o w transforms_rb (N b L M_ q r : nat)
  num_workers n_rb out_dir suffix ifos source :
  let st_rb : WaveformDataset.St := (with_transform o transforms_rb, w) in
  L = q * b + r -> 2 <= r -> r < b -> L < N -> (0 <= num_workers)%Z ->
  WaveformDataset.__len__ st_rb = (inr L, st_rb) ->
  source_upto st_rb L = Some source ->
  ifos <> [] ->
  uniform_source ifos M_ source ->
  exists msg,
    generate_and_save_reduced_basis transforms_rb (Z.of_nat N) (Z.of_nat b) num_workers
                                    n_rb out_dir suffix (o, w) =
    (inl (ValueError msg), st_rb).
Proof.
  intros st_rb HLr Hr Hrb HN Hnw Hlen Hsrc Hifos Huni.
  assert (0 < b) as Hb by lia. assert (1 <= L) as HL by lia.
  exists "could not broadcast input array".
  rewrite (builder_prologue o w transforms_rb N b L M_ num_workers n_rb out_dir suffix
             ifos source) by assumption.
  fold st_rb. erewrite bind_run; cycle 1.
  { rewrite HLr at 1. rewrite num_batches_partial by lia.
    pose proof (collect_full_batches st_rb L b N M_ ifos source Hb HL HN Hsrc Huni q 0 1)
      as Hloop.
    replace (q + 1) with (S q) in Hloop by lia. cbn [Nat.add Nat.mul] in Hloop.
    rewrite Hloop by lia.
    apply (collect_short_batch st_rb L b N M_ ifos source Hb HL HN Hsrc Huni q r 0);
      assumption. }
  reflexivity.
Qed.

End ShortDataset.

(** ** WaveformDataset: what [load] leaves, and the readers *)

Section WaveformDatasetState.
Context `{Collaborators}.
Implicit Types (o : WaveformDataset.t) (w : World) (fp : h5file).

Lemma dtype_of_astype dt (a : ndarray scalar) : dtype_of (astype dt a) = dt.
Proof. destruct a; reflexivity. Qed.

Lemma dtype_of_np_array (x : option (ndarray scalar)) dt : dtype_of (np_array x dt) = dt.
Proof. destruct x as [a|]; [apply dtype_of_astype|reflexivity]. Qed.

Lemma dict_get_keys {A} (d : dict A) k v : dict_get d k = Some v -> k ∈ keys d.
Proof.
  intros Hd. apply dict_get_in in Hd. unfold keys.
  apply list_elem_of_fmap. now exists (k, v).
Qed.

Lemma load_leaves_one_dtype_aux filename o w o' w' :
  WaveformDataset.load filename (o, w) = (inr tt, (o', w')) ->
  is_Some (WaveformDataset._parameter_samples o') /\ is_Some (WaveformDataset._hc o').
Proof.
  intros Hrun. unfold_wfd. run.
  case_run Hrun; injection Hrun as <- <-; cbn; split; eauto.
Qed.

(** X6. Every [load] that returns leaves the file system and the record of
    library calls untouched, keeps [transform] and [single_precision],
    resets [is_truncated] to [False], and leaves [_hc], [_hp] and [_Vh] as
    arrays of one dtype: complex64 when [single_precision] is set,
    complex128 otherwise. *)
Theorem load_leaves_one_dtype filename o w o' w' :
  WaveformDataset.load filename (o, w) = (inr tt, (o', w')) ->
  w' = w /\
  WaveformDataset.transform o' = WaveformDataset.transform o /\
  WaveformDataset.single_precision o' = WaveformDataset.single_precision o /\
  WaveformDataset.is_truncated o' = Some false /\
  is_Some (WaveformDataset._parameter_samples o') /\
  is_Some (WaveformDataset.domain o') /\
  exists hc hp Vh,
    WaveformDataset._hc o' = Some hc /\
    WaveformDataset._hp o' = Some hp /\
    WaveformDataset._Vh o' = Some Vh /\
    dtype_of hc = precision (WaveformDataset.single_precision o) /\
    dtype_of hp = precision (WaveformDataset.single_precision o) /\
    dtype_of Vh = precision (WaveformDataset.single_precision o).
Proof.
  intros Hrun. unfold_wfd. run.
  case_run Hrun; injection Hrun as <- <-; cbn;
    (split; [reflexivity|]); (split; [reflexivity|]); (split; [reflexivity|]);
    (split; [reflexivity|]); (split; [eauto|]); (split; [eauto|]);
    eexists _, _, _; (split; [reflexivity|]); (split; [reflexivity|]);
    (split; [reflexivity|]); unfold precision;
    rewrite ?dtype_of_np_array, ?dtype_of_astype; repeat split; reflexivity.
Qed.


(** X7. Where [_Vh] comes from. With a [rb_matrix_V] in the file it is the
    conjugate transpose of that matrix, in the dataset's precision. Without
    one, [load] assigns nothing to [_Vh] before the final conversion, so a
    second [load] on the same object keeps the matrix of the previous file
    (converted again), as it was left by a truncation if there was one,
    while [is_truncated] is reset to [False]. *)
Theorem load_keeps_previous_Vh filename o w fp o' w' :
  fs w !! filename = Some (Hdf5File fp) ->
  WaveformDataset.load filename (o, w) = (inr tt, (o', w')) ->
  let p := precision (WaveformDataset.single_precision o) in
  ("rb_matrix_V" ∉ keys (h5_members fp) ->
     WaveformDataset._Vh o' = Some (np_array (WaveformDataset._Vh o) p) /\
     WaveformDataset.is_truncated o' = Some false) /\
  (forall V, dict_get (h5_members fp) "rb_matrix_V" = Some (H5Dataset V) ->
     WaveformDataset._Vh o' = Some (astype p (T_conj V))).
Proof.
  intros Hfile Hrun p. subst p. unfold_wfd. run. rewrite Hfile in Hrun. split.
  - intros Hrb. rewrite bool_decide_false in Hrun by assumption.
    case_run Hrun; injection Hrun as <- <-; split; reflexivity.
  - intros V HV. rewrite bool_decide_true in Hrun by (eapply dict_get_keys, HV).
    rewrite HV in Hrun.
    case_run Hrun; injection Hrun as <- <-; reflexivity.
Qed.

(** X8. A [load] that fails is not undone. When the key list of the
    polarization group is rejected, the parameter table of the new file has
    already replaced the old one, while the polarizations, the compression
    matrix, the domain and the flag are those of before: [len] of the
    dataset then counts the rows of the new table. *)
Theorem load_rejection_keeps_new_parameters filename o w fp columns records grp :
  fs w !! filename = Some (Hdf5File fp) ->
  dict_get (h5_members fp) "parameters" = Some (H5Table columns records) ->
  dict_get (h5_members fp) "waveform_polarizations" = Some (H5Group grp) ->
  keys grp <> ["h_cross"; "h_plus"] ->
  exists o',
    WaveformDataset.load filename (o, w) = (inl (AssertionError ""), (o', w)) /\
    WaveformDataset._parameter_samples o' =
      Some (WaveformDataset.mkDataFrame columns records) /\
    WaveformDataset._hc o' = WaveformDataset._hc o /\
    WaveformDataset._hp o' = WaveformDataset._hp o /\
    WaveformDataset._Vh o' = WaveformDataset._Vh o /\
    WaveformDataset.domain o' = WaveformDataset.domain o /\
    WaveformDataset.is_truncated o' = WaveformDataset.is_truncated o /\
    WaveformDataset.__len__ (o', w) = (inr (length records), (o', w)).
Proof.
  intros Hfile Hpar Hgrp Hkeys. unfold_wfd. run.
  rewrite Hfile. cbn. rewrite Hpar. cbn. rewrite Hgrp. cbn.
  rewrite bool_decide_false by assumption. cbn.
  eexists. split; [reflexivity|]. cbn. repeat split.
Qed.

(** X9. [len(dataset)] after a [load] that returns is the number of rows
    of the parameter table of the file, whatever the polarization arrays
    hold. *)
Theorem len_counts_parameter_rows filename o w fp columns records o' w' :
  fs w !! filename = Some (Hdf5File fp) ->
  dict_get (h5_members fp) "parameters" = Some (H5Table columns records) ->
  WaveformDataset.load filename (o, w) = (inr tt, (o', w')) ->
  WaveformDataset.__len__ (o', w') = (inr (length records), (o', w')).
Proof.
  intros Hfile Hpar Hrun. unfold_wfd. run. rewrite Hfile in Hrun. cbn in Hrun.
  rewrite Hpar in Hrun.
  case_run Hrun; injection Hrun as <- <-; reflexivity.
Qed.

(** X10. [get_info] never returns. On an object that has its parameter
    table and its polarizations (so after every [load] that returns) it
    raises [AttributeError] at [self._hc.info]: the attribute holds a numpy
    array, not a table. It changes nothing. *)
Theorem get_info_raises (st : WaveformDataset.St) :
  (exists name, WaveformDataset.get_info st = (inl (AttributeError name), st)) /\
  (is_Some (WaveformDataset._parameter_samples st.1) ->
   is_Some (WaveformDataset._hc st.1) ->
   WaveformDataset.get_info st = (inl (AttributeError "info"), st)) /\
  (forall filename st0,
     WaveformDataset.load filename st0 = (inr tt, st) ->
     WaveformDataset.get_info st = (inl (AttributeError "info"), st)).
Proof.
  assert (is_Some (WaveformDataset._parameter_samples st.1) ->
          is_Some (WaveformDataset._hc st.1) ->
          WaveformDataset.get_info st = (inl (AttributeError "info"), st)) as Hloaded.
  { intros [ps Hps] [hc Hhc]. destruct st as [o w].
    unfold WaveformDataset.get_info, WaveformDataset.ndarray_info. unfold_wfd. run.
    cbn in Hps, Hhc. rewrite Hps. cbn. rewrite Hhc. reflexivity. }
  split; [|split; [exact Hloaded|]].
  - destruct st as [o w].
    unfold WaveformDataset.get_info, WaveformDataset.ndarray_info. unfold_wfd. run.
    destruct (WaveformDataset._parameter_samples o); [|eauto]. cbn.
    destruct (WaveformDataset._hc o); cbn; eauto.
  - intros filename [o0 w0] Hrun. destruct st as [o w].
    destruct (load_leaves_one_dtype_aux filename o0 w0 o w Hrun) as (Hps & Hhc).
    now apply Hloaded.
Qed.

End WaveformDatasetState.

(** ** WaveformDataset: truncation and indexing *)

Section WaveformDatasetTruncation.
Context `{Collaborators}.
Implicit Types (o : WaveformDataset.t) (w : World).

Lemma truncate_already o w again :
  WaveformDataset.is_truncated o = Some true ->
  WaveformDataset.truncate_dataset_domain again (o, w) =
  (inl (ValueError "Dataset is already truncated"), (o, w)).
Proof. intros Htr. unfold_wfd. run. now rewrite Htr. Qed.

Lemma truncate_returns new_range o w o' w' :
  WaveformDataset.truncate_dataset_domain new_range (o, w) = (inr tt, (o', w')) ->
  w' = w /\
  WaveformDataset.is_truncated o = Some false /\
  WaveformDataset.is_truncated o' = Some true /\
  exists Vh dom dom' Vh',
    WaveformDataset._Vh o = Some Vh /\
    WaveformDataset.domain o = Some dom /\
    WaveformDataset.domain o' = Some dom' /\
    py_index (shape Vh) (-1) = Some (domain_len dom) /\
    (new_range = None -> dom' = dom) /\
    truncate_data dom' Vh (bool_decide (new_range <> None)) = inr Vh' /\
    WaveformDataset._Vh o' = Some Vh'.
Proof.
  unfold_wfd. run. intros Hrun.
  destruct new_range as [[low high]|];
    case_run Hrun;
    repeat match goal with
           | E : bool_decide _ = true |- _ => apply bool_decide_eq_true in E
           end;
    simplify_eq;
    (split; [reflexivity|]); (split; [reflexivity|]); (split; [reflexivity|]);
    eexists _, _, _, _; cbn;
    repeat split; try eassumption; try reflexivity; try discriminate;
    match goal with
    | E : (_ <? _)%Z = false |- _ => unfold py_index; cbn; rewrite E; assumption
    end.
Qed.

(** X11. A truncation that returns: the dataset was not truncated and had
    a compression matrix whose last dimension is the length the domain had
    when the call began; the matrix is now what [truncate_data] of the
    domain as it is after the optional [set_new_range] made of it, and
    [is_truncated] is set. Every later call, with or without a range,
    raises [ValueError] and changes nothing: a dataset is truncated at most
    once. *)
Theorem truncate_succeeds_at_most_once new_range o w o' w' :
  WaveformDataset.truncate_dataset_domain new_range (o, w) = (inr tt, (o', w')) ->
  w' = w /\
  WaveformDataset.is_truncated o = Some false /\
  WaveformDataset.is_truncated o' = Some true /\
  (exists Vh dom dom' Vh',
      WaveformDataset._Vh o = Some Vh /\
      WaveformDataset.domain o = Some dom /\
      WaveformDataset.domain o' = Some dom' /\
      py_index (shape Vh) (-1) = Some (domain_len dom) /\
      (new_range = None -> dom' = dom) /\
      truncate_data dom' Vh (bool_decide (new_range <> None)) = inr Vh' /\
      WaveformDataset._Vh o' = Some Vh') /\
  forall again,
    WaveformDataset.truncate_dataset_domain again (o', w') =
    (inl (ValueError "Dataset is already truncated"), (o', w')).
Proof.
  intros Hrun. destruct (truncate_returns _ _ _ _ _ Hrun) as (Hw & Hbefore & Hafter & Hex).
  repeat (split; [assumption|]). intros again. now apply truncate_already.
Qed.

(** X12. A truncation that raises, for whatever reason, leaves the
    compression matrix, the flag, the polarizations, the parameter table,
    the transform and the world as they were. Only the domain can differ,
    and only when a new range was given; without one the whole object is
    unchanged. *)
Theorem truncate_failure_keeps_the_data new_range o w e o' w' :
  WaveformDataset.truncate_dataset_domain new_range (o, w) = (inl e, (o', w')) ->
  w' = w /\
  WaveformDataset._Vh o' = WaveformDataset._Vh o /\
  WaveformDataset.is_truncated o' = WaveformDataset.is_truncated o /\
  WaveformDataset._hc o' = WaveformDataset._hc o /\
  WaveformDataset._hp o' = WaveformDataset._hp o /\
  WaveformDataset._parameter_samples o' = WaveformDataset._parameter_samples o /\
  WaveformDataset.transform o' = WaveformDataset.transform o /\
  (new_range = None -> o' = o).
Proof.
  unfold_wfd. run. intros Hrun.
  destruct new_range as [[low high]|];
    case_run Hrun; simplify_eq; cbn; repeat split; try discriminate;
    try assumption; try (symmetry; assumption).
Qed.

End WaveformDatasetTruncation.

Lemma py_index_negative {A} (l : list A) (k : Z) :
  (1 <= k <= Z.of_nat (length l))%Z ->
  py_index l (- k) = py_index l (Z.of_nat (length l) - k).
Proof.
  intros Hk. unfold py_index.
  assert ((- k <? 0)%Z = true) as -> by (apply Z.ltb_lt; lia).
  assert ((- k + Z.of_nat (length l) <? 0)%Z = false) as -> by (apply Z.ltb_ge; lia).
  assert ((Z.of_nat (length l) - k <? 0)%Z = false) as -> by (apply Z.ltb_ge; lia).
  f_equal. lia.
Qed.

Lemma py_index_out_of_range {A} (l : list A) (idx : Z) :
  (Z.of_nat (length l) <= idx \/ idx < - Z.of_nat (length l))%Z ->
  py_index l idx = None.
Proof.
  intros Hidx. unfold py_index. destruct (idx <? 0)%Z eqn:E.
  - apply Z.ltb_lt in E.
    assert ((idx + Z.of_nat (length l) <? 0)%Z = true) as -> by (apply Z.ltb_lt; lia).
    reflexivity.
  - apply Z.ltb_ge in E. apply lookup_ge_None_2. lia.
Qed.

Section WaveformDatasetIndexing.
Context `{Collaborators}.
Implicit Types (o : WaveformDataset.t) (w : World).

(** X13. Negative indices count from the end: on a dataset whose parameter
    table and two polarization arrays have [n] rows each, [dataset[-k]] is
    [dataset[n - k]] for [1 <= k <= n], in value or in exception. *)
Theorem getitem_negative_index o w ps mc mp (k : Z) (n : nat) :
  WaveformDataset._parameter_samples o = Some ps ->
  WaveformDataset._hc o = Some (Arr2 mc) ->
  WaveformDataset._hp o = Some (Arr2 mp) ->
  length (WaveformDataset.df_records ps) = n ->
  length (rows mc) = n -> length (rows mp) = n ->
  (1 <= k <= Z.of_nat n)%Z ->
  WaveformDataset.__getitem__ (- k) (o, w) =
  WaveformDataset.__getitem__ (Z.of_nat n - k) (o, w).
Proof.
  intros Hps Hhc Hhp Hn Hc Hp Hk.
  unfold WaveformDataset.__getitem__, WaveformDataset.attr, WaveformDataset.self,
    WaveformDataset.iloc_to_dict, index_row.
  run. rewrite Hps. cbn.
  rewrite (py_index_negative (WaveformDataset.df_records ps)) by lia. rewrite Hn.
  destruct (py_index (WaveformDataset.df_records ps) _) as [rec|]; [|reflexivity].
  cbn. rewrite Hhc. cbn.
  rewrite (py_index_negative (rows mc)) by lia. rewrite Hc.
  destruct (py_index (rows mc) _) as [rc|]; [|reflexivity].
  cbn. rewrite Hhp. cbn.
  rewrite (py_index_negative (rows mp)) by lia. rewrite Hp.
  reflexivity.
Qed.

(** X14. An index at or beyond the number of parameter rows, or below its
    negative, raises [IndexError] at the parameter table, before anything
    else is read; nothing is changed. This is the exception by which a
    [for] loop over the dataset ends. *)
Theorem getitem_out_of_range o w ps idx :
  WaveformDataset._parameter_samples o = Some ps ->
  (Z.of_nat (length (WaveformDataset.df_records ps)) <= idx \/
   idx < - Z.of_nat (length (WaveformDataset.df_records ps)))%Z ->
  WaveformDataset.__getitem__ idx (o, w) =
  (inl (IndexError "single positional indexer is out-of-bounds"), (o, w)) /\
  WaveformDataset.__getitem__ (Z.of_nat (length (WaveformDataset.df_records ps))) (o, w) =
  (inl (IndexError "single positional indexer is out-of-bounds"), (o, w)).
Proof.
  intros Hps Hidx.
  assert (forall i,
            (Z.of_nat (length (WaveformDataset.df_records ps)) <= i \/
             i < - Z.of_nat (length (WaveformDataset.df_records ps)))%Z ->
            WaveformDataset.__getitem__ i (o, w) =
            (inl (IndexError "single positional indexer is out-of-bounds"), (o, w))) as Hout.
  { intros i Hi.
    unfold WaveformDataset.__getitem__, WaveformDataset.attr, WaveformDataset.self,
      WaveformDataset.iloc_to_dict.
    run. rewrite Hps. cbn. now rewrite py_index_out_of_range. }
  split; apply Hout; [assumption|lia].
Qed.

Lemma length_rows_transpose (m : matrix scalar) : length (rows (transpose m)) = ncols m.
Proof. cbn. unfold columns_of. now rewrite length_fmap, length_seq. Qed.

(** X15. On a compressed dataset the stored rows are basis coefficients:
    [dataset[idx]] returns, for each polarization, the product of the stored
    row with [_Vh], a vector with one entry for each column of [_Vh] (the
    frequency bins), in the promoted dtype, under the keys [h_cross] and
    [h_plus] in this order; the transform, if any, is applied to that. A
    stored row whose length is not the number of rows of [_Vh] makes the
    product raise [ValueError]. *)
Theorem getitem_decompresses o w ps mc mp Vh idx rec rc rp :
  WaveformDataset._parameter_samples o = Some ps ->
  WaveformDataset._hc o = Some (Arr2 mc) ->
  WaveformDataset._hp o = Some (Arr2 mp) ->
  WaveformDataset._Vh o = Some (Arr2 Vh) ->
  py_index (WaveformDataset.df_records ps) idx = Some rec ->
  py_index (rows mc) idx = Some rc ->
  py_index (rows mp) idx = Some rp ->
  (length rc = nrows Vh -> length rp = nrows Vh ->
   exists hc' hp',
     let data := WaveformDataset.mkData (zip (WaveformDataset.df_columns ps) rec)
                   [("h_cross", Arr1 hc'); ("h_plus", Arr1 hp')] in
     WaveformDataset.__getitem__ idx (o, w) =
     (match WaveformDataset.transform o with
      | Some f => f data
      | None => inr (WaveformDataset.Data data)
      end, (o, w)) /\
     length (elems hc') = ncols Vh /\ length (elems hp') = ncols Vh /\
     v_dtype hc' = result_type (m_dtype mc) (m_dtype Vh) /\
     v_dtype hp' = result_type (m_dtype mp) (m_dtype Vh) /\
     elems hc' = (fun c => dot (cast (v_dtype hc') <$> rc) (cast (v_dtype hc') <$> c))
                   <$> rows (transpose Vh) /\
     elems hp' = (fun c => dot (cast (v_dtype hp') <$> rp) (cast (v_dtype hp') <$> c))
                   <$> rows (transpose Vh)) /\
  (length rp <> nrows Vh \/ length rc <> nrows Vh ->
   exists msg, WaveformDataset.__getitem__ idx (o, w) = (inl (ValueError msg), (o, w))).
Proof.
  intros Hps Hhc Hhp HVh Hrec Hrc Hrp.
  unfold WaveformDataset.__getitem__, WaveformDataset.attr, WaveformDataset.self,
    WaveformDataset.iloc_to_dict, index_row, getitem, matmul.
  run. rewrite Hps. cbn. rewrite Hrec. cbn. rewrite Hhc. cbn. rewrite Hrc. cbn.
  rewrite Hhp. cbn. rewrite Hrp. cbn. rewrite HVh. cbn.
  split.
  - intros Hlc Hlp.
    rewrite (decide_True (P := length rp = nrows Vh)) by assumption. cbn.
    rewrite (decide_True (P := length rc = nrows Vh)) by assumption. cbn.
    eexists (Vector _ _), (Vector _ _). cbn [v_dtype elems].
    split; [destruct (WaveformDataset.transform o); reflexivity|].
    rewrite !length_fmap.
    pose proof (length_rows_transpose Vh) as Hlen. cbn in Hlen. rewrite Hlen.
    repeat split.
  - intros [Hlp|Hlc].
    + rewrite (decide_False (P := length rp = nrows Vh)) by assumption. eexists. reflexivity.
    + destruct (decide (length rp = nrows Vh)); [|eexists; reflexivity]. cbn.
      rewrite (decide_False (P := length rc = nrows Vh)) by assumption.
      eexists. reflexivity.
Qed.

(** X16. The readers do not write: [__getitem__], [__len__] and
    [get_info] leave the dataset object and the world exactly as they were,
    whether they return or raise. *)
Theorem dataset_readers_do_not_write idx :
  readonly (WaveformDataset.__getitem__ idx) /\
  readonly WaveformDataset.__len__ /\
  readonly WaveformDataset.get_info.
Proof.
  split; [intros st; apply getitem_pure|]. split.
  - intros [o w]. unfold WaveformDataset.__len__, WaveformDataset.attr, WaveformDataset.self.
    run. destruct (WaveformDataset._parameter_samples o); reflexivity.
  - intros [o w].
    unfold WaveformDataset.get_info, WaveformDataset.ndarray_info, WaveformDataset.attr,
      WaveformDataset.self.
    run. destruct (WaveformDataset._parameter_samples o); [|reflexivity]. cbn.
    destruct (WaveformDataset._hc o); reflexivity.
Qed.

End WaveformDatasetIndexing.

(** ** SVDBasis: ranks, shapes and files *)

Section SVDBasisShapes.
Context `{LinAlg}.
Variable ge : relation scalar.
Implicit Types (b : SVDBasis.t) (w : World) (td : matrix scalar).

(** X17. [generate_basis] assigns nothing before the decomposition has
    returned: when it raises, with either method or with an unknown one, the
    basis object is what it was, and the file system too. *)
Theorem generate_basis_failure_keeps_the_basis td n method b w e b' w' :
  SVDBasis.generate_basis td n method (b, w) = (inl e, (b', w')) ->
  b' = b /\ fs w' = fs w.
Proof.
  intros Hrun. destruct (method_cases method) as [->|[->|[H1 H2]]].
  - rewrite generate_basis_random in Hrun.
    destruct (randomized_svd _ _) as [e'|[[U sv] Vh]]; [|discriminate].
    injection Hrun as _ <- <-. split; reflexivity.
  - rewrite generate_basis_scipy in Hrun.
    destruct (scipy_linalg_svd td) as [e'|[[U sv] Vh]]; [|discriminate].
    injection Hrun as _ <- <-. split; reflexivity.
  - rewrite generate_basis_other in Hrun by assumption.
    injection Hrun as _ <- <-. split; reflexivity.
Qed.

(** X18. The rank kept by the exact method, for every [n]. The stored [n]
    is the number of rows of the stored [Vh] and of columns of the stored
    [V]. It is [min(S, D)] for [n == 0] and for [n] above the number [D] of
    frequency bins (the test is [n > len(V)], and [V] has [D] rows),
    [min(n, min(S, D))] for [0 < n <= D], and for a negative [n], which is
    not rejected, [min(S, D) + n] (or 0): the slices [[:n]] drop the last
    [-n] basis vectors. *)
Theorem generate_basis_scipy_rank td n b w b' w' :
  scipy_svd_contract ge ->
  SVDBasis.generate_basis td n "scipy" (b, w) = (inr tt, (b', w')) ->
  exists mV mVh k,
    SVDBasis.V b' = Some (Arr2 mV) /\ SVDBasis.Vh b' = Some (Arr2 mVh) /\
    SVDBasis.n b' = Some (Z.of_nat k) /\
    nrows mVh = k /\ ncols mVh = ncols td /\ nrows mV = ncols td /\ ncols mV = k /\
    ((n = 0 \/ Z.of_nat (ncols td) < n)%Z -> k = available_rank td) /\
    ((0 < n <= Z.of_nat (ncols td))%Z -> k = Nat.min (Z.to_nat n) (available_rank td)) /\
    ((n < 0)%Z -> k = Z.to_nat (Z.of_nat (available_rank td) + n)).
Proof.
  intros Hs Hrun. rewrite generate_basis_scipy in Hrun.
  destruct (scipy_linalg_svd td) as [e|[[U sv] Vh]] eqn:Hsvd; [discriminate|].
  injection Hrun as <- _.
  destruct (Hs _ _ _ _ Hsvd) as (Hrows & Hcols & _ & _).
  eexists _, _, _. cbn [SVDBasis.V SVDBasis.Vh SVDBasis.n].
  split; [reflexivity|]. split; [reflexivity|]. split; [reflexivity|].
  unfold scipy_pair. cbn [T_conj_matrix conj_matrix map_matrix transpose nrows ncols].
  rewrite Hcols.
  destruct (n =? 0)%Z eqn:E0; cbn [orb].
  { apply Z.eqb_eq in E0. cbn. rewrite Hrows, Hcols. repeat split; lia. }
  apply Z.eqb_neq in E0.
  destruct (Z.of_nat (ncols td) <? n)%Z eqn:E1.
  { apply Z.ltb_lt in E1. cbn. rewrite Hrows, Hcols. repeat split; lia. }
  apply Z.ltb_ge in E1. cbn. rewrite Hrows, Hcols.
  unfold slice_stop. destruct (n <? 0)%Z eqn:E2;
    [apply Z.ltb_lt in E2|apply Z.ltb_ge in E2]; repeat split; lia.
Qed.

(** X19. The rank kept by the randomized method for a requested rank
    within the available one: for [0 <= n <= min(S, D)] the stored [n] is
    the number of rows of the stored [Vh], which is [n], or [min(S, D)]
    when [n == 0], and [V] has that many columns and a row for each
    frequency bin. *)
Theorem generate_basis_random_rank td n b w b' w' :
  randomized_svd_contract ge ->
  (0 <= n <= Z.of_nat (available_rank td))%Z ->
  SVDBasis.generate_basis td n "random" (b, w) = (inr tt, (b', w')) ->
  exists mV mVh,
    SVDBasis.V b' = Some (Arr2 mV) /\ SVDBasis.Vh b' = Some (Arr2 mVh) /\
    SVDBasis.n b' = Some (Z.of_nat (nrows mVh)) /\
    nrows mVh = (if (n =? 0)%Z then available_rank td else Z.to_nat n) /\
    ncols mVh = ncols td /\ nrows mV = ncols td /\ ncols mV = nrows mVh.
Proof.
  intros Hr Hn Hrun. rewrite generate_basis_random in Hrun.
  destruct (randomized_svd _ _) as [e|[[U sv] Vh]] eqn:Hsvd; [discriminate|].
  injection Hrun as <- _.
  assert (0 <= requested_rank td n)%Z as Hreq
    by (unfold requested_rank; destruct (n =? 0)%Z; lia).
  destruct (Hr _ _ _ _ _ Hreq Hsvd) as (Hrows & Hcols & _ & _).
  eexists _, _. cbn [SVDBasis.V SVDBasis.Vh SVDBasis.n].
  split; [reflexivity|]. split; [reflexivity|].
  cbn [astype_matrix T_conj_matrix conj_matrix map_matrix transpose nrows ncols].
  rewrite Hrows, Hcols. unfold requested_rank.
  destruct (n =? 0)%Z eqn:E0; [apply Z.eqb_eq in E0|apply Z.eqb_neq in E0];
    repeat split; try reflexivity; try lia; f_equal; lia.
Qed.

(** X20. Compression and expansion fit together. On a basis whose [Vh] is
    the conjugate transpose of a two-dimensional [V], a frequency series
    with one entry for each row of [V] is compressed to one coefficient for
    each column of [V], and these coefficients are expanded to a series of
    the original length; neither call changes anything. A series of another
    length is refused with [ValueError]. *)
Theorem compress_then_expand_lengths b w mV (v : vector scalar) :
  conjugate_pair b ->
  SVDBasis.V b = Some (Arr2 mV) ->
  (length (elems v) = nrows mV ->
   exists c f,
     SVDBasis.fseries_to_basis_coefficients (Arr1 v) (b, w) = (inr (Arr1 c), (b, w)) /\
     length (elems c) = ncols mV /\
     SVDBasis.basis_coefficients_to_fseries (Arr1 c) (b, w) = (inr (Arr1 f), (b, w)) /\
     length (elems f) = length (elems v)) /\
  (length (elems v) <> nrows mV ->
   exists msg,
     SVDBasis.fseries_to_basis_coefficients (Arr1 v) (b, w) = (inl (ValueError msg), (b, w))).
Proof.
  intros (v0 & HV0 & HVh & _) HV. rewrite HV in HV0. injection HV0 as <-.
  cbn [ctranspose] in HVh.
  unfold SVDBasis.fseries_to_basis_coefficients, SVDBasis.basis_coefficients_to_fseries,
    SVDBasis.get_V, SVDBasis.get_Vh, matmul.
  run. rewrite HV, HVh. split.
  - intros Hlen. rewrite (decide_True (P := length (elems v) = nrows mV)) by assumption.
    eexists (Vector _ _), (Vector _ _). split; [reflexivity|].
    cbn [elems]. rewrite length_fmap, length_rows_transpose.
    split; [reflexivity|].
    rewrite decide_True by reflexivity.
    split; [reflexivity|].
    cbn [elems]. rewrite length_fmap, length_rows_transpose. now symmetry.
  - intros Hlen. rewrite (decide_False (P := length (elems v) = nrows mV)) by assumption.
    eexists. reflexivity.
Qed.

(** X21. How [from_file] fails and what it never touches. A missing file
    raises [FileNotFoundError] and leaves the basis as it was. A file that
    holds an array of fewer than two dimensions raises [IndexError] at
    [V.shape[1]], after [V] and [Vh] have been replaced: the object then
    carries the new arrays with the old [n]. And a [from_file] that returns
    keeps the singular values [s] of an earlier [generate_basis], which do
    not belong to the matrix loaded. *)
Theorem from_file_failure_modes filename b w :
  (fs w !! filename = None ->
   SVDBasis.from_file filename (b, w) =
   (inl (FileNotFoundError filename), (b, logged w (call_np_load filename)))) /\
  (forall a, fs w !! filename = Some (NpyFile a) -> length (shape a) < 2 ->
     SVDBasis.from_file filename (b, w) =
     (inl (IndexError "tuple index out of range"),
      (SVDBasis.mk (Some a) (Some (T_conj a)) (SVDBasis.n b) (SVDBasis.s b),
       logged w (call_np_load filename)))) /\
  (forall b' w',
     SVDBasis.from_file filename (b, w) = (inr tt, (b', w')) ->
     SVDBasis.s b' = SVDBasis.s b).
Proof.
  rewrite from_file_eq. cbn zeta. split; [|split].
  - now intros ->.
  - intros a -> Hdim. destruct a as [dt x|v|m]; [reflexivity|reflexivity|].
    cbn in Hdim. lia.
  - intros b' w'. destruct (fs w !! filename) as [[a|h]|]; [|discriminate..].
    destruct a as [dt x|v|m]; [discriminate..|]. now intros [= <- _].
Qed.

(** X22. [to_file] under a name that does not end in [.npy] writes to the
    name with [.npy] appended (numpy adds the extension), so a [from_file]
    with the name that was given to [to_file] does not find the file. *)
Theorem to_file_appends_extension filename b w a :
  SVDBasis.V b = Some a ->
  endswith filename ".npy" = false ->
  fs w !! filename = None ->
  exists w1,
    SVDBasis.to_file filename (b, w) = (inr tt, (b, w1)) /\
    fs w1 !! (filename +:+ ".npy") = Some (NpyFile a) /\
    fs w1 !! filename = None /\
    forall b0, (SVDBasis.from_file filename (b0, w1)).1 = inl (FileNotFoundError filename).
Proof.
  intros HV Hext Hfile. destruct (npy_name_other filename Hext) as [Hname Hne].
  rewrite to_file_eq, HV. eexists. split; [reflexivity|]. cbn [fs].
  rewrite Hname in *. rewrite lookup_insert_eq, lookup_insert_ne by assumption.
  split; [reflexivity|]. split; [assumption|].
  intros b0. rewrite from_file_eq. cbn [fs]. cbn zeta.
  now rewrite lookup_insert_ne, Hfile by assumption.
Qed.

End SVDBasisShapes.

(** ** The builder: a single leftover sample, and arguments out of range *)

Section LeftoverSample.
Context `{Sc : Scalars} `{!LinAlg} `{!Collaborators}.

Variables (st : WaveformDataset.St) (L b N M_ q : nat) (ifos : list string)
          (source : list (dict (vector scalar))).
Hypotheses (Hb : 2 <= b) (HLq : L = q * b + 1) (HN : L < N)
           (Hsrc : source_upto st L = Some source)
           (Huni : uniform_source ifos M_ source).

Lemma assign_broadcast (buf : matrix scalar) (lower n : nat) (src : matrix scalar) :
  lower + n <= nrows buf ->
  nrows src = 1 -> n <> 1 -> ncols src = ncols buf ->
  assign_slice buf (Z.of_nat lower) (Z.of_nat n) src st =
  (inr (Matrix (m_dtype buf) (nrows buf) (ncols buf)
          (take lower (rows buf)
             ++ replicate n (map (cast (m_dtype buf)) (default [] (head (rows src))))
             ++ drop (lower + n) (rows buf))), st).
Proof.
  intros Hfit Hr Hn Hc. unfold assign_slice, slice_bound, broadcast_rows.
  assert ((Z.of_nat lower <? 0)%Z = false) as -> by (apply Z.ltb_ge; lia).
  assert ((Z.of_nat lower + Z.of_nat n <? 0)%Z = false) as -> by (apply Z.ltb_ge; lia).
  replace (Nat.min (Z.to_nat (Z.of_nat lower)) (nrows buf)) with lower by lia.
  replace (Nat.min (Z.to_nat (Z.of_nat lower + Z.of_nat n)) (nrows buf) - lower)
    with n by lia.
  rewrite decide_True by assumption. cbn.
  rewrite decide_False by lia. rewrite decide_True by assumption. cbn.
  now rewrite fmap_replicate.
Qed.

(** The batch that holds the leftover sample. *)
Lemma repeat_leftover :
  let n := Nat.min b (N - q * b) in
  mapM (fun kb : string * matrix scalar =>
          src ← getitem ((fun k => (k, stacked st L b q M_ source k)) <$> ifos) kb.1;
          buf ← assign_slice kb.2 (Z.of_nat (q * b)) (Z.of_nat n)
                             (take_rows (Z.of_nat n) src);
          ret (kb.1, buf))
       (buffers_after ifos N M_ (q * b) source) st =
  (inr (buffers_repeating ifos N M_ (q * b) n source), st).
Proof.
  intros n. assert (2 <= n) as Hn by (subst n; lia).
  assert (0 < b) as Hb0 by lia. assert (1 <= L) as HL by lia.
  pose proof (rows_of_source st L b source Hb0 HL Hsrc) as Hrows.
  set (lower := q * b) in *.
  erewrite (mapM_ok _ (fun kb => (kb.1, Matrix complex128 N M_
       ((map (cast complex128) <$> take lower (channel_rows kb.1 source))
          ++ replicate n (map (cast complex128)
                              (default [] (channel_rows kb.1 source !! lower)))
          ++ drop (lower + n) (stale_rows kb.1 N M_))))).
  - f_equal. f_equal. unfold buffers_after, buffers_repeating.
    rewrite <- list_fmap_compose. reflexivity.
  - intros [k buf] Hkb. unfold buffers_after in Hkb.
    apply list_elem_of_fmap in Hkb as (k' & [= -> ->] & Hk). cbn [fst snd].
    unfold getitem. rewrite (dict_get_tagged _ _ _ Hk).
    erewrite bind_ok by reflexivity.
    erewrite bind_ok; cycle 1.
    { apply assign_broadcast; cbn [nrows ncols take_rows stacked].
      - lia.
      - rewrite slice_stop_nonneg by lia. fold lower. lia.
      - lia.
      - reflexivity. }
    cbn [m_dtype nrows ncols rows take_rows stacked]. fold lower.
    run. f_equal. f_equal. f_equal.
    rewrite slice_stop_nonneg by lia.
    replace (L - lower) with 1 by lia.
    replace (Nat.min (Z.to_nat (Z.of_nat n)) (Nat.min b 1)) with 1 by lia.
    replace (Nat.min b 1) with 1 by lia.
    rewrite take_take. replace (Nat.min 1 1) with 1 by lia.
    rewrite head_lookup, lookup_take_lt, lookup_drop, Nat.add_0_r by lia.
    rewrite take_app_length'; cycle 1.
    { rewrite length_fmap, length_take, Hrows. lia. }
    rewrite drop_app_ge; cycle 1.
    { rewrite length_fmap, length_take, Hrows. lia. }
    rewrite length_fmap, length_take, Hrows.
    replace (lower + n - Nat.min lower L) with n by lia.
    rewrite drop_drop. reflexivity.
Qed.

Lemma collect_leftover :
  collect (num_batches L b) 0 L (Z.of_nat b) (Z.of_nat N)
          (buffers_after ifos N M_ 0 source) st =
  (inr (buffers_repeating ifos N M_ (q * b) (Nat.min b (N - q * b)) source), st).
Proof.
  assert (0 < b) as Hb0 by lia. assert (1 <= L) as HL by lia.
  rewrite HLq at 1. rewrite num_batches_partial by lia.
  pose proof (collect_full_batches st L b N M_ ifos source Hb0 HL HN Hsrc Huni q 0 1)
    as Hloop.
  replace (q + 1) with (S q) in Hloop by lia. cbn [Nat.add Nat.mul] in Hloop.
  rewrite Hloop by lia.
  cbn [collect]. rewrite Nat2Z.id.
  erewrite bind_ok by (apply (fetch_any_batch st L b source Hb0 HL Hsrc); lia).
  erewrite bind_ok by (apply (collate_any_batch st L b M_ ifos source Hb0 HL Hsrc Huni); lia).
  cbv zeta.
  replace (Z.of_nat q * Z.of_nat b)%Z with (Z.of_nat (q * b)) by lia.
  replace (Z.min (Z.of_nat b) (Z.of_nat N - Z.of_nat (q * b)))
    with (Z.of_nat (Nat.min b (N - q * b))) by lia.
  erewrite bind_ok by apply repeat_leftover.
  destruct (_ =? _)%Z; reflexivity.
Qed.

End LeftoverSample.

Section BuilderEdges.
Context `{Sc : Scalars} `{!LinAlg} `{!Collaborators}.

(** X23. A dataset of [L = q * batch_size + 1] samples with [L < N] and
    [batch_size >= 2]: the last batch holds one sample, the loop asks for
    [n = min(batch_size, N - lower) >= 2] rows, and the assignment of one row
    to [n] slots is a broadcast. No exception is raised: the last sample of
    the dataset fills [n] rows of each buffer, and the decompositions are
    computed on buffers that hold it [n] times (followed by rows that were
    never assigned, if [N] is beyond them). *)
Theorem builder_repeats_a_single_leftover_sample o w transforms_rb (N b L M_ q : nat)
  num_workers n_rb out_dir suffix ifos source :
  let st_rb : WaveformDataset.St := (with_transform o transforms_rb, w) in
  let n := Nat.min b (N - q * b) in
  2 <= b -> L = q * b + 1 -> L < N -> (0 <= num_workers)%Z ->
  WaveformDataset.__len__ st_rb = (inr L, st_rb) ->
  source_upto st_rb L = Some source ->
  ifos <> [] ->
  uniform_source ifos M_ source ->
  2 <= n /\
  generate_and_save_reduced_basis transforms_rb (Z.of_nat N) (Z.of_nat b) num_workers
                                  n_rb out_dir suffix (o, w) =
    finish (buffers_repeating ifos N M_ (q * b) n source) n_rb out_dir suffix
           (WaveformDataset.transform o) st_rb /\
  forall k, k ∈ ifos ->
    exists m last,
      dict_get (buffers_repeating ifos N M_ (q * b) n source) k = Some m /\
      channel_rows k source !! (L - 1) = Some last /\
      forall i, q * b <= i < q * b + n ->
                rows m !! i = Some (map (cast complex128) last).
Proof.
  intros st_rb n Hb HLq HN Hnw Hlen Hsrc Hifos Huni.
  assert (0 < b) as Hb0 by lia. assert (1 <= L) as HL by lia.
  assert (2 <= n) as Hn by (subst n; lia).
  split; [exact Hn|]. split.
  - rewrite (builder_prologue o w transforms_rb N b L M_ num_workers n_rb out_dir suffix
               ifos source) by assumption.
    fold st_rb. erewrite bind_ok; [reflexivity|].
    apply (collect_leftover st_rb L b N M_ q ifos source Hb HLq HN Hsrc Huni).
  - intros k Hk. pose proof (rows_of_source st_rb L b source Hb0 HL Hsrc k) as Hrows.
    destruct (lookup_lt_is_Some_2 (channel_rows k source) (L - 1) ltac:(lia)) as [last Hlast].
    unfold buffers_repeating. rewrite (dict_get_tagged _ _ _ Hk).
    eexists _, last. split; [reflexivity|]. split; [exact Hlast|].
    intros i Hi. cbn [rows].
    replace (q * b) with (L - 1) in * by lia.
    rewrite lookup_app_r by (rewrite length_fmap, length_take; lia).
    rewrite length_fmap, length_take, Hrows.
    rewrite lookup_app_l by (rewrite length_replicate; lia).
    rewrite Hlast. cbn. apply lookup_replicate_2. lia.
Qed.

(** X24. The arguments are looked at after the transform has been
    swapped. A negative [N] raises [ValueError] when the first buffer is
    allocated, and a [batch_size] that is not positive raises [ValueError]
    when the loader is made, both after the first sample has been read
    twice; the dataset is left with [transforms_rb] as its transform. *)
Theorem builder_rejects_arguments_after_the_swap o w transforms_rb N batch_size num_workers
  n_rb out_dir suffix p strain :
  let st_rb : WaveformDataset.St := (with_transform o transforms_rb, w) in
  WaveformDataset.__getitem__ 0 st_rb = (inr (WaveformDataset.Tuple p strain), st_rb) ->
  strain <> [] ->
  ((N < 0)%Z ->
   generate_and_save_reduced_basis transforms_rb N batch_size num_workers n_rb out_dir
                                   suffix (o, w) =
   (inl (ValueError "negative dimensions are not allowed"), st_rb)) /\
  ((0 <= N)%Z -> (batch_size <= 0)%Z -> (0 <= num_workers)%Z ->
   exists msg,
     generate_and_save_reduced_basis transforms_rb N batch_size num_workers n_rb out_dir
                                     suffix (o, w) =
     (inl (ValueError msg), st_rb)).
Proof.
  intros st_rb Hget Hne.
  destruct strain as [|[ifo0 v] rest] eqn:Es; [congruence|]. rewrite <- Es in *.
  assert (keys strain = ifo0 :: keys rest) as Hkeys by (rewrite Es; reflexivity).
  assert (dict_get strain ifo0 = Some v) as Hv
    by (rewrite Es; cbn; now rewrite String.eqb_refl).
  assert (generate_and_save_reduced_basis transforms_rb N batch_size num_workers n_rb
            out_dir suffix (o, w) =
          (rb_train_data ← mapM (fun ifo => buf ← np_empty ifo N (length (elems v));
                                           ret (ifo, buf)) (keys strain);
           (if (batch_size <=? 0)%Z
            then raise (ValueError "batch_size should be a positive integer value")
            else ret tt);;
           (if (num_workers <? 0)%Z
            then raise (ValueError "num_workers option should be non-negative")
            else ret tt);;
           len ← WaveformDataset.__len__;
           rb_train_data ← collect (num_batches len (Z.to_nat batch_size)) 0 len
                                   batch_size N rb_train_data;
           finish rb_train_data n_rb out_dir suffix (WaveformDataset.transform o))
            st_rb) as Hpro.
  { unfold generate_and_save_reduced_basis.
    erewrite bind_ok by reflexivity.
    erewrite bind_ok by reflexivity.
    fold st_rb.
    erewrite bind_ok by exact Hget. erewrite bind_ok by reflexivity.
    erewrite bind_ok by exact Hget. erewrite bind_ok by reflexivity.
    rewrite Hkeys at 1.
    erewrite bind_ok by reflexivity.
    unfold getitem at 1. rewrite Hv. erewrite bind_ok by reflexivity.
    reflexivity. }
  rewrite Hpro. clear Hpro. split.
  - intros HN. rewrite Hkeys. cbn [mapM]. unfold np_empty.
    assert ((N <? 0)%Z = true) as -> by (apply Z.ltb_lt; lia). reflexivity.
  - intros HN Hbs Hnw. eexists. erewrite bind_ok; cycle 1.
    { apply (mapM_ok _ (fun k => (k, Matrix complex128 (Z.to_nat N) (length (elems v))
                                      (stale_rows k (Z.to_nat N) (length (elems v)))))).
      intros k _. unfold np_empty.
      assert ((N <? 0)%Z = false) as -> by (apply Z.ltb_ge; lia). reflexivity. }
    assert ((batch_size <=? 0)%Z = true) as -> by (apply Z.leb_le; lia). reflexivity.
Qed.

End BuilderEdges.

(** ** Library calls and missing pieces *)

Section LibraryCalls.
Context `{Sc : Scalars} `{!LinAlg} `{!Collaborators}.
Implicit Types (o : WaveformDataset.t) (w : World).

(** X25. What [load] does when something is missing. A file that does not
    exist, a file that is not an HDF5 file and a file without a
    [parameters] member raise before anything is assigned. A file without
    the [settings] attribute raises [KeyError] after the parameter table and
    both polarizations have been assigned: the object then holds the arrays
    of the new file as they are stored, not yet converted to the dataset's
    precision, next to the domain and the flag of before. *)
Theorem load_missing_pieces filename o w :
  (fs w !! filename = None ->
   WaveformDataset.load filename (o, w) = (inl (FileNotFoundError filename), (o, w))) /\
  (forall a, fs w !! filename = Some (NpyFile a) ->
     exists msg, WaveformDataset.load filename (o, w) = (inl (OSError msg), (o, w))) /\
  (forall fp, fs w !! filename = Some (Hdf5File fp) ->
     dict_get (h5_members fp) "parameters" = None ->
     WaveformDataset.load filename (o, w) = (inl (KeyError "parameters"), (o, w))) /\
  (forall fp columns records hc hp,
     fs w !! filename = Some (Hdf5File fp) ->
     dict_get (h5_members fp) "parameters" = Some (H5Table columns records) ->
     dict_get (h5_members fp) "waveform_polarizations" =
       Some (H5Group [("h_cross", hc); ("h_plus", hp)]) ->
     readable hc -> readable hp ->
     "rb_matrix_V" ∉ keys (h5_members fp) ->
     dict_get (h5_attrs fp) "settings" = None ->
     WaveformDataset.load filename (o, w) =
     (inl (KeyError "settings"),
      (WaveformDataset.mk (WaveformDataset.transform o) (WaveformDataset._Vh o)
         (WaveformDataset.single_precision o)
         (Some (WaveformDataset.mkDataFrame columns records)) (Some hc) (Some hp)
         (WaveformDataset.data_settings o) (WaveformDataset.domain o)
         (WaveformDataset.is_truncated o), w))).
Proof.
  split; [|split; [|split]].
  - intros Hfile. unfold_wfd. run. now rewrite Hfile.
  - intros a Hfile. unfold_wfd. run. rewrite Hfile. eauto.
  - intros fp Hfile Hpar. unfold_wfd. run. rewrite Hfile. cbn. now rewrite Hpar.
  - intros fp columns records hc hp Hfile Hpar Hgrp Hhc Hhp Hrb Hattr.
    unfold WaveformDataset.load, WaveformDataset.open_h5, getitem,
      WaveformDataset.read_parameters, WaveformDataset.as_group,
      WaveformDataset.read_dataset, WaveformDataset.attr, WaveformDataset.self.
    run. rewrite Hfile, Hpar, Hgrp, Hattr.
    rewrite (bool_decide_true (keys _ = _)) by reflexivity.
    rewrite bool_decide_false by assumption.
    destruct hc as [? ?|vc|mc]; [destruct Hhc|..];
      (destruct hp as [? ?|vp|mp]; [destruct Hhp|..]); reflexivity.
Qed.

(** X26. One call of [generate_basis] makes one call of the routine its
    method names, whether that call returns or raises, and none for an
    unknown method; it never touches the file system. *)
Theorem generate_basis_makes_one_library_call td n method (b : SVDBasis.t) w :
  let outcome := SVDBasis.generate_basis td n method (b, w) in
  fs outcome.2.2 = fs w /\
  calls outcome.2.2 =
    (calls w ++ (if String.eqb method "random" then [call_randomized_svd]
                 else if String.eqb method "scipy" then [call_scipy_linalg_svd]
                      else []))%list.
Proof.
  intros outcome. subst outcome.
  destruct (method_cases method) as [->|[->|[H1 H2]]].
  - rewrite generate_basis_random.
    destruct (randomized_svd _ _) as [e|[[U sv] Vh]]; split; reflexivity.
  - rewrite generate_basis_scipy.
    destruct (scipy_linalg_svd td) as [e|[[U sv] Vh]]; split; reflexivity.
  - rewrite generate_basis_other by assumption.
    apply String.eqb_neq in H1, H2. rewrite H1, H2. cbn. now rewrite app_nil_r.
Qed.

Lemma generate_rb_calls rb n_rb : forall (st : WaveformDataset.St) basis_dict st',
  generate_rb rb n_rb st = (inr basis_dict, st') ->
  calls st'.2 = (calls st.2 ++ replicate (length rb) call_randomized_svd)%list.
Proof.
  unfold generate_rb. induction rb as [|kb l IH]; intros st basis_dict st'.
  - intros [= _ <-]. cbn. now rewrite app_nil_r.
  - cbn [mapM]. unfold mbind at 1, M_bind at 1, bind at 1.
    unfold mbind at 1, M_bind at 1, bind at 1. unfold on_basis at 1.
    rewrite generate_basis_random.
    destruct (randomized_svd _ _) as [e|[[U sv] Vh]]; [discriminate|].
    cbn [fst snd mret M_ret ret].
    unfold mbind at 1, M_bind at 1, bind at 1.
    match goal with |- context [mapM ?f l ?s] => destruct (mapM f l s) as [[e|ys] st2] eqn:Hrest end;
      [discriminate|].
    intros [= _ <-]. rewrite (IH _ _ _ Hrest). cbn [snd calls logged length replicate].
    rewrite <- app_assoc. reflexivity.
Qed.

(** The two files written for one channel. *)
Lemma save_rb_calls out_dir suffix basis_dict :
  forall (st : WaveformDataset.St) V_paths st',
  Forall (fun entry => is_Some (SVDBasis.V entry.2) /\ is_Some (SVDBasis.s entry.2))
         basis_dict ->
  mapM (save_basis out_dir suffix) basis_dict st = (inr V_paths, st') ->
  calls st'.2 =
  (calls st.2 ++
   concat ((fun ifo => [call_np_save (join out_dir ("V_" +:+ ifo +:+ suffix +:+ ".npy"));
                        call_np_save (join out_dir ("s_" +:+ ifo +:+ suffix +:+ ".npy"))])
             <$> keys basis_dict))%list.
Proof.
  induction basis_dict as [|entry l IH]; intros st V_paths st' Hall.
  - intros [= _ <-]. cbn. now rewrite app_nil_r.
  - apply Forall_cons in Hall as [[[a HV] _] Hall]. cbn [mapM].
    unfold mbind at 1, M_bind at 1, bind at 1.
    destruct (save_basis out_dir suffix entry st) as [[e|path] st1] eqn:Hstep; [discriminate|].
    unfold mbind at 1, M_bind at 1, bind at 1.
    destruct (mapM (save_basis out_dir suffix) l st1) as [[e|paths] st2] eqn:Hrest;
      [discriminate|].
    intros [= _ <-]. rewrite (IH _ _ _ Hall Hrest).
    revert Hstep. unfold save_basis, on_basis. run. rewrite to_file_eq, HV.
    destruct (SVDBasis.s entry.2) as [sv|]; [|discriminate].
    unfold np_save. run. intros [= _ <-]. cbn [snd calls keys fmap list_fmap concat fst].
    rewrite <- !app_assoc. reflexivity.
Qed.

(** X27. The library calls of a run of the builder that returns: one
    randomized decomposition for each channel of the first sample's strain
    dictionary (never the exact method), followed, when an output directory
    is given, by two [np.save] for each channel, the matrix [V] and then the
    singular values, in the order of the channels. *)
Theorem builder_library_calls
  transforms_rb N batch_size num_workers n_rb out_dir suffix o w V_paths st' :
  generate_and_save_reduced_basis transforms_rb N batch_size num_workers n_rb
                                  out_dir suffix (o, w) = (inr V_paths, st') ->
  exists p strain,
    WaveformDataset.__getitem__ 0 (with_transform o transforms_rb, w) =
    (inr (WaveformDataset.Tuple p strain), (with_transform o transforms_rb, w)) /\
    calls st'.2 =
    (calls w ++ replicate (length strain) call_randomized_svd ++
     match out_dir with
     | None => []
     | Some d =>
         concat ((fun ifo => [call_np_save (join d ("V_" +:+ ifo +:+ suffix +:+ ".npy"));
                              call_np_save (join d ("s_" +:+ ifo +:+ suffix +:+ ".npy"))])
                   <$> keys strain)
     end)%list.
Proof.
  intros Hrun.
  apply builder_anatomy in Hrun as [(e & [=] & _)|(p & strain & rb & Hget & Hkeys & Hfin)].
  exists p, strain. split; [exact Hget|].
  apply finish_returns in Hfin as (basis_dict & st1 & st2 & Hgen & Hsave & Hw).
  pose proof (generate_rb_keys _ _ _ _ _ Hgen) as Hk.
  pose proof (generate_rb_populated _ _ _ _ _ Hgen) as Hpop.
  pose proof (generate_rb_calls _ _ _ _ _ Hgen) as Hcalls. cbn [snd] in Hcalls.
  assert (length rb = length strain) as Hlen.
  { apply (f_equal length) in Hkeys. unfold keys in Hkeys.
    now rewrite !length_fmap in Hkeys. }
  rewrite Hw, <- Hlen. destruct out_dir as [d|]; cbn [save_rb] in Hsave.
  - rewrite (save_rb_calls _ _ _ _ _ _ Hpop Hsave), Hcalls, Hk, Hkeys.
    now rewrite <- app_assoc.
  - injection Hsave as _ <-. now rewrite Hcalls, app_nil_r.
Qed.

End LibraryCalls.

(** ** Without a compression matrix, and a basis generated twice *)

Section Overwriting.
Context `{Sc : Scalars} `{!LinAlg} `{!Collaborators}.

(** X28. On an object whose [_Vh] is [None], [dataset[idx]] returns the
    stored rows of the two polarizations as they are, under the keys
    [h_cross] and [h_plus], with the parameters of the same row; the
    transform, if any, is applied to that. *)
Theorem getitem_without_matrix_returns_stored_rows o w ps mc mp idx rec rc rp :
  WaveformDataset._parameter_samples o = Some ps ->
  WaveformDataset._hc o = Some (Arr2 mc) ->
  WaveformDataset._hp o = Some (Arr2 mp) ->
  WaveformDataset._Vh o = None ->
  py_index (WaveformDataset.df_records ps) idx = Some rec ->
  py_index (rows mc) idx = Some rc ->
  py_index (rows mp) idx = Some rp ->
  let data := WaveformDataset.mkData (zip (WaveformDataset.df_columns ps) rec)
                [("h_cross", Arr1 (Vector (m_dtype mc) rc));
                 ("h_plus", Arr1 (Vector (m_dtype mp) rp))] in
  WaveformDataset.__getitem__ idx (o, w) =
  (match WaveformDataset.transform o with
   | Some f => f data
   | None => inr (WaveformDataset.Data data)
   end, (o, w)).
Proof.
  intros Hps Hhc Hhp HVh Hrec Hrc Hrp data. subst data.
  unfold WaveformDataset.__getitem__, WaveformDataset.attr, WaveformDataset.self,
    WaveformDataset.iloc_to_dict, index_row.
  run. rewrite Hps. cbn. rewrite Hrec. cbn. rewrite Hhc. cbn. rewrite Hrc. cbn.
  rewrite Hhp. cbn. rewrite Hrp. cbn. rewrite HVh. cbn.
  destruct (WaveformDataset.transform o); reflexivity.
Qed.

(** X29. [generate_basis] overwrites: the basis it leaves when it returns
    is determined by the training data, [n] and the method alone. Nothing of
    the object it was called on survives, neither [V] and [Vh] nor [n] and
    [s]. *)
Theorem generate_basis_overwrites_the_basis td n method (b1 b2 : SVDBasis.t) w b' w' :
  SVDBasis.generate_basis td n method (b1, w) = (inr tt, (b', w')) ->
  SVDBasis.generate_basis td n method (b2, w) = (inr tt, (b', w')).
Proof.
  intros Hrun. destruct (method_cases method) as [->|[->|[H1 H2]]].
  - rewrite generate_basis_random in *.
    destruct (randomized_svd _ _) as [e|[[U sv] Vh]]; [discriminate|]. exact Hrun.
  - rewrite generate_basis_scipy in *.
    destruct (scipy_linalg_svd td) as [e|[[U sv] Vh]]; [discriminate|]. exact Hrun.
  - rewrite generate_basis_other in Hrun by assumption. discriminate.
Qed.

End Overwriting.

(** * The program on the concrete instance *)

Module Examples.
Import Toy.
#[local] Existing Instances scalars linalg collaborators.

(** Evaluation of both sides of an equation. *)
Ltac evaluate := vm_compute; exact eq_refl.

(** ** The instance meets the contracts *)

Lemma gconj_involutive (x : gauss) : gconj (gconj x) = x.
Proof. destruct x as [[re_ im]|]; cbn; [|reflexivity]. f_equal. f_equal. lia. Qed.

Lemma wf_eye_rows dt k d : wf_matrix (eye_rows dt k d).
Proof.
  split; cbn.
  - now rewrite length_fmap, length_seq.
  - apply Forall_fmap, Forall_forall. intros i _. cbn.
    now rewrite length_fmap, length_seq.
Qed.

Lemma descending_zeros dt k : descending gge (Vector dt (replicate k (re 0))).
Proof.
  unfold descending. cbn. induction k as [|k IH]; [constructor|].
  cbn. constructor; [exact IH|]. destruct k; constructor. cbn. lia.
Qed.

Lemma toy_outputs_wf : svd_outputs_wf.
Proof.
  split.
  - intros td n U s Vh. cbn. destruct (n <? 0)%Z; [discriminate|].
    intros [= _ _ <-]. apply wf_eye_rows.
  - intros td U s Vh. cbn. intros [= _ _ <-]. apply wf_eye_rows.
Qed.

Lemma toy_randomized_svd_contract : randomized_svd_contract gge.
Proof.
  intros td n U s Vh Hn. cbn. destruct (n <? 0)%Z eqn:E; [lia|].
  intros [= _ <- <-]. cbn. unfold available_rank.
  rewrite length_replicate. repeat split. apply descending_zeros.
Qed.

Lemma toy_scipy_svd_contract : scipy_svd_contract gge.
Proof.
  intros td U s Vh. cbn. intros [= _ <- <-]. cbn. unfold available_rank.
  rewrite length_replicate. repeat split. apply descending_zeros.
Qed.

(** ** SVDBasis *)

Lemma generate_basis_unsupported_method_witness :
  SVDBasis.generate_basis training_zeros 2 "qr" (zero_basis, zero_basis_world) =
  (inl (ValueError "Unsupported SVD method: qr."), (zero_basis, zero_basis_world)).
Proof.
  apply (@generate_basis_unsupported_method scalars linalg training_zeros 2 "qr"
           zero_basis zero_basis_world); discriminate.
Defined.

Lemma generate_basis_random_keeps_requested_n_witness :
  SVDBasis.n overasked_basis = Some 5%Z /\
  exists m, SVDBasis.Vh overasked_basis = Some (Arr2 m) /\
            nrows m = available_rank training_zeros /\
            (Z.of_nat (nrows m) < 5)%Z.
Proof.
  apply (@generate_basis_random_keeps_requested_n scalars linalg gge training_zeros 5
           SVDBasis.init empty_world overasked_basis overasked_world).
  - exact toy_randomized_svd_contract.
  - vm_compute. reflexivity.
  - evaluate.
Defined.

Lemma generate_basis_singular_values_witness :
  exists sv k,
    SVDBasis.s zero_basis = Some sv /\ SVDBasis.n zero_basis = Some k /\
    ("random" = "random" -> (0 <= 2 <= Z.of_nat (available_rank training_zeros))%Z ->
       descending gge sv /\ Z.of_nat (length (elems sv)) = k) /\
    ("random" = "scipy" ->
       descending gge sv /\
       length (elems sv) = available_rank training_zeros /\
       (Z.of_nat (length (elems sv)) = k <->
        (2 = 0 \/ Z.of_nat (available_rank training_zeros) <= 2 \/
         available_rank training_zeros = 0%nat)%Z)).
Proof.
  apply (@generate_basis_singular_values scalars linalg gge training_zeros 2 "random"
           SVDBasis.init empty_world zero_basis zero_basis_world).
  - exact toy_randomized_svd_contract.
  - exact toy_scipy_svd_contract.
  - evaluate.
Defined.

(** C6 as stated fails: with ['scipy'] and a requested rank of 1 for a
    training matrix of shape (2, 3), the stored [n] is 1 and the stored [s]
    has the two singular values of the decomposition. *)
Lemma scipy_keeps_all_singular_values :
  SVDBasis.generate_basis training_zeros 1 "scipy" (SVDBasis.init, empty_world) =
  (inr tt, (cut_basis, cut_world)) /\
  SVDBasis.n cut_basis = Some 1%Z /\
  (length ∘ elems) <$> SVDBasis.s cut_basis = Some 2 /\
  ~ (exists sv, SVDBasis.s cut_basis = Some sv /\
                SVDBasis.n cut_basis = Some (Z.of_nat (length (elems sv)))).
Proof.
  split; [evaluate|]. split; [reflexivity|]. split; [reflexivity|].
  intros (sv & Hs & Hn). cbn in Hs, Hn. injection Hs as <-. discriminate.
Qed.

Lemma Vh_is_conjugate_transpose_of_V_witness :
  conjugate_pair zero_basis.
Proof.
  destruct (@Vh_is_conjugate_transpose_of_V scalars linalg SVDBasis.init empty_world
              gconj_involutive toy_outputs_wf) as (Hgen & _).
  apply (Hgen training_zeros 2%Z "random" zero_basis zero_basis_world). evaluate.
Defined.

Lemma to_file_from_file_roundtrip_witness :
  (exists w1,
      SVDBasis.to_file "V_H1.npy" (zero_basis, zero_basis_world) =
      (inr tt, (zero_basis, w1)) /\
      (endswith "V_H1.npy" ".npy" = true -> npy_name "V_H1.npy" = "V_H1.npy") /\
      forall b0, exists w2,
        SVDBasis.from_file (npy_name "V_H1.npy") (b0, w1) =
        (inr tt, (SVDBasis.mk (Some (Arr2 zero_V)) (Some (ctranspose (Arr2 zero_V)))
                              (Some (Z.of_nat (ncols zero_V))) (SVDBasis.s b0), w2))) /\
  SVDBasis.to_file "V_H1.npy" (SVDBasis.init, empty_world) =
  (inr tt, (SVDBasis.init, empty_world)).
Proof.
  split.
  - apply (proj1 (to_file_from_file_roundtrip "V_H1.npy"
                    zero_basis zero_basis_world) zero_V).
    reflexivity.
  - apply (proj2 (to_file_from_file_roundtrip "V_H1.npy"
                    SVDBasis.init empty_world)).
    reflexivity.
Defined.

Lemma generate_basis_precision_witness :
  dtype_of <$> SVDBasis.Vh zero_basis = Some complex64 /\
  dtype_of <$> SVDBasis.Vh exact_basis = Some complex128 /\
  dtype_of <$> SVDBasis.V zero_basis <> dtype_of <$> SVDBasis.V exact_basis.
Proof.
  destruct (@generate_basis_precision scalars linalg training_zeros 2
              SVDBasis.init empty_world) as (_ & _ & Hdiff).
  eapply (Hdiff _ _ _ zero_basis zero_basis_world exact_basis exact_world).
  - reflexivity.
  - cbn. reflexivity.
  - reflexivity.
  - evaluate.
  - evaluate.
Defined.

(** ** WaveformDataset *)

Lemma loading_uncompressed :
  loading uncompressed_h5 = (inr tt, (uncompressed_loaded, world_with "dataset.h5" uncompressed_h5)).
Proof. evaluate. Qed.

(** C1 as stated fails: a call with a new range on a dataset that has no
    compression matrix raises after [domain.set_new_range] has changed the
    domain. This is so on an object whose [_Vh] is [None]
    ([NotImplementedError]), and on the dataset loaded from a file without
    [rb_matrix_V], where [_Vh] is a zero-dimensional array and the call
    stops at [self._Vh.shape[-1]]. *)
Lemma truncate_changes_domain_before_failing :
  (WaveformDataset.truncate_dataset_domain (Some (re 1, re 2))
     (uncompressed_dataset, empty_world) =
   (inl (NotImplementedError WaveformDataset.not_implemented_msg),
    (uncompressed_dataset_new_range, empty_world)) /\
   WaveformDataset.domain uncompressed_dataset = Some (mkDomain 0 2) /\
   WaveformDataset.domain uncompressed_dataset_new_range = Some (mkDomain 1 2)) /\
  (loading uncompressed_h5 =
   (inr tt, (uncompressed_loaded, world_with "dataset.h5" uncompressed_h5)) /\
   (WaveformDataset.truncate_dataset_domain (Some (re 1, re 2))
      (uncompressed_loaded, empty_world)).1 = inl (IndexError "tuple index out of range") /\
   WaveformDataset.domain uncompressed_loaded = Some (mkDomain 0 2) /\
   WaveformDataset.domain
     (WaveformDataset.truncate_dataset_domain (Some (re 1, re 2))
        (uncompressed_loaded, empty_world)).2.1 = Some (mkDomain 1 2)).
Proof.
  split; [split; [evaluate|split; reflexivity]|].
  split; [evaluate|]. split; [evaluate|]. split; [reflexivity|evaluate].
Qed.

Lemma truncate_dataset_domain_state_errors_witness :
  WaveformDataset.truncate_dataset_domain (Some (re 1, re 2))
                                          (compressed_truncated, empty_world) =
  (inl (ValueError "Dataset is already truncated"), (compressed_truncated, empty_world)) /\
  WaveformDataset.truncate_dataset_domain None (uncompressed_dataset, empty_world) =
  (inl (NotImplementedError WaveformDataset.not_implemented_msg),
   (uncompressed_dataset, empty_world)) /\
  exists o',
    WaveformDataset.truncate_dataset_domain (Some (re 1, re 2))
                                            (uncompressed_dataset, empty_world) =
    (inl (NotImplementedError WaveformDataset.not_implemented_msg), (o', empty_world)) /\
    WaveformDataset.domain o' = Some (mkDomain 1 2) /\
    WaveformDataset._Vh o' = WaveformDataset._Vh uncompressed_dataset /\
    WaveformDataset.is_truncated o' = WaveformDataset.is_truncated uncompressed_dataset.
Proof.
  split; [|split].
  - apply (proj1 (truncate_dataset_domain_state_errors compressed_truncated empty_world
                    (Some (re 1, re 2)))).
    reflexivity.
  - exact (proj2 (truncate_dataset_domain_state_errors uncompressed_dataset empty_world
                    None) eq_refl eq_refl (mkDomain 0 2) eq_refl).
  - exact (proj2 (truncate_dataset_domain_state_errors uncompressed_dataset empty_world
                    (Some (re 1, re 2)))
                 eq_refl eq_refl (mkDomain 0 2) eq_refl (mkDomain 1 2) eq_refl).
Defined.

Lemma no_rb_matrix_V (members : list string) :
  forallb (fun k => negb (String.eqb k "rb_matrix_V")) members = true ->
  "rb_matrix_V" ∉ members.
Proof.
  intros Hall Hin. apply list_elem_of_In in Hin.
  rewrite forallb_forall in Hall. specialize (Hall _ Hin).
  now rewrite String.eqb_refl in Hall.
Qed.

Lemma well_formed_uncompressed : well_formed_around uncompressed_h5 sorted_group.
Proof.
  split; [eexists _, _; reflexivity|]. split; [reflexivity|].
  split; [repeat constructor|]. split.
  - left. apply no_rb_matrix_V. reflexivity.
  - eexists _, _, _. repeat split; reflexivity.
Qed.

Lemma well_formed_creation_order :
  well_formed_around creation_order_h5 creation_order_group.
Proof.
  split; [eexists _, _; reflexivity|]. split; [reflexivity|].
  split; [repeat constructor|]. split.
  - left. apply no_rb_matrix_V. reflexivity.
  - eexists _, _, _. repeat split; reflexivity.
Qed.

(** C2 as stated fails: the keys of the group are the two expected ones,
    each once, enumerated in creation order with [h_plus] first, and [load]
    raises. *)
Lemma load_rejects_creation_order :
  dict_get (h5_members creation_order_h5) "waveform_polarizations" =
  Some (H5Group creation_order_group) /\
  NoDup (keys creation_order_group) /\
  (forall k, k ∈ keys creation_order_group <-> k ∈ ["h_cross"; "h_plus"]) /\
  (loading creation_order_h5).1 = inl (AssertionError "").
Proof.
  split; [reflexivity|]. split; [|split].
  - cbn. repeat constructor; intros Hin; apply list_elem_of_In in Hin; cbn in Hin;
      intuition discriminate.
  - intros k. cbn. rewrite !elem_of_cons, !elem_of_nil. intuition.
  - evaluate.
Qed.

Lemma load_checks_polarization_key_list_witness :
  ((WaveformDataset.load "dataset.h5"
      (unloaded, world_with "dataset.h5" uncompressed_h5)).1 = inr tt <->
   keys sorted_group = ["h_cross"; "h_plus"]) /\
  (WaveformDataset.load "dataset.h5"
     (unloaded, world_with "dataset.h5" creation_order_h5)).1 = inl (AssertionError "").
Proof.
  split.
  - apply (load_checks_polarization_key_list "dataset.h5" unloaded
             (world_with "dataset.h5" uncompressed_h5) uncompressed_h5 sorted_group).
    + evaluate.
    + exact well_formed_uncompressed.
  - apply (load_checks_polarization_key_list "dataset.h5" unloaded
             (world_with "dataset.h5" creation_order_h5) creation_order_h5
             creation_order_group).
    + evaluate.
    + exact well_formed_creation_order.
    + right. right. right. reflexivity.
Defined.

Lemma getitem_raises_without_rb_matrix_V_witness :
  WaveformDataset._Vh uncompressed_loaded =
  Some (Arr0 (precision true) (cast (precision true) nan)) /\
  forall idx, exists e,
    WaveformDataset.__getitem__ idx
      (uncompressed_loaded, world_with "dataset.h5" uncompressed_h5) =
    (inl e, (uncompressed_loaded, world_with "dataset.h5" uncompressed_h5)) /\
    (e = ValueError matmul_dimension_error \/
     (exists msg, e = IndexError msg) \/
     (exists name, e = AttributeError name)).
Proof.
  apply (getitem_raises_without_rb_matrix_V "dataset.h5" None true
           (world_with "dataset.h5" uncompressed_h5) uncompressed_h5
           (uncompressed_loaded, world_with "dataset.h5" uncompressed_h5)).
  - evaluate.
  - apply no_rb_matrix_V. reflexivity.
  - evaluate.
Defined.

(** On this dataset the first sample raises the [ValueError] of [@]. *)
Lemma getitem_0_uncompressed :
  (WaveformDataset.__getitem__ 0 (uncompressed_loaded, empty_world)).1 =
  inl (ValueError matmul_dimension_error).
Proof. evaluate. Qed.

(** ** The reduced-basis builder *)

Lemma uniform_long_source : uniform_source ["H1"; "L1"] 3 long_source.
Proof.
  unfold uniform_source, long_source.
  repeat (constructor; [split; [reflexivity|repeat constructor]|]). constructor.
Qed.

(** The last four samples of the long dataset cannot be read: the
    transform raises on them. *)
Lemma long_dataset_tail :
  sample_strain long_dataset_rb 21 = None /\ sample_strain long_dataset_rb 24 = None.
Proof. split; evaluate. Qed.

(** The scenario of the specification: N = 20, batches of 7, a dataset of
    25 samples. *)
Lemma reduced_basis_collects_first_N_rows_witness :
  collect (num_batches 25 7) 0 25 (Z.of_nat 7) (Z.of_nat 20)
          (buffers_after ["H1"; "L1"] 20 3 0 long_source) long_dataset_rb =
    (inr (first_rows ["H1"; "L1"] 20 3 long_source), long_dataset_rb) /\
  generate_and_save_reduced_basis (Some to_detectors) (Z.of_nat 20) (Z.of_nat 7) 16 2
                                  (Some "out") "" (long_dataset, empty_world) =
    finish (first_rows ["H1"; "L1"] 20 3 long_source) 2 (Some "out") ""
           (WaveformDataset.transform long_dataset) long_dataset_rb /\
  forall V_paths st',
    generate_and_save_reduced_basis (Some to_detectors) (Z.of_nat 20) (Z.of_nat 7) 16 2
                                    (Some "out") "" (long_dataset, empty_world) =
    (inr V_paths, st') ->
    st'.1 = long_dataset.
Proof.
  apply (reduced_basis_collects_first_N_rows long_dataset empty_world
           (Some to_detectors) 20 7 25 3 16 2 (Some "out") "" ["H1"; "L1"] long_source).
  - lia.
  - lia.
  - lia.
  - lia.
  - evaluate.
  - evaluate.
  - discriminate.
  - exact uniform_long_source.
Defined.

(** ** Further properties *)

Lemma uniform_whole_long_source : uniform_source ["H1"; "L1"] 3 whole_long_source.
Proof.
  unfold uniform_source, whole_long_source.
  repeat (constructor; [split; [reflexivity|repeat constructor]|]). constructor.
Qed.

Lemma zero_basis_conjugate_pair : conjugate_pair zero_basis.
Proof. exists (Arr2 zero_V). split; [reflexivity|]. split; [exact eq_refl|reflexivity]. Qed.

Lemma builder_returns_written_paths_witness :
  exists p strain,
    WaveformDataset.__getitem__ 0 compressed_dataset_rb =
    (inr (WaveformDataset.Tuple p strain), compressed_dataset_rb) /\
    built_paths = (fun ifo => join "out" ("V_" +:+ ifo +:+ "" +:+ ".npy")) <$> keys strain /\
    Forall (holds_array built_world) built_paths /\
    Forall (fun ifo => holds_array built_world (join "out" ("s_" +:+ ifo +:+ "" +:+ ".npy")))
           (keys strain).
Proof.
  apply (@builder_returns_written_paths scalars linalg collaborators (Some all_detectors)
           2 2 0 2 "out" "" compressed_loaded empty_world built_paths
           (built_dataset, built_world)).
  exact eq_refl.
Defined.

(** A dataset of 25 samples, batches of 5, and 30 rows asked for. *)
Lemma builder_short_dataset_keeps_stale_rows_witness :
  collect (num_batches 25 5) 0 25 (Z.of_nat 5) (Z.of_nat 30)
          (buffers_after ["H1"; "L1"] 30 3 0 whole_long_source) long_dataset_all =
    (inr (buffers_after ["H1"; "L1"] 30 3 25 whole_long_source), long_dataset_all) /\
  generate_and_save_reduced_basis (Some all_detectors) (Z.of_nat 30) (Z.of_nat 5) 16 2
                                  None "" (long_dataset, empty_world) =
    finish (buffers_after ["H1"; "L1"] 30 3 25 whole_long_source) 2 None ""
           (WaveformDataset.transform long_dataset) long_dataset_all /\
  forall k, k ∈ ["H1"; "L1"] ->
    exists m,
      dict_get (buffers_after ["H1"; "L1"] 30 3 25 whole_long_source) k = Some m /\
      m_dtype m = complex128 /\ nrows m = 30 /\ ncols m = 3 /\
      take 25 (rows m) = map (cast complex128) <$> channel_rows k whole_long_source /\
      drop 25 (rows m) = drop 25 (stale_rows k 30 3) /\
      length (drop 25 (rows m)) = 30 - 25.
Proof.
  apply (@builder_short_dataset_keeps_stale_rows scalars linalg collaborators long_dataset
           empty_world (Some all_detectors) 30 5 25 3 5 16 2 None "" ["H1"; "L1"]
           whole_long_source).
  - lia.
  - lia.
  - reflexivity.
  - lia.
  - lia.
  - exact eq_refl.
  - exact eq_refl.
  - discriminate.
  - exact uniform_whole_long_source.
Defined.

(** The same dataset with batches of 7: the last batch has 4 samples. *)
Lemma builder_partial_last_batch_raises_witness :
  exists msg,
    generate_and_save_reduced_basis (Some all_detectors) (Z.of_nat 30) (Z.of_nat 7) 16 2
                                    None "" (long_dataset, empty_world) =
    (inl (ValueError msg), long_dataset_all).
Proof.
  apply (@builder_partial_last_batch_raises scalars linalg collaborators long_dataset
           empty_world (Some all_detectors) 30 7 25 3 3 4 16 2 None "" ["H1"; "L1"]
           whole_long_source).
  - reflexivity.
  - lia.
  - lia.
  - lia.
  - lia.
  - exact eq_refl.
  - exact eq_refl.
  - discriminate.
  - exact uniform_whole_long_source.
Defined.

(** The same dataset with batches of 8: the last batch has one sample. *)
Lemma builder_repeats_a_single_leftover_sample_witness :
  2 <= Nat.min 8 (30 - 3 * 8) /\
  generate_and_save_reduced_basis (Some all_detectors) (Z.of_nat 30) (Z.of_nat 8) 16 2
                                  None "" (long_dataset, empty_world) =
    finish (buffers_repeating ["H1"; "L1"] 30 3 (3 * 8) (Nat.min 8 (30 - 3 * 8))
                              whole_long_source) 2 None ""
           (WaveformDataset.transform long_dataset) long_dataset_all /\
  forall k, k ∈ ["H1"; "L1"] ->
    exists m last,
      dict_get (buffers_repeating ["H1"; "L1"] 30 3 (3 * 8) (Nat.min 8 (30 - 3 * 8))
                                  whole_long_source) k = Some m /\
      channel_rows k whole_long_source !! (25 - 1) = Some last /\
      forall i, 3 * 8 <= i < 3 * 8 + Nat.min 8 (30 - 3 * 8) ->
                rows m !! i = Some (map (cast complex128) last).
Proof.
  apply (@builder_repeats_a_single_leftover_sample scalars linalg collaborators long_dataset
           empty_world (Some all_detectors) 30 8 25 3 3 16 2 None "" ["H1"; "L1"]
           whole_long_source).
  - lia.
  - reflexivity.
  - lia.
  - lia.
  - exact eq_refl.
  - exact eq_refl.
  - discriminate.
  - exact uniform_whole_long_source.
Defined.

Lemma builder_rejects_arguments_after_the_swap_witness :
  generate_and_save_reduced_basis (Some all_detectors) (-1) 2 0 2 None ""
                                  (compressed_loaded, empty_world) =
  (inl (ValueError "negative dimensions are not allowed"), compressed_dataset_rb) /\
  exists msg,
    generate_and_save_reduced_basis (Some all_detectors) 2 0 0 2 None ""
                                    (compressed_loaded, empty_world) =
    (inl (ValueError msg), compressed_dataset_rb).
Proof.
  split.
  - apply (proj1 (@builder_rejects_arguments_after_the_swap scalars linalg collaborators
                    compressed_loaded empty_world (Some all_detectors) (-1) 2 0 2 None ""
                    first_parameters first_strain eq_refl ltac:(discriminate))).
    lia.
  - apply (proj2 (@builder_rejects_arguments_after_the_swap scalars linalg collaborators
                    compressed_loaded empty_world (Some all_detectors) 2 0 0 2 None ""
                    first_parameters first_strain eq_refl ltac:(discriminate)));
      lia.
Defined.

Lemma builder_library_calls_witness :
  exists p strain,
    WaveformDataset.__getitem__ 0 compressed_dataset_rb =
    (inr (WaveformDataset.Tuple p strain), compressed_dataset_rb) /\
    calls built_world =
    (calls empty_world ++ replicate (length strain) call_randomized_svd ++
     concat ((fun ifo => [call_np_save (join "out" ("V_" +:+ ifo +:+ "" +:+ ".npy"));
                          call_np_save (join "out" ("s_" +:+ ifo +:+ "" +:+ ".npy"))])
               <$> keys strain))%list.
Proof.
  apply (@builder_library_calls scalars linalg collaborators (Some all_detectors)
           2 2 0 2 (Some "out") "" compressed_loaded empty_world built_paths
           (built_dataset, built_world)).
  exact eq_refl.
Defined.

Lemma load_leaves_one_dtype_witness :
  world_with "dataset.h5" compressed_h5 = world_with "dataset.h5" compressed_h5 /\
  WaveformDataset.transform compressed_loaded = WaveformDataset.transform unloaded /\
  WaveformDataset.single_precision compressed_loaded =
    WaveformDataset.single_precision unloaded /\
  WaveformDataset.is_truncated compressed_loaded = Some false /\
  is_Some (WaveformDataset._parameter_samples compressed_loaded) /\
  is_Some (WaveformDataset.domain compressed_loaded) /\
  exists hc hp Vh,
    WaveformDataset._hc compressed_loaded = Some hc /\
    WaveformDataset._hp compressed_loaded = Some hp /\
    WaveformDataset._Vh compressed_loaded = Some Vh /\
    dtype_of hc = precision (WaveformDataset.single_precision unloaded) /\
    dtype_of hp = precision (WaveformDataset.single_precision unloaded) /\
    dtype_of Vh = precision (WaveformDataset.single_precision unloaded).
Proof.
  apply (@load_leaves_one_dtype scalars collaborators "dataset.h5" unloaded
           (world_with "dataset.h5" compressed_h5) compressed_loaded
           (world_with "dataset.h5" compressed_h5)).
  exact eq_refl.
Defined.

(** The truncated dataset loaded again, from the file without a basis. *)
Lemma load_keeps_previous_Vh_witness :
  WaveformDataset._Vh reloaded =
    Some (np_array (WaveformDataset._Vh compressed_truncated)
                   (precision (WaveformDataset.single_precision compressed_truncated))) /\
  WaveformDataset.is_truncated reloaded = Some false.
Proof.
  apply (proj1 (@load_keeps_previous_Vh scalars collaborators "dataset.h5"
                  compressed_truncated (world_with "dataset.h5" uncompressed_h5)
                  uncompressed_h5 reloaded (world_with "dataset.h5" uncompressed_h5)
                  eq_refl eq_refl)).
  apply no_rb_matrix_V. reflexivity.
Defined.

Lemma load_rejection_keeps_new_parameters_witness :
  exists o',
    WaveformDataset.load "dataset.h5"
      (long_dataset, world_with "dataset.h5" creation_order_h5) =
    (inl (AssertionError ""), (o', world_with "dataset.h5" creation_order_h5)) /\
    WaveformDataset._parameter_samples o' =
      Some (WaveformDataset.mkDataFrame ["mass_1"; "mass_2"]
                                        [[re 30; re 20]; [re 35; re 25]]) /\
    WaveformDataset._hc o' = WaveformDataset._hc long_dataset /\
    WaveformDataset._hp o' = WaveformDataset._hp long_dataset /\
    WaveformDataset._Vh o' = WaveformDataset._Vh long_dataset /\
    WaveformDataset.domain o' = WaveformDataset.domain long_dataset /\
    WaveformDataset.is_truncated o' = WaveformDataset.is_truncated long_dataset /\
    WaveformDataset.__len__ (o', world_with "dataset.h5" creation_order_h5) =
    (inr (length [[re 30; re 20]; [re 35; re 25]]),
     (o', world_with "dataset.h5" creation_order_h5)).
Proof.
  apply (@load_rejection_keeps_new_parameters scalars collaborators "dataset.h5"
           long_dataset (world_with "dataset.h5" creation_order_h5) creation_order_h5
           ["mass_1"; "mass_2"] [[re 30; re 20]; [re 35; re 25]] creation_order_group).
  - exact eq_refl.
  - reflexivity.
  - reflexivity.
  - discriminate.
Defined.

Lemma len_counts_parameter_rows_witness :
  WaveformDataset.__len__ (compressed_loaded, world_with "dataset.h5" compressed_h5) =
  (inr (length [[re 30; re 20]; [re 35; re 25]]),
   (compressed_loaded, world_with "dataset.h5" compressed_h5)).
Proof.
  apply (@len_counts_parameter_rows scalars collaborators "dataset.h5" unloaded
           (world_with "dataset.h5" compressed_h5) compressed_h5
           ["mass_1"; "mass_2"] [[re 30; re 20]; [re 35; re 25]]).
  - exact eq_refl.
  - reflexivity.
  - exact eq_refl.
Defined.

Lemma get_info_raises_witness :
  WaveformDataset.get_info (compressed_loaded, empty_world) =
  (inl (AttributeError "info"), (compressed_loaded, empty_world)).
Proof.
  apply (proj1 (proj2 (@get_info_raises scalars collaborators
                         (compressed_loaded, empty_world)))).
  - eexists. reflexivity.
  - eexists. reflexivity.
Defined.

Lemma truncate_succeeds_at_most_once_witness :
  empty_world = empty_world /\
  WaveformDataset.is_truncated compressed_loaded = Some false /\
  WaveformDataset.is_truncated compressed_truncated = Some true /\
  (exists Vh dom dom' Vh',
      WaveformDataset._Vh compressed_loaded = Some Vh /\
      WaveformDataset.domain compressed_loaded = Some dom /\
      WaveformDataset.domain compressed_truncated = Some dom' /\
      py_index (shape Vh) (-1) = Some (domain_len dom) /\
      (@None (gauss * gauss) = None -> dom' = dom) /\
      truncate_data dom' Vh (bool_decide (@None (gauss * gauss) <> None)) = inr Vh' /\
      WaveformDataset._Vh compressed_truncated = Some Vh') /\
  forall again,
    WaveformDataset.truncate_dataset_domain again (compressed_truncated, empty_world) =
    (inl (ValueError "Dataset is already truncated"), (compressed_truncated, empty_world)).
Proof.
  apply (@truncate_succeeds_at_most_once scalars collaborators None compressed_loaded
           empty_world compressed_truncated empty_world).
  exact eq_refl.
Defined.

Lemma truncate_failure_keeps_the_data_witness :
  empty_world = empty_world /\
  WaveformDataset._Vh uncompressed_dataset_new_range =
    WaveformDataset._Vh uncompressed_dataset /\
  WaveformDataset.is_truncated uncompressed_dataset_new_range =
    WaveformDataset.is_truncated uncompressed_dataset /\
  WaveformDataset._hc uncompressed_dataset_new_range =
    WaveformDataset._hc uncompressed_dataset /\
  WaveformDataset._hp uncompressed_dataset_new_range =
    WaveformDataset._hp uncompressed_dataset /\
  WaveformDataset._parameter_samples uncompressed_dataset_new_range =
    WaveformDataset._parameter_samples uncompressed_dataset /\
  WaveformDataset.transform uncompressed_dataset_new_range =
    WaveformDataset.transform uncompressed_dataset /\
  (Some (re 1, re 2) = None -> uncompressed_dataset_new_range = uncompressed_dataset).
Proof.
  apply (@truncate_failure_keeps_the_data scalars collaborators (Some (re 1, re 2))
           uncompressed_dataset empty_world
           (NotImplementedError WaveformDataset.not_implemented_msg)
           uncompressed_dataset_new_range empty_world).
  exact eq_refl.
Defined.

Lemma getitem_negative_index_witness :
  WaveformDataset.__getitem__ (- 1) (compressed_loaded, empty_world) =
  WaveformDataset.__getitem__ (Z.of_nat 2 - 1) (compressed_loaded, empty_world).
Proof.
  apply (@getitem_negative_index scalars collaborators compressed_loaded empty_world
           compressed_table compressed_hc compressed_hp 1 2);
    try reflexivity.
  lia.
Defined.

Lemma getitem_out_of_range_witness :
  WaveformDataset.__getitem__ (-3) (compressed_loaded, empty_world) =
  (inl (IndexError "single positional indexer is out-of-bounds"),
   (compressed_loaded, empty_world)) /\
  WaveformDataset.__getitem__
    (Z.of_nat (length (WaveformDataset.df_records compressed_table)))
    (compressed_loaded, empty_world) =
  (inl (IndexError "single positional indexer is out-of-bounds"),
   (compressed_loaded, empty_world)).
Proof.
  apply (@getitem_out_of_range scalars collaborators compressed_loaded empty_world
           compressed_table (-3)).
  - reflexivity.
  - right. cbn. lia.
Defined.

Lemma getitem_decompresses_witness :
  exists hc' hp',
    let data := WaveformDataset.mkData
                  (zip (WaveformDataset.df_columns compressed_table) [re 30; re 20])
                  [("h_cross", Arr1 hc'); ("h_plus", Arr1 hp')] in
    WaveformDataset.__getitem__ 0 (compressed_loaded, empty_world) =
    (match WaveformDataset.transform compressed_loaded with
     | Some f => f data
     | None => inr (WaveformDataset.Data data)
     end, (compressed_loaded, empty_world)) /\
    length (elems hc') = ncols compressed_Vh /\ length (elems hp') = ncols compressed_Vh /\
    v_dtype hc' = result_type (m_dtype compressed_hc) (m_dtype compressed_Vh) /\
    v_dtype hp' = result_type (m_dtype compressed_hp) (m_dtype compressed_Vh) /\
    elems hc' = (fun c => dot (cast (v_dtype hc') <$> [re 1; re 2])
                              (cast (v_dtype hc') <$> c))
                  <$> rows (transpose compressed_Vh) /\
    elems hp' = (fun c => dot (cast (v_dtype hp') <$> [re 6; re 5])
                              (cast (v_dtype hp') <$> c))
                  <$> rows (transpose compressed_Vh).
Proof.
  apply (proj1 (@getitem_decompresses scalars collaborators compressed_loaded empty_world
                  compressed_table compressed_hc compressed_hp compressed_Vh 0
                  [re 30; re 20] [re 1; re 2] [re 6; re 5]
                  eq_refl eq_refl eq_refl eq_refl eq_refl eq_refl eq_refl));
    reflexivity.
Defined.

Lemma generate_basis_failure_keeps_the_basis_witness :
  zero_basis = zero_basis /\
  fs (logged zero_basis_world call_randomized_svd) = fs zero_basis_world.
Proof.
  apply (@generate_basis_failure_keeps_the_basis scalars linalg training_zeros (-1) "random"
           zero_basis zero_basis_world (ValueError "n_components must be non-negative")
           zero_basis (logged zero_basis_world call_randomized_svd)).
  exact eq_refl.
Defined.

(** The exact method with [n = -1] on a training matrix of shape (2, 3):
    one of the two basis vectors is kept. *)
Lemma generate_basis_scipy_rank_witness :
  exists mV mVh k,
    SVDBasis.V shortened_basis = Some (Arr2 mV) /\
    SVDBasis.Vh shortened_basis = Some (Arr2 mVh) /\
    SVDBasis.n shortened_basis = Some (Z.of_nat k) /\
    nrows mVh = k /\ ncols mVh = ncols training_zeros /\
    nrows mV = ncols training_zeros /\ ncols mV = k /\
    ((-1 = 0 \/ Z.of_nat (ncols training_zeros) < -1)%Z ->
     k = available_rank training_zeros) /\
    ((0 < -1 <= Z.of_nat (ncols training_zeros))%Z ->
     k = Nat.min (Z.to_nat (-1)) (available_rank training_zeros)) /\
    ((-1 < 0)%Z -> k = Z.to_nat (Z.of_nat (available_rank training_zeros) + -1)).
Proof.
  apply (@generate_basis_scipy_rank scalars linalg gge training_zeros (-1)
           SVDBasis.init empty_world shortened_basis shortened_world).
  - exact toy_scipy_svd_contract.
  - exact eq_refl.
Defined.

Lemma generate_basis_random_rank_witness :
  exists mV mVh,
    SVDBasis.V zero_basis = Some (Arr2 mV) /\ SVDBasis.Vh zero_basis = Some (Arr2 mVh) /\
    SVDBasis.n zero_basis = Some (Z.of_nat (nrows mVh)) /\
    nrows mVh = (if (2 =? 0)%Z then available_rank training_zeros else Z.to_nat 2) /\
    ncols mVh = ncols training_zeros /\ nrows mV = ncols training_zeros /\
    ncols mV = nrows mVh.
Proof.
  apply (@generate_basis_random_rank scalars linalg gge training_zeros 2
           SVDBasis.init empty_world zero_basis zero_basis_world).
  - exact toy_randomized_svd_contract.
  - cbn. lia.
  - exact eq_refl.
Defined.

Lemma compress_then_expand_lengths_witness :
  exists c f,
    SVDBasis.fseries_to_basis_coefficients
      (Arr1 (Vector complex128 [re 1; re 2; re 3])) (zero_basis, zero_basis_world) =
    (inr (Arr1 c), (zero_basis, zero_basis_world)) /\
    length (elems c) = ncols zero_V /\
    SVDBasis.basis_coefficients_to_fseries (Arr1 c) (zero_basis, zero_basis_world) =
    (inr (Arr1 f), (zero_basis, zero_basis_world)) /\
    length (elems f) = length (elems (Vector complex128 [re 1; re 2; re 3])).
Proof.
  apply (proj1 (@compress_then_expand_lengths scalars zero_basis zero_basis_world
                  zero_V (Vector complex128 [re 1; re 2; re 3])
                  zero_basis_conjugate_pair eq_refl)).
  reflexivity.
Defined.

Lemma from_file_failure_modes_witness :
  SVDBasis.from_file "missing.npy" (zero_basis, zero_basis_world) =
  (inl (FileNotFoundError "missing.npy"),
   (zero_basis, logged zero_basis_world (call_np_load "missing.npy"))).
Proof.
  apply (proj1 (@from_file_failure_modes scalars "missing.npy" zero_basis
                  zero_basis_world)).
  exact eq_refl.
Defined.

Lemma to_file_appends_extension_witness :
  exists w1,
    SVDBasis.to_file "V_H1" (zero_basis, zero_basis_world) = (inr tt, (zero_basis, w1)) /\
    fs w1 !! ("V_H1" +:+ ".npy") = Some (NpyFile (Arr2 zero_V)) /\
    fs w1 !! "V_H1" = None /\
    forall b0, (SVDBasis.from_file "V_H1" (b0, w1)).1 = inl (FileNotFoundError "V_H1").
Proof.
  apply (@to_file_appends_extension scalars "V_H1" zero_basis zero_basis_world
           (Arr2 zero_V)).
  - reflexivity.
  - exact eq_refl.
  - exact eq_refl.
Defined.

Lemma load_missing_pieces_witness :
  WaveformDataset.load "nowhere.h5" (unloaded, empty_world) =
  (inl (FileNotFoundError "nowhere.h5"), (unloaded, empty_world)).
Proof.
  apply (proj1 (@load_missing_pieces scalars collaborators "nowhere.h5" unloaded
                  empty_world)).
  exact eq_refl.
Defined.

Lemma getitem_without_matrix_returns_stored_rows_witness :
  let data := WaveformDataset.mkData
                (zip ["mass_1"] [re 30])
                [("h_cross", Arr1 (Vector complex64 [re 1; re 2; re 3]));
                 ("h_plus", Arr1 (Vector complex64 [re 3; re 2; re 1]))] in
  WaveformDataset.__getitem__ 0 (uncompressed_dataset, empty_world) =
  (match WaveformDataset.transform uncompressed_dataset with
   | Some f => f data
   | None => inr (WaveformDataset.Data data)
   end, (uncompressed_dataset, empty_world)).
Proof.
  apply (@getitem_without_matrix_returns_stored_rows scalars collaborators
           uncompressed_dataset empty_world
           (@WaveformDataset.mkDataFrame scalars ["mass_1"] [[re 30]])
           (Matrix complex64 1 3 [[re 1; re 2; re 3]])
           (Matrix complex64 1 3 [[re 3; re 2; re 1]])
           0 [re 30] [re 1; re 2; re 3] [re 3; re 2; re 1]);
    reflexivity.
Defined.

Lemma generate_basis_overwrites_the_basis_witness :
  SVDBasis.generate_basis training_zeros 2 "random" (cut_basis, empty_world) =
  (inr tt, (zero_basis, zero_basis_world)).
Proof.
  apply (@generate_basis_overwrites_the_basis scalars linalg training_zeros 2 "random"
           SVDBasis.init cut_basis empty_world zero_basis zero_basis_world).
  exact eq_refl.
Defined.

End Examples.
